(** * Campus commute tracker: live bus tracking and bus selection

    A shallow embedding of the two page components that carry the
    application's logic,

    - [src/pages/TrackBus.tsx]: the geo-distance calculator
      ([calculateDistance]), the proximity evaluator
      ([checkProximityToStops]), the location subscription
      ([subscribeToLocationUpdates], [loadLatestLocation]) and the live
      marker ([updateBusMarker]);
    - [src/pages/StudentDashboard.tsx]: the bus selection
      ([handleSelectBus]).

    Conventions of the embedding.

    - In the modules [JS], [Geo] and [TrackBus] a JavaScript [number]
      holding a coordinate or a distance is a real number ([R]) and
      [Math.sin], [Math.cos], [Math.sqrt], [Math.atan2] are the mathematical
      functions: what is proved there of [calculateDistance] is proved of
      the formula the code evaluates, in exact arithmetic.
    - The module [Double] is [calculateDistance] again, in the arithmetic
      the program runs in: IEEE 754 binary64, with the engine's [Math.sin],
      [Math.cos] and [Math.atan2] as a parameter. There the haversine term
      of two nearly antipodal points can round to a value just above 1,
      [Math.sqrt (1 - a)] is NaN and so is the distance.
    - The hosted backend, the toast library and the map widget are
      collaborators: every call the code makes to one of them is appended to
      a trace, and what the backend answers is an input of the model.
    - An asynchronous function is split at its [await]: the part before it
      issues the request, the part after it is a handler run when the
      environment delivers the answer. *)

From Stdlib Require Import Reals Lra Lia List String ZArith Bool Sorted.
From Stdlib Require PrimFloat.
Import ListNotations.

Local Open Scope string_scope.
Local Open Scope list_scope.
Local Open Scope R_scope.

(* ================================================================== *)
(** * The JavaScript numeric primitives the code uses *)
(* ================================================================== *)

Module JS.

(** [Number(x)] applied to a value that already is a number. *)
Definition Number (x : R) : R := x.

(** [Math.atan2(y, x)]: the angle of the point [(x, y)], in the range
    (-PI, PI], by the usual case analysis on the quadrant. *)
Definition atan2 (y x : R) : R :=
  match total_order_T 0 x with
  | inleft (left _) (* 0 < x *) => atan (y / x)
  | inleft (right _) (* x = 0 *) =>
      match total_order_T 0 y with
      | inleft (left _) => PI / 2
      | inleft (right _) => 0
      | inright _ => - (PI / 2)
      end
  | inright _ (* x < 0 *) =>
      if Rle_dec 0 y then atan (y / x) + PI else atan (y / x) - PI
  end.

(** [x < y] on numbers, as a boolean. *)
Definition lt (x y : R) : bool := if Rlt_dec x y then true else false.

(** Truthiness of a string: the empty string is falsy. *)
Definition truthy (v : string) : bool := negb (String.eqb v EmptyString).

End JS.

(* ================================================================== *)
(** * Geo-distance calculator (TrackBus.tsx, lines 200-210) *)
(* ================================================================== *)

Module Geo.
Import JS.

(** The haversine term [a] of [calculateDistance]. *)
Definition haversine_a (lat1 lon1 lat2 lon2 : R) : R :=
  let dLat := (lat2 - lat1) * PI / 180 in
  let dLon := (lon2 - lon1) * PI / 180 in
  sin (dLat / 2) * sin (dLat / 2) +
  cos (lat1 * PI / 180) * cos (lat2 * PI / 180) *
  sin (dLon / 2) * sin (dLon / 2).

(** [calculateDistance], as written: the [atan2] form. *)
Definition calculateDistance (lat1 lon1 lat2 lon2 : R) : R :=
  let R := 6371 in
  let dLat := (lat2 - lat1) * PI / 180 in
  let dLon := (lon2 - lon1) * PI / 180 in
  let a :=
    sin (dLat / 2) * sin (dLat / 2) +
    cos (lat1 * PI / 180) * cos (lat2 * PI / 180) *
    sin (dLon / 2) * sin (dLon / 2) in
  let c := 2 * atan2 (sqrt a) (sqrt (1 - a)) in
  R * c.




End Geo.

(* ================================================================== *)
(** * The geo-distance calculator in double precision *)
(* ================================================================== *)

Module Double.
Import PrimFloat.
Local Open Scope float_scope.

(** [Math.sin], [Math.cos] and [Math.atan2] belong to the JavaScript
    engine: ECMAScript leaves their precision to the implementation, and
    [calculateDistance] takes them as a parameter. The operators [+], [-],
    [*], [/] and [Math.sqrt] are those of IEEE 754 binary64, rounding to
    nearest. *)
Record Engine : Type := mkEngine {
  Math_sin : float -> float;
  Math_cos : float -> float;
  Math_atan2 : float -> float -> float
}.

(** [Math.PI], the double nearest to the number. *)
Definition Math_PI : float := 0x1.921fb54442d18p+1.

Definition Math_sqrt (x : float) : float := sqrt x.

(** The haversine term [a] of [calculateDistance]. *)
Definition haversine_a (Math : Engine) (lat1 lon1 lat2 lon2 : float) : float :=
  let dLat := (lat2 - lat1) * Math_PI / 180 in
  let dLon := (lon2 - lon1) * Math_PI / 180 in
  Math_sin Math (dLat / 2) * Math_sin Math (dLat / 2) +
  Math_cos Math (lat1 * Math_PI / 180) * Math_cos Math (lat2 * Math_PI / 180) *
  Math_sin Math (dLon / 2) * Math_sin Math (dLon / 2).

(** [calculateDistance] (lines 200-210), operation by operation. *)
Definition calculateDistance (Math : Engine) (lat1 lon1 lat2 lon2 : float)
    : float :=
  let R := 6371 in
  let dLat := (lat2 - lat1) * Math_PI / 180 in
  let dLon := (lon2 - lon1) * Math_PI / 180 in
  let a :=
    Math_sin Math (dLat / 2) * Math_sin Math (dLat / 2) +
    Math_cos Math (lat1 * Math_PI / 180) * Math_cos Math (lat2 * Math_PI / 180) *
    Math_sin Math (dLon / 2) * Math_sin Math (dLon / 2) in
  let c := 2 * Math_atan2 Math (Math_sqrt a) (Math_sqrt (1 - a)) in
  R * c.

(** [PROXIMITY_THRESHOLD] (line 182): the double the literal [0.005]
    denotes. *)
Definition PROXIMITY_THRESHOLD : float := 0x1.47ae147ae147bp-8.





End Double.

(* ================================================================== *)
(** * The tracking page (TrackBus.tsx) *)
(* ================================================================== *)

Module TrackBus.
Import JS Geo.

(** [interface BusLocation] *)
Module BusLocation.
Record t : Type := mk {
  latitude : R;
  longitude : R;
  timestamp : string
}.
End BusLocation.

(** [interface Stop] *)
Module Stop.
Record t : Type := mk {
  id : string;
  name : string;
  latitude : R;
  longitude : R;
  stop_order : Z
}.
End Stop.

(** A [[lng, lat]] pair handed to the map widget. *)
Definition LngLat : Type := (R * R)%type.

(** A query built with the backend client:
    [from(table).select(columns).eq(column, value)], optionally
    [.order(column, { ascending })], [.limit(n)] and [.single()]. *)
Record Query : Type := mkQuery {
  q_from : string;
  q_select : string;
  q_eq : string * string;
  q_order : option (string * bool);
  q_limit : option nat;
  q_single : bool
}.

(** What the page does to its collaborators, in the order it does it. The two
    [call_] entries record that a function of the page itself was entered;
    they let a property count its invocations. *)
Inductive Call : Type :=
| toast_info (message : string) (duration : Z)
| toast_error (message : string)
| Map_new (center : LngLat) (zoom : Z)
| Map_addControl
| Map_flyTo (center : LngLat) (zoom : Z)
| Marker_new (color : string) (lngLat : LngLat) (popupHTML : string)
| Marker_setLngLat (lngLat : LngLat)
| channel_subscribe (channelName table filter : string)
| removeChannel
| select (q : Query)
| call_updateBusMarker (location : BusLocation.t)
| call_checkProximityToStops (location : BusLocation.t).

(** The requests whose answer the page is waiting for. *)
Inductive Request : Type :=
| ReqBusInfo
| ReqBusRoute
| ReqStops
| ReqLatestLocation.

Definition Request_eqb (a b : Request) : bool :=
  match a, b with
  | ReqBusInfo, ReqBusInfo
  | ReqBusRoute, ReqBusRoute
  | ReqStops, ReqStops
  | ReqLatestLocation, ReqLatestLocation => true
  | _, _ => false
  end.

(** Removes one occurrence of [r] from the pending requests, if there is
    one: an answer is handled only when its request was issued. *)
Fixpoint take (r : Request) (l : list Request) : option (list Request) :=
  match l with
  | [] => None
  | x :: l' =>
      if Request_eqb r x then Some l'
      else match take r l' with
           | Some l'' => Some (x :: l'')
           | None => None
           end
  end.

(** What an effect hands back to the framework to be run at unmount. *)
Inductive Cleanup : Type :=
| cleanup_removeChannel.

(** The component instance: its route parameter, its state ([useState]), its
    references ([useRef]), and around it the realtime subscription, the
    requests in flight and the trace of calls.

    [channel] holds the [stops] the subscription's callback closed over: the
    callback is the one created by the render that ran
    [subscribeToLocationUpdates], and [checkProximityToStops] inside it
    reads the [stops] of that render. *)
Record Session : Type := mkSession {
  busId : string;
  mounted : bool;
  busLocation : option BusLocation.t;
  stops : list Stop.t;
  busInfo : option string;
  mapboxToken : string;
  map_current : bool;
  busMarker_current : option LngLat;
  channel : option (list Stop.t);
  cleanups : list Cleanup;
  pending : list Request;
  trace : list Call
}.

Definition with_mounted (v : bool) (s : Session) : Session :=
  mkSession (busId s) v (busLocation s) (stops s) (busInfo s) (mapboxToken s)
    (map_current s) (busMarker_current s) (channel s) (cleanups s) (pending s)
    (trace s).

Definition with_busLocation (v : option BusLocation.t) (s : Session) : Session :=
  mkSession (busId s) (mounted s) v (stops s) (busInfo s) (mapboxToken s)
    (map_current s) (busMarker_current s) (channel s) (cleanups s) (pending s)
    (trace s).

Definition with_stops (v : list Stop.t) (s : Session) : Session :=
  mkSession (busId s) (mounted s) (busLocation s) v (busInfo s) (mapboxToken s)
    (map_current s) (busMarker_current s) (channel s) (cleanups s) (pending s)
    (trace s).

Definition with_busInfo (v : option string) (s : Session) : Session :=
  mkSession (busId s) (mounted s) (busLocation s) (stops s) v (mapboxToken s)
    (map_current s) (busMarker_current s) (channel s) (cleanups s) (pending s)
    (trace s).

Definition with_mapboxToken (v : string) (s : Session) : Session :=
  mkSession (busId s) (mounted s) (busLocation s) (stops s) (busInfo s) v
    (map_current s) (busMarker_current s) (channel s) (cleanups s) (pending s)
    (trace s).

Definition with_map_current (v : bool) (s : Session) : Session :=
  mkSession (busId s) (mounted s) (busLocation s) (stops s) (busInfo s)
    (mapboxToken s) v (busMarker_current s) (channel s) (cleanups s)
    (pending s) (trace s).

Definition with_busMarker_current (v : option LngLat) (s : Session) : Session :=
  mkSession (busId s) (mounted s) (busLocation s) (stops s) (busInfo s)
    (mapboxToken s) (map_current s) v (channel s) (cleanups s) (pending s)
    (trace s).

Definition with_channel (v : option (list Stop.t)) (s : Session) : Session :=
  mkSession (busId s) (mounted s) (busLocation s) (stops s) (busInfo s)
    (mapboxToken s) (map_current s) (busMarker_current s) v (cleanups s)
    (pending s) (trace s).

Definition with_cleanups (v : list Cleanup) (s : Session) : Session :=
  mkSession (busId s) (mounted s) (busLocation s) (stops s) (busInfo s)
    (mapboxToken s) (map_current s) (busMarker_current s) (channel s) v
    (pending s) (trace s).

Definition with_pending (v : list Request) (s : Session) : Session :=
  mkSession (busId s) (mounted s) (busLocation s) (stops s) (busInfo s)
    (mapboxToken s) (map_current s) (busMarker_current s) (channel s)
    (cleanups s) v (trace s).

Definition with_trace (v : list Call) (s : Session) : Session :=
  mkSession (busId s) (mounted s) (busLocation s) (stops s) (busInfo s)
    (mapboxToken s) (map_current s) (busMarker_current s) (channel s)
    (cleanups s) (pending s) v.

(** Appends calls to the trace. *)
Definition emit (cs : list Call) (s : Session) : Session :=
  with_trace (trace s ++ cs) s.

(** Issues a request: the query goes out, its answer is awaited. *)
Definition request (r : Request) (q : Query) (s : Session) : Session :=
  with_pending (pending s ++ [r]) (emit [select q] s).

(** [array.forEach(body)] where the body acts on the session. *)
Definition forEach {A : Type} (l : list A) (body : A -> Session -> Session)
    (s : Session) : Session :=
  fold_left (fun acc x => body x acc) l s.

(** ** State setters

    A state setter called on an unmounted component changes nothing. *)

Definition setBusLocation (v : BusLocation.t) (s : Session) : Session :=
  if mounted s then with_busLocation (Some v) s else s.

Definition setStops (v : list Stop.t) (s : Session) : Session :=
  if mounted s then with_stops v s else s.

Definition setBusInfo (v : string) (s : Session) : Session :=
  if mounted s then with_busInfo (Some v) s else s.

Definition setMapboxToken (v : string) (s : Session) : Session :=
  if mounted s then with_mapboxToken v s else s.

(** ** The functions of the component *)

(** [initializeMap] (lines 56-69). The container element exists for as long
    as the component is mounted. *)
Definition initializeMap (s : Session) : Session :=
  if negb (mounted s) || negb (truthy (mapboxToken s)) then s
  else
    emit [Map_addControl]
      (with_map_current true (emit [Map_new (78.4867, 17.3850) 12] s)).

(** [calculateDistance] is [Geo.calculateDistance]. *)

(** [checkProximityToStops] (lines 181-198); [stops] is the value the
    enclosing render bound. *)
Definition PROXIMITY_THRESHOLD : R := 0.005.

Definition approaching (stop : Stop.t) : Call :=
  toast_info (String.append "🚌 Bus approaching " (Stop.name stop)) 5000.

Definition checkProximityToStops (stops : list Stop.t)
    (location : BusLocation.t) (s : Session) : Session :=
  forEach stops
    (fun stop s =>
       let distance :=
         calculateDistance
           (Number (BusLocation.latitude location))
           (Number (BusLocation.longitude location))
           (Number (Stop.latitude stop))
           (Number (Stop.longitude stop)) in
       if lt distance PROXIMITY_THRESHOLD
       then emit [approaching stop] s
       else s)
    (emit [call_checkProximityToStops location] s).

(** [updateBusMarker] (lines 159-179). *)
Definition updateBusMarker (location : BusLocation.t) (s : Session) : Session :=
  let s := emit [call_updateBusMarker location] s in
  if negb (map_current s) then s
  else
    let coords : LngLat :=
      (Number (BusLocation.longitude location),
       Number (BusLocation.latitude location)) in
    let s :=
      match busMarker_current s with
      | Some _ =>
          with_busMarker_current (Some coords) (emit [Marker_setLngLat coords] s)
      | None =>
          with_busMarker_current (Some coords)
            (emit [Marker_new "#10B981" coords "<strong>Your Bus</strong>"] s)
      end in
    emit [Map_flyTo coords 14] s.

(** [loadBusInfo] (lines 71-84), up to its [await]. *)
Definition loadBusInfo (s : Session) : Session :=
  request ReqBusInfo
    (mkQuery "buses" "*, bus_routes(routes(*))" ("id", busId s) None None true) s.

(** [loadStops] (lines 86-114), up to its first [await]. *)
Definition loadStops (s : Session) : Session :=
  request ReqBusRoute
    (mkQuery "bus_routes" "route_id" ("bus_id", busId s) None None true) s.

(** [loadLatestLocation] (lines 145-157), up to its [await]. *)
Definition loadLatestLocation (s : Session) : Session :=
  request ReqLatestLocation
    (mkQuery "bus_locations" "*" ("bus_id", busId s)
       (Some ("timestamp", false)) (Some 1%nat) true) s.

(** [subscribeToLocationUpdates] (lines 116-143): opens the channel, whose
    callback closes over the current [stops], starts the eager fetch and
    returns the function that removes the channel. *)
Definition subscribeToLocationUpdates (s : Session) : Session * Cleanup :=
  let s :=
    with_channel (Some (stops s))
      (emit [channel_subscribe "bus-location-updates" "bus_locations"
               (String.append "bus_id=eq." (busId s))] s) in
  let s := loadLatestLocation s in
  (s, cleanup_removeChannel).

(** ** The effects *)

(** First effect (lines 38-42), dependencies [[busId]]. Its body is three
    statements and no [return]: the function [subscribeToLocationUpdates]
    returns is dropped, and nothing is registered for unmount. *)
Definition effect_busId (s : Session) : Session * option Cleanup :=
  let s := loadBusInfo s in
  let s := loadStops s in
  let '(s, _) := subscribeToLocationUpdates s in
  (s, None).

(** Second effect (lines 44-48), dependencies [[mapboxToken]]. *)
Definition effect_mapboxToken (s : Session) : Session :=
  if truthy (mapboxToken s) && mounted s && negb (map_current s)
  then initializeMap s
  else s.

(** Third effect (lines 50-54), dependencies [[busLocation]]. *)
Definition effect_busLocation (s : Session) : Session :=
  match busLocation s with
  | Some location => if map_current s then updateBusMarker location s else s
  | None => s
  end.

(** The render that follows a state update, and the effect whose dependency
    that update changed. An unmounted component is not rendered again. *)
Definition commit_busLocation (s : Session) : Session :=
  if mounted s then effect_busLocation s else s.

Definition commit_mapboxToken (s : Session) : Session :=
  if mounted s then effect_mapboxToken s else s.

Definition run_cleanup (c : Cleanup) (s : Session) : Session :=
  match c with
  | cleanup_removeChannel => with_channel None (emit [removeChannel] s)
  end.

(** ** The life of a session *)

(** The component is mounted for [busId]: first render with the initial
    state, then the three effects in order. *)
Definition initial (busId : string) : Session :=
  mkSession busId true None [] None EmptyString false None None [] [] [].

Definition mount (busId : string) : Session :=
  let s := initial busId in
  let '(s, c) := effect_busId s in
  let s :=
    match c with
    | Some c => with_cleanups (cleanups s ++ [c]) s
    | None => s
    end in
  let s := effect_mapboxToken s in
  effect_busLocation s.

(** What reaches the component afterwards. A [None] answer is an answer with
    an error or without data. Each event is handled to its end, commit
    included, before the next one; rows pushed before the component renders
    again are the matter of the module [Rendering]. *)
Inductive Event : Type :=
| BusInfoAnswer (data : option string)
| BusRouteAnswer (busRoute : option string)
| StopsAnswer (stopsData : option (list Stop.t))
| LatestLocationAnswer (data : option BusLocation.t)
| Insert (new : BusLocation.t)
| TokenInput (value : string)
| Unmount.

(** The realtime callback (lines 127-133), run with the [stops] it closed
    over, then the commit of its state update. *)
Definition on_insert (captured : list Stop.t) (newLocation : BusLocation.t)
    (s : Session) : Session :=
  let s := setBusLocation newLocation s in
  let s := checkProximityToStops captured newLocation s in
  commit_busLocation s.

(** [loadLatestLocation] after its [await] (lines 154-156). *)
Definition loadLatestLocation_resume (data : option BusLocation.t)
    (s : Session) : Session :=
  match data with
  | Some d => commit_busLocation (setBusLocation d s)
  | None => s
  end.

(** [loadBusInfo] after its [await] (lines 78-83). *)
Definition loadBusInfo_resume (data : option string) (s : Session) : Session :=
  match data with
  | None => emit [toast_error "Failed to load bus information"] s
  | Some d => setBusInfo d s
  end.

(** [loadStops] after its first [await] (lines 94-100). *)
Definition loadStops_resume1 (busRoute : option string) (s : Session) : Session :=
  match busRoute with
  | None => s
  | Some route_id =>
      request ReqStops
        (mkQuery "stops" "*" ("route_id", route_id)
           (Some ("stop_order", true)) None false) s
  end.

(** The marker of a stop (lines 107-110). *)
Definition stop_marker (stop : Stop.t) : Call :=
  Marker_new "#F59E0B"
    (Number (Stop.longitude stop), Number (Stop.latitude stop))
    (String.append "<strong>" (String.append (Stop.name stop) "</strong>")).

(** [loadStops] after its second [await] (lines 102-113). *)
Definition loadStops_resume2 (stopsData : option (list Stop.t))
    (s : Session) : Session :=
  match stopsData with
  | Some stopsData =>
      let s := setStops stopsData s in
      if map_current s then
        forEach stopsData (fun stop s => emit [stop_marker stop] s) s
      else s
  | None => s
  end.

(** The input of the token field (line 253). *)
Definition on_token_input (value : string) (s : Session) : Session :=
  if String.eqb value (mapboxToken s) then s
  else commit_mapboxToken (setMapboxToken value s).

(** Unmount: the registered cleanups run, then the component is gone. *)
Definition unmount (s : Session) : Session :=
  with_mounted false (with_cleanups [] (fold_left (fun acc c => run_cleanup c acc) (cleanups s) s)).

Definition answered (r : Request) (k : Session -> Session) (s : Session) : Session :=
  match take r (pending s) with
  | Some rest => k (with_pending rest s)
  | None => s
  end.

Definition step (e : Event) (s : Session) : Session :=
  match e with
  | BusInfoAnswer data => answered ReqBusInfo (loadBusInfo_resume data) s
  | BusRouteAnswer busRoute => answered ReqBusRoute (loadStops_resume1 busRoute) s
  | StopsAnswer stopsData => answered ReqStops (loadStops_resume2 stopsData) s
  | LatestLocationAnswer data =>
      answered ReqLatestLocation (loadLatestLocation_resume data) s
  | Insert new =>
      match channel s with
      | Some captured => on_insert captured new s
      | None => s
      end
  | TokenInput value => if mounted s then on_token_input value s else s
  | Unmount => if mounted s then unmount s else s
  end.

Definition run (es : list Event) (s : Session) : Session :=
  fold_left (fun acc e => step e acc) es s.

(** ** Views of the trace *)

(** The locations [updateBusMarker] was invoked with, in order. *)
Fixpoint updateBusMarker_calls (tr : list Call) : list BusLocation.t :=
  match tr with
  | [] => []
  | call_updateBusMarker l :: tr' => l :: updateBusMarker_calls tr'
  | _ :: tr' => updateBusMarker_calls tr'
  end.

(** The locations [checkProximityToStops] was invoked with, in order. *)
Fixpoint checkProximityToStops_calls (tr : list Call) : list BusLocation.t :=
  match tr with
  | [] => []
  | call_checkProximityToStops l :: tr' => l :: checkProximityToStops_calls tr'
  | _ :: tr' => checkProximityToStops_calls tr'
  end.

(** The calls that move the live marker or the view: placing the marker
    (created in the live marker's colour, or moved) and recentring. *)
Definition is_live_marker_call (c : Call) : bool :=
  match c with
  | Marker_setLngLat _ | Map_flyTo _ _ => true
  | Marker_new color _ _ => String.eqb color "#10B981"
  | _ => false
  end.

Definition live_marker_calls (tr : list Call) : list Call :=
  filter is_live_marker_call tr.

(** The toasts of the trace. *)
Definition is_toast (c : Call) : bool :=
  match c with
  | toast_info _ _ | toast_error _ => true
  | _ => false
  end.

Definition toasts (tr : list Call) : list Call := filter is_toast tr.

(** The queries sent to a table. *)
Definition queries_from (table : string) (tr : list Call) : list Query :=
  flat_map (fun c =>
    match c with
    | select q => if String.eqb (q_from q) table then [q] else []
    | _ => []
    end) tr.

Definition is_removeChannel (c : Call) : bool :=
  match c with
  | removeChannel => true
  | _ => false
  end.

(** The stop is within the threshold of the location. *)
Definition near (location : BusLocation.t) (stop : Stop.t) : bool :=
  lt (calculateDistance
        (BusLocation.latitude location) (BusLocation.longitude location)
        (Stop.latitude stop) (Stop.longitude stop))
     PROXIMITY_THRESHOLD.

(** Stops in ascending [stop_order], the order [loadStops] asks for. *)
Definition ascending_stop_order (l : list Stop.t) : Prop :=
  StronglySorted (fun a b => (Stop.stop_order a <= Stop.stop_order b)%Z) l.

(** The coordinates [updateBusMarker] hands to the map for a location. *)
Definition coords (location : BusLocation.t) : LngLat :=
  (BusLocation.longitude location, BusLocation.latitude location).

(** Placing the live marker: moved when it exists, created otherwise. *)
Definition place (marker : option LngLat) (c : LngLat) : Call :=
  match marker with
  | Some _ => Marker_setLngLat c
  | None => Marker_new "#10B981" c "<strong>Your Bus</strong>"
  end.

(** What one invocation of [updateBusMarker] adds to the trace. *)
Definition marker_update (marker : option LngLat) (location : BusLocation.t)
    : list Call :=
  [call_updateBusMarker location; place marker (coords location);
   Map_flyTo (coords location) 14].

(** What one invocation of [checkProximityToStops] adds to the trace. *)
Definition proximity_events (stops : list Stop.t) (location : BusLocation.t)
    : list Call :=
  call_checkProximityToStops location ::
  map approaching (filter (near location) stops).

(** What one position delivered on the channel adds to the trace: the
    callback's proximity evaluation, then the marker update of the commit
    when a map is attached. *)
Definition delivery (captured : list Stop.t) (map_attached : bool)
    (marker : option LngLat) (location : BusLocation.t) : list Call :=
  proximity_events captured location ++
  (if map_attached then marker_update marker location else []).

(** What the live marker shows of a session: the current position, where
    the marker is, and the marker updates made so far. *)
Definition live_view (s : Session)
    : option BusLocation.t * option LngLat * list BusLocation.t * list Call :=
  (busLocation s, busMarker_current s,
   updateBusMarker_calls (trace s), live_marker_calls (trace s)).

(** An event that carries a position to the session. *)
Definition delivers_position (e : Event) : bool :=
  match e with
  | Insert _ | LatestLocationAnswer (Some _) => true
  | _ => false
  end.

End TrackBus.

(* ================================================================== *)
(** * The dashboard (StudentDashboard.tsx): choosing a bus *)
(* ================================================================== *)

Module StudentDashboard.

(** A row of the table [student_buses]: the two columns the page writes.
    The columns [id] and [assigned_at] take their defaults. *)
Module Assignment.
Record t : Type := mk {
  student_id : string;
  bus_id : string
}.
End Assignment.

(** What the page does to its collaborators, in order. *)
Inductive Call : Type :=
| delete_eq (table column value : string)
| insert (table : string) (row : Assignment.t)
| select_single (table columns : string) (column value : string)
| toast_error (message : string)
| toast_success (message : string).

(** Whether the backend carries a request out, or answers with an error
    and leaves the table as it was (network, authorization). *)
Inductive Outcome : Type :=
| Served
| Refused.

(** The page and the table behind it: the signed-in user's id, if any, the
    rows of [student_buses], and the trace of calls. *)
Record World : Type := mkWorld {
  user : option string;
  student_buses : list Assignment.t;
  trace : list Call
}.

Definition emit (cs : list Call) (w : World) : World :=
  mkWorld (user w) (student_buses w) (trace w ++ cs).

Definition with_student_buses (rows : list Assignment.t) (w : World) : World :=
  mkWorld (user w) rows (trace w).

Definition belongs_to (student : string) (row : Assignment.t) : bool :=
  String.eqb (Assignment.student_id row) student.

Definition same_assignment (a b : Assignment.t) : bool :=
  String.eqb (Assignment.student_id a) (Assignment.student_id b) &&
  String.eqb (Assignment.bus_id a) (Assignment.bus_id b).

(** [delete().eq('student_id', student)] as the backend performs it: every
    row of the student goes. The answer is whether there was an error. *)
Definition backend_delete (o : Outcome) (student : string)
    (rows : list Assignment.t) : list Assignment.t * bool :=
  match o with
  | Served => (filter (fun r => negb (belongs_to student r)) rows, false)
  | Refused => (rows, true)
  end.

(** [insert(row)] as the backend performs it: the table has
    [UNIQUE(student_id, bus_id)], a second row for the same pair is an
    error. *)
Definition backend_insert (o : Outcome) (row : Assignment.t)
    (rows : list Assignment.t) : list Assignment.t * bool :=
  match o with
  | Served =>
      if existsb (same_assignment row) rows then (rows, true)
      else (rows ++ [row], false)
  | Refused => (rows, true)
  end.

(** [loadMyBus] (lines 45-62), up to its [await]. *)
Definition loadMyBus (w : World) : World :=
  match user w with
  | None => w
  | Some user_id =>
      emit [select_single "student_buses" "bus_id, buses(*)"
              "student_id" user_id] w
  end.

(** [handleSelectBus] (lines 64-85). [del] and [ins] are what the backend
    does with the two writes. *)
Definition handleSelectBus (busId : string) (del ins : Outcome) (w : World)
    : World :=
  match user w with
  | None => w
  | Some user_id =>
      (* Remove existing assignment: the answer is not looked at *)
      let w := emit [delete_eq "student_buses" "student_id" user_id] w in
      let '(rows, _) := backend_delete del user_id (student_buses w) in
      let w := with_student_buses rows w in
      (* Add new assignment *)
      let row := Assignment.mk user_id busId in
      let w := emit [insert "student_buses" row] w in
      let '(rows, error) := backend_insert ins row (student_buses w) in
      let w := with_student_buses rows w in
      if error then emit [toast_error "Failed to select bus"] w
      else loadMyBus (emit [toast_success "Bus selected successfully"] w)
  end.

(** The rows of a student. *)
Definition assignments_of (student : string) (rows : list Assignment.t)
    : list Assignment.t :=
  filter (belongs_to student) rows.

(** The rows of everybody else. *)
Definition assignments_of_others (student : string)
    (rows : list Assignment.t) : list Assignment.t :=
  filter (fun r => negb (belongs_to student r)) rows.

(** The failure notices of a trace. *)
Definition failure_notices (tr : list Call) : list Call :=
  filter (fun c => match c with toast_error _ => true | _ => false end) tr.

(** The writes of a trace. *)
Definition writes (tr : list Call) : list Call :=
  filter (fun c =>
            match c with
            | delete_eq _ _ _ | insert _ _ => true
            | _ => false
            end) tr.

End StudentDashboard.

(* ================================================================== *)
(** * The tracking page: what it renders, and more views of the trace *)
(* ================================================================== *)

Module TrackBusView.
Import JS TrackBus.

(** What the returned markup depends on (lines 212-287): the title
    [busInfo?.bus_number || 'Loading...'], the token overlay shown while
    [!mapboxToken], and the status card shown while [busLocation] is set,
    which carries the badge "Live" and the time of the last update. *)
Record View : Type := mkView {
  title : string;
  token_overlay : bool;
  status_card : option string
}.

Definition render (s : Session) : View :=
  mkView
    (match busInfo s with
     | Some bus_number => if truthy bus_number then bus_number else "Loading..."
     | None => "Loading..."
     end)
    (negb (truthy (mapboxToken s)))
    (match busLocation s with
     | Some location => Some (BusLocation.timestamp location)
     | None => None
     end).

(** The markers created in the colour of the stops. *)
Definition is_stop_marker (c : Call) : bool :=
  match c with
  | Marker_new color _ _ => String.eqb color "#F59E0B"
  | _ => false
  end.

Definition stop_marker_calls (tr : list Call) : list Call :=
  filter is_stop_marker tr.

(** The creations of the live marker. *)
Definition is_live_marker_new (c : Call) : bool :=
  match c with
  | Marker_new color _ _ => String.eqb color "#10B981"
  | _ => false
  end.

Definition live_marker_creations (tr : list Call) : list Call :=
  filter is_live_marker_new tr.

(** The creations of the map. *)
Definition is_Map_new (c : Call) : bool :=
  match c with
  | Map_new _ _ => true
  | _ => false
  end.

Definition map_creations (tr : list Call) : list Call := filter is_Map_new tr.

(** The queries, and the subscriptions. *)
Definition is_select (c : Call) : bool :=
  match c with
  | select _ => true
  | _ => false
  end.

Definition is_channel_subscribe (c : Call) : bool :=
  match c with
  | channel_subscribe _ _ _ => true
  | _ => false
  end.

(** How many answers to a request of kind [r] are awaited. *)
Definition waiting (r : Request) (l : list Request) : nat :=
  List.length (filter (Request_eqb r) l).

End TrackBusView.

(* ================================================================== *)
(** * The dashboard page around the bus selection *)
(* ================================================================== *)

Module DashboardPage.
Import JS StudentDashboard.

(** [interface BusData] *)
Module BusData.
Record t : Type := mk {
  id : string;
  bus_number : string;
  driver_name : string;
  driver_phone : string
}.
End BusData.

(** The calls of the page that [StudentDashboard.Call] does not have. *)
Inductive PageCall : Type :=
| select_buses
| console_error (message code : string)
| navigate (path : string)
| signOut.

(** The page: the world of the bus selection (user, table, toasts and
    writes), the state of the component, whether it is still the page shown,
    the answers it waits for, and its other calls. A request of [loadMyBus]
    is a [select_single] of the world's trace; [myBus_answered] counts the
    answers handled. *)
Record Page : Type := mkPage {
  world : World;
  buses : list BusData.t;
  myBus : option BusData.t;
  loading : bool;
  here : bool;
  buses_pending : bool;
  myBus_answered : nat;
  log : list PageCall
}.

Definition with_world (v : World) (p : Page) : Page :=
  mkPage v (buses p) (myBus p) (loading p) (here p) (buses_pending p)
    (myBus_answered p) (log p).

Definition with_buses (v : list BusData.t) (p : Page) : Page :=
  mkPage (world p) v (myBus p) (loading p) (here p) (buses_pending p)
    (myBus_answered p) (log p).

Definition with_myBus (v : option BusData.t) (p : Page) : Page :=
  mkPage (world p) (buses p) v (loading p) (here p) (buses_pending p)
    (myBus_answered p) (log p).

Definition with_loading (v : bool) (p : Page) : Page :=
  mkPage (world p) (buses p) (myBus p) v (here p) (buses_pending p)
    (myBus_answered p) (log p).

Definition with_here (v : bool) (p : Page) : Page :=
  mkPage (world p) (buses p) (myBus p) (loading p) v (buses_pending p)
    (myBus_answered p) (log p).

Definition with_buses_pending (v : bool) (p : Page) : Page :=
  mkPage (world p) (buses p) (myBus p) (loading p) (here p) v
    (myBus_answered p) (log p).

Definition with_myBus_answered (v : nat) (p : Page) : Page :=
  mkPage (world p) (buses p) (myBus p) (loading p) (here p) (buses_pending p)
    v (log p).

Definition logged (cs : list PageCall) (p : Page) : Page :=
  mkPage (world p) (buses p) (myBus p) (loading p) (here p) (buses_pending p)
    (myBus_answered p) (log p ++ cs).

(** State setters: without effect once the page has been left. *)
Definition setBuses (v : list BusData.t) (p : Page) : Page :=
  if here p then with_buses v p else p.

Definition setMyBus (v : option BusData.t) (p : Page) : Page :=
  if here p then with_myBus v p else p.

Definition setLoading (v : bool) (p : Page) : Page :=
  if here p then with_loading v p else p.

(** [loadBuses] (lines 30-43), up to its [await]. *)
Definition loadBuses (p : Page) : Page :=
  with_buses_pending true (logged [select_buses] p).

(** [loadBuses] after its [await]: on an error the notice is shown and the
    function returns; otherwise the list is stored and the spinner ends. *)
Definition loadBuses_resume (error : bool) (data : option (list BusData.t))
    (p : Page) : Page :=
  if error then
    with_world (emit [toast_error "Failed to load buses"] (world p)) p
  else
    let p := setBuses (match data with Some d => d | None => [] end) p in
    setLoading false p.

(** [loadMyBus] after its [await] (lines 54-61): [error] is the code of the
    error, if there is one; [data] is the row, if there is one, and in it
    the bus it joins, if it is visible. *)
Definition loadMyBus_resume (error : option string)
    (data : option (option BusData.t)) (p : Page) : Page :=
  let report :=
    match error with
    | Some code => negb (String.eqb code "PGRST116")
    | None => false
    end in
  if report then
    logged [console_error "Error loading student bus:"
              (match error with Some code => code | None => "" end)] p
  else
    match data with
    | Some bus => setMyBus bus p
    | None => p
    end.

(** [handleTrackBus] (lines 87-91). *)
Definition handleTrackBus (p : Page) : Page :=
  match myBus p with
  | Some bus =>
      with_here false
        (logged [navigate (String.append "/track/" (BusData.id bus))] p)
  | None => p
  end.

(** [handleLogout] (lines 93-96). *)
Definition handleLogout (p : Page) : Page :=
  with_here false (logged [signOut; navigate "/auth"] p).

(** The requests of [loadMyBus] sent so far. *)
Definition myBus_requests (tr : list Call) : nat :=
  List.length
    (filter (fun c => match c with select_single _ _ _ _ => true | _ => false end)
       tr).

(** The page is mounted (lines 21-28): the initial state, then the effect,
    which calls [loadBuses] and [loadMyBus]. *)
Definition mount (user : option string) (rows : list Assignment.t) : Page :=
  let p := mkPage (mkWorld user rows []) [] None true true false 0 [] in
  let p := loadBuses p in
  with_world (loadMyBus (world p)) p.

(** What the markup offers (lines 98-189): nothing but the spinner while
    [loading]; afterwards the logout button, the track button when a bus is
    set, and one button per listed bus, disabled for the bus that is set. *)
Definition is_my_bus (p : Page) (busId : string) : bool :=
  match myBus p with
  | Some bus => String.eqb (BusData.id bus) busId
  | None => false
  end.

Definition select_enabled (p : Page) (busId : string) : bool :=
  here p && negb (loading p) &&
  existsb (fun bus => String.eqb (BusData.id bus) busId) (buses p) &&
  negb (is_my_bus p busId).

Definition track_offered (p : Page) : bool :=
  here p && negb (loading p) &&
  match myBus p with Some _ => true | None => false end.

Definition logout_offered (p : Page) : bool :=
  here p && negb (loading p).

(** What reaches the page: the two answers, and the clicks. A click on the
    button of a bus comes with what the backend does with the two writes of
    [handleSelectBus]. *)
Inductive Event : Type :=
| BusesAnswer (error : bool) (data : option (list BusData.t))
| MyBusAnswer (error : option string) (data : option (option BusData.t))
| ClickSelect (busId : string) (del ins : Outcome)
| ClickTrack
| ClickLogout.

Definition step (e : Event) (p : Page) : Page :=
  match e with
  | BusesAnswer error data =>
      if buses_pending p
      then loadBuses_resume error data (with_buses_pending false p)
      else p
  | MyBusAnswer error data =>
      if Nat.ltb (myBus_answered p) (myBus_requests (trace (world p)))
      then loadMyBus_resume error data
             (with_myBus_answered (S (myBus_answered p)) p)
      else p
  | ClickSelect busId del ins =>
      if select_enabled p busId
      then with_world (handleSelectBus busId del ins (world p)) p
      else p
  | ClickTrack => if track_offered p then handleTrackBus p else p
  | ClickLogout => if logout_offered p then handleLogout p else p
  end.

Definition run (es : list Event) (p : Page) : Page :=
  fold_left (fun acc e => step e acc) es p.

(** The rows inserted by the calls of a trace. *)
Definition inserted (tr : list Call) : list Assignment.t :=
  flat_map (fun c => match c with insert _ row => [row] | _ => [] end) tr.

Definition success_notices (tr : list Call) : list Call :=
  filter (fun c => match c with toast_success _ => true | _ => false end) tr.

End DashboardPage.

(* ================================================================== *)
(** * Invariants of the tracking session *)
(* ================================================================== *)

Module TrackBusInvariants.
Import JS TrackBus TrackBusView.

(** The live marker was created once if it exists and never otherwise;
    when it exists, a map does, and the marker sits at the current
    position. *)
Definition marker_ok (s : Session) : Prop :=
  List.length (live_marker_creations (trace s)) =
    match busMarker_current s with Some _ => 1%nat | None => 0%nat end /\
  (forall c, busMarker_current s = Some c ->
     map_current s = true /\
     exists p, busLocation s = Some p /\ c = coords p).

(** The stops are being loaded: one request at most is awaited, the one
    for the route or the one for the stops; until the stops are answered
    none is stored and no stop marker is placed, and until the route is
    answered the stops have not been asked for. *)
Definition stops_loading_ok (s : Session) : Prop :=
  (waiting ReqBusRoute (pending s) + waiting ReqStops (pending s) <= 1)%nat /\
  (waiting ReqBusRoute (pending s) = 1%nat ->
   stops s = [] /\ queries_from "stops" (trace s) = [] /\
   stop_marker_calls (trace s) = []) /\
  (waiting ReqStops (pending s) = 1%nat ->
   stops s = [] /\ stop_marker_calls (trace s) = []).

(** The loading of the stops is over. *)
Definition stops_settled (s : Session) : Prop :=
  waiting ReqBusRoute (pending s) = 0%nat /\
  waiting ReqStops (pending s) = 0%nat.

(** What the stops left on the page and on the map. *)
Definition stops_view (s : Session) : list Stop.t * list Query * list Call :=
  (stops s, queries_from "stops" (trace s), stop_marker_calls (trace s)).

(** The bus information is being loaded: one request at most is awaited,
    and until it is answered nothing is stored. *)
Definition info_loading_ok (s : Session) : Prop :=
  (waiting ReqBusInfo (pending s) <= 1)%nat /\
  (waiting ReqBusInfo (pending s) = 1%nat -> busInfo s = None).

(** The queries sent and the subscriptions opened so far. *)
Definition queries_sent (s : Session) : nat :=
  List.length (filter is_select (trace s)).

Definition subscriptions (s : Session) : list Call :=
  filter is_channel_subscribe (trace s).

End TrackBusInvariants.

(* ================================================================== *)
(** * Invariants of the dashboard page *)
(* ================================================================== *)

Module DashboardInvariants.
Import StudentDashboard DashboardPage.

(** While the list of buses is awaited the spinner is shown; while the
    spinner is shown nothing has been inserted; and every row inserted is a
    row of the signed-in student for a bus of the list on the page. *)
Definition selection_ok (signed_in : option string) (p : Page) : Prop :=
  user (world p) = signed_in /\
  (buses_pending p = true -> loading p = true) /\
  (loading p = true -> inserted (trace (world p)) = []) /\
  (forall row, In row (inserted (trace (world p))) ->
     signed_in = Some (Assignment.student_id row) /\
     In (Assignment.bus_id row) (map BusData.id (buses p))).

Definition is_navigate (c : PageCall) : bool :=
  match c with
  | navigate _ => true
  | _ => false
  end.

End DashboardInvariants.

(* ================================================================== *)
(** * Rows pushed between two renders (TrackBus.tsx, lines 50-54, 127-133) *)
(* ================================================================== *)

Module Rendering.
Import JS Geo TrackBus.

(** The realtime callback alone (lines 127-133): [setBusLocation] queues
    the state update, [checkProximityToStops] runs at once. The render
    comes afterwards. *)
Definition callback (captured : list Stop.t) (newLocation : BusLocation.t)
    (s : Session) : Session :=
  let s := setBusLocation newLocation s in
  checkProximityToStops captured newLocation s.

(** Rows pushed one after the other before the component renders again. The
    callback runs for each of them in turn; the state updates they queued
    are applied by one render, where the last one wins, and the third
    effect (lines 50-54), whose dependency changed, runs once, with that
    position. Without a row there is no render. *)
Definition on_inserts (captured : list Stop.t) (rows : list BusLocation.t)
    (s : Session) : Session :=
  match rows with
  | [] => s
  | _ :: _ => commit_busLocation (forEach rows (callback captured) s)
  end.

Definition deliver (rows : list BusLocation.t) (s : Session) : Session :=
  match channel s with
  | Some captured => on_inserts captured rows s
  | None => s
  end.

(** Batches of rows, a render after each batch. *)
Definition deliveries (batches : list (list BusLocation.t)) (s : Session)
    : Session :=
  fold_left (fun acc rows => deliver rows acc) batches s.

(** The last row of a batch: the position its render shows. *)
Fixpoint latest (rows : list BusLocation.t) : option BusLocation.t :=
  match rows with
  | [] => None
  | p :: rows' =>
      match latest rows' with
      | Some q => Some q
      | None => Some p
      end
  end.

(** The positions rendered: the last row of each batch. *)
Definition rendered (batches : list (list BusLocation.t))
    : list BusLocation.t :=
  flat_map (fun rows =>
              match latest rows with
              | Some p => [p]
              | None => []
              end) batches.

(** What the marker updates for the rendered positions do to the live
    marker and the view, starting from [marker]. *)
Fixpoint marker_moves (marker : option LngLat) (ps : list BusLocation.t)
    : list Call :=
  match ps with
  | [] => []
  | p :: ps' =>
      place marker (coords p) :: Map_flyTo (coords p) 14 ::
      marker_moves (Some (coords p)) ps'
  end.

End Rendering.

(* ================================================================== *)
(** * Properties of the geo-distance calculator *)
(* ================================================================== *)

Module GeoFacts.
Import JS Geo.

Lemma atan2_pos_x (y x : R) : 0 < x -> atan2 y x = atan (y / x).
Proof.
  intros Hx. unfold atan2.
  destruct (total_order_T 0 x) as [[H | H] | H]; [reflexivity | lra | lra].
Qed.

Lemma atan2_zero_x_pos_y (y : R) : 0 < y -> atan2 y 0 = PI / 2.
Proof.
  intros Hy. unfold atan2.
  destruct (total_order_T 0 0) as [[H | H] | H]; try lra.
  destruct (total_order_T 0 y) as [[H' | H'] | H']; [reflexivity | lra | lra].
Qed.

Lemma calculateDistance_unfold (lat1 lon1 lat2 lon2 : R) :
  calculateDistance lat1 lon1 lat2 lon2 =
  6371 * (2 * atan2 (sqrt (haversine_a lat1 lon1 lat2 lon2))
                    (sqrt (1 - haversine_a lat1 lon1 lat2 lon2))).
Proof. reflexivity. Qed.


(** [sin^2] of half an angle, through the cosine of the angle. *)
Lemma sin_half_sq (x : R) : sin (x / 2) * sin (x / 2) = (1 - cos x) / 2.
Proof.
  replace (cos x) with (cos (2 * (x / 2))) by (f_equal; lra).
  rewrite cos_2a_sin. lra.
Qed.

Lemma sin_half_sq_bounds (x : R) : 0 <= sin (x / 2) * sin (x / 2) <= 1.
Proof.
  rewrite sin_half_sq. pose proof (COS_bound x) as [? ?]. lra.
Qed.

(** The haversine term is a convex combination of two numbers of [0, 1],
    whatever the four coordinates are. *)
Lemma haversine_a_bounds (lat1 lon1 lat2 lon2 : R) :
  0 <= haversine_a lat1 lon1 lat2 lon2 <= 1.
Proof.
  unfold haversine_a. cbv zeta.
  set (p1 := lat1 * PI / 180). set (p2 := lat2 * PI / 180).
  replace ((lat2 - lat1) * PI / 180) with (p2 - p1) by (unfold p1, p2; lra).
  set (s := sin ((lon2 - lon1) * PI / 180 / 2)).
  assert (Hs : 0 <= s * s <= 1).
  { pose proof (sin_half_sq_bounds ((lon2 - lon1) * PI / 180)). exact H. }
  rewrite sin_half_sq, cos_minus.
  pose proof (COS_bound (p2 - p1)) as [Hm1 Hm2]. rewrite cos_minus in Hm1, Hm2.
  pose proof (COS_bound (p2 + p1)) as [Hp1 Hp2]. rewrite cos_plus in Hp1, Hp2.
  replace (cos p1 * cos p2 * s * s) with (cos p2 * cos p1 * (s * s)) by ring.
  set (cc := cos p2 * cos p1) in *.
  set (ss := sin p2 * sin p1) in *.
  set (t := s * s) in *.
  assert (Hlo : 0 <= (1 - t) * (1 - (cc + ss)) + t * (1 + (cc - ss))).
  { apply Rplus_le_le_0_compat; apply Rmult_le_pos; lra. }
  assert (Hhi : 0 <= (1 - t) * (1 + (cc + ss)) + t * (1 - (cc - ss))).
  { apply Rplus_le_le_0_compat; apply Rmult_le_pos; lra. }
  split; lra.
Qed.

(** On the arguments [calculateDistance] passes, [atan2] is [asin]. *)
Lemma atan2_sqrt_asin (a : R) :
  0 <= a <= 1 -> atan2 (sqrt a) (sqrt (1 - a)) = asin (sqrt a).
Proof.
  intros [H0 H1].
  destruct (Req_dec_T a 1) as [-> | Hne].
  - replace (1 - 1) with 0 by lra.
    rewrite sqrt_0, sqrt_1, asin_1.
    apply atan2_zero_x_pos_y; lra.
  - assert (Hlt : a < 1) by lra.
    assert (Hx : 0 < sqrt (1 - a)) by (apply sqrt_lt_R0; lra).
    assert (Hsq : (sqrt a)² = a) by (apply Rsqr_sqrt; exact H0).
    assert (Hs1 : sqrt a < 1).
    { rewrite <- sqrt_1. apply sqrt_lt_1; lra. }
    pose proof (sqrt_pos a) as Hs0.
    rewrite atan2_pos_x by exact Hx.
    rewrite asin_atan by lra.
    rewrite Hsq. reflexivity.
Qed.



Lemma haversine_a_sym (lat1 lon1 lat2 lon2 : R) :
  haversine_a lat1 lon1 lat2 lon2 = haversine_a lat2 lon2 lat1 lon1.
Proof.
  unfold haversine_a. cbv zeta.
  replace ((lat1 - lat2) * PI / 180 / 2)
    with (- ((lat2 - lat1) * PI / 180 / 2)) by lra.
  replace ((lon1 - lon2) * PI / 180 / 2)
    with (- ((lon2 - lon1) * PI / 180 / 2)) by lra.
  rewrite !sin_neg. ring.
Qed.

Lemma calculateDistance_asin (lat1 lon1 lat2 lon2 : R) :
  calculateDistance lat1 lon1 lat2 lon2 =
  6371 * (2 * asin (sqrt (haversine_a lat1 lon1 lat2 lon2))).
Proof.
  rewrite calculateDistance_unfold.
  rewrite atan2_sqrt_asin by apply haversine_a_bounds.
  reflexivity.
Qed.

(** Two points of the equator at most half a turn apart, the second one to
    the east: the distance is the arc, radius times angle. *)
Lemma calculateDistance_equator (lon1 lon2 : R) :
  0 <= lon2 - lon1 <= 180 ->
  calculateDistance 0 lon1 0 lon2 = 6371 * ((lon2 - lon1) * PI / 180).
Proof.
  intros [Hlo Hhi].
  rewrite calculateDistance_asin. unfold haversine_a. cbv zeta.
  set (x := (lon2 - lon1) * PI / 180 / 2).
  pose proof PI_RGT_0 as Hpi.
  assert (Hx : 0 <= x <= PI / 2).
  { unfold x. split.
    - apply Rmult_le_pos; [ apply Rmult_le_pos; [ apply Rmult_le_pos |] |]; lra.
    - assert ((lon2 - lon1) * PI <= 180 * PI)
        by (apply Rmult_le_compat_r; lra).
      lra. }
  replace ((0 - 0) * PI / 180 / 2) with 0 by lra.
  replace (0 * PI / 180) with 0 by lra.
  rewrite sin_0, cos_0.
  replace (0 * 0 + 1 * 1 * sin x * sin x) with ((sin x)²) by (unfold Rsqr; ring).
  assert (Hsin : 0 <= sin x) by (apply sin_ge_0; lra).
  rewrite sqrt_Rsqr by exact Hsin.
  rewrite asin_sin by lra.
  unfold x. lra.
Qed.

Lemma calculateDistance_same_point (lat lon : R) :
  calculateDistance lat lon lat lon = 0.
Proof.
  rewrite calculateDistance_asin. unfold haversine_a. cbv zeta.
  replace ((lat - lat) * PI / 180 / 2) with 0 by lra.
  replace ((lon - lon) * PI / 180 / 2) with 0 by lra.
  rewrite sin_0.
  replace (0 * 0 + cos (lat * PI / 180) * cos (lat * PI / 180) * 0 * 0)
    with 0 by ring.
  rewrite sqrt_0, asin_0. ring.
Qed.


(** C9. [calculateDistance] is symmetric in its two points. *)
Theorem calculateDistance_symmetric (lat1 lon1 lat2 lon2 : R) :
  calculateDistance lat1 lon1 lat2 lon2 = calculateDistance lat2 lon2 lat1 lon1.
Proof.
  rewrite !calculateDistance_unfold.
  rewrite (haversine_a_sym lat1 lon1 lat2 lon2). reflexivity.
Qed.



End GeoFacts.

(* ================================================================== *)
(** * The geo-distance calculator evaluated in doubles *)
(* ================================================================== *)

Module DoubleFacts.
Import PrimFloat Double.
Import R_sqrt.

Lemma calculateDistance_haversine_a (Math : Engine)
    (lat1 lon1 lat2 lon2 : float) :
  calculateDistance Math lat1 lon1 lat2 lon2 =
  (6371 * (2 * Math_atan2 Math
                 (Math_sqrt (haversine_a Math lat1 lon1 lat2 lon2))
                 (Math_sqrt (1 - haversine_a Math lat1 lon1 lat2 lon2))))%float.
Proof. reflexivity. Qed.

(** Whatever the engine, if its sine and cosine return the doubles nearest
    to the exact values at the arguments met for (2.5, 0) and (-2.5, 180),
    and its [atan2] returns NaN for a NaN, as ECMAScript requires, then the
    haversine term of these two points is the double just above 1 and the
    distance is NaN. *)
Lemma not_a_number_near_antipodes (Math : Engine) :
  Math_sin Math (-0x1.657184ae74487p-5)%float = (-0x1.65547c4694e11p-5)%float ->
  Math_sin Math 0x1.921fb54442d18p+0%float = 1%float ->
  Math_cos Math 0x1.657184ae74487p-5%float = 0x1.ff833f9da45f7p-1%float ->
  Math_cos Math (-0x1.657184ae74487p-5)%float = 0x1.ff833f9da45f7p-1%float ->
  (forall y : float, Math_atan2 Math y nan = nan) ->
  haversine_a Math 2.5 0 (-2.5) 180 = 0x1.0000000000001p+0%float /\
  is_nan (calculateDistance Math 2.5 0 (-2.5) 180) = true.
Proof.
  intros H1 H2 H3 H4 H5.
  assert (Ha : haversine_a Math 2.5 0 (-2.5) 180 = 0x1.0000000000001p+0%float).
  { unfold haversine_a. cbv zeta.
    change ((-2.5 - 2.5) * Math_PI / 180 / 2)%float
      with (-0x1.657184ae74487p-5)%float.
    change ((180 - 0) * Math_PI / 180 / 2)%float
      with 0x1.921fb54442d18p+0%float.
    change (2.5 * Math_PI / 180)%float with 0x1.657184ae74487p-5%float.
    change (-2.5 * Math_PI / 180)%float with (-0x1.657184ae74487p-5)%float.
    rewrite H1, H2, H3, H4. vm_compute. reflexivity. }
  split; [exact Ha |].
  rewrite calculateDistance_haversine_a, Ha.
  change (Math_sqrt (1 - 0x1.0000000000001p+0)) with nan.
  rewrite H5. vm_compute. reflexivity.
Qed.






End DoubleFacts.
(* ================================================================== *)
(** * Properties of the proximity evaluator *)
(* ================================================================== *)

Module ProximityFacts.
Import JS Geo GeoFacts TrackBus.

Lemma emit_emit (cs ds : list Call) (s : Session) :
  emit ds (emit cs s) = emit (cs ++ ds) s.
Proof.
  unfold emit, with_trace. simpl. rewrite app_assoc. reflexivity.
Qed.

Lemma emit_nil (s : Session) : emit [] s = s.
Proof.
  destruct s. unfold emit, with_trace. simpl. rewrite app_nil_r. reflexivity.
Qed.

Lemma lt_true_iff (x y : R) : lt x y = true <-> x < y.
Proof.
  unfold lt. destruct (Rlt_dec x y); split; intros; try assumption;
    try reflexivity; try discriminate; contradiction.
Qed.

Lemma lt_false_iff (x y : R) : lt x y = false <-> ~ x < y.
Proof.
  unfold lt. destruct (Rlt_dec x y); split; intros; try assumption;
    try reflexivity; try discriminate; contradiction.
Qed.

(** The loop of [checkProximityToStops], started on a session that has
    already emitted [cs]. *)
Lemma proximity_loop (location : BusLocation.t) (stops : list Stop.t) :
  forall (cs : list Call) (s : Session),
    forEach stops
      (fun stop s => if near location stop then emit [approaching stop] s else s)
      (emit cs s) =
    emit (cs ++ map approaching (filter (near location) stops)) s.
Proof.
  unfold forEach.
  induction stops as [| stop stops IH]; intros cs s; simpl.
  - rewrite app_nil_r. reflexivity.
  - destruct (near location stop).
    + rewrite emit_emit, IH. simpl. rewrite <- app_assoc. reflexivity.
    + apply IH.
Qed.

(** One call of the evaluator: its own entry, then one toast per stop
    within the threshold, in the order of [stops]; nothing else changes. *)
Lemma checkProximityToStops_emits (stops : list Stop.t)
    (location : BusLocation.t) (s : Session) :
  checkProximityToStops stops location s =
  emit (call_checkProximityToStops location ::
        map approaching (filter (near location) stops)) s.
Proof.
  exact (proximity_loop location stops [call_checkProximityToStops location] s).
Qed.

Lemma filter_ascending (f : Stop.t -> bool) (l : list Stop.t) :
  ascending_stop_order l -> ascending_stop_order (filter f l).
Proof.
  unfold ascending_stop_order.
  induction 1 as [| a l Hl IH Ha]; simpl.
  - constructor.
  - destruct (f a).
    + constructor; [exact IH |].
      rewrite Forall_forall in *. intros x Hx.
      apply filter_In in Hx. apply Ha. tauto.
    + exact IH.
Qed.

(** A stop a thousandth of a degree east of the bus, both on the equator,
    is about 111 m away. *)
Lemma thousandth_degree_east :
  0.1 < calculateDistance 0 0 0 0.001 < 0.15.
Proof.
  rewrite calculateDistance_equator by lra.
  pose proof PI2_3_2. pose proof PI_4. split; lra.
Qed.

End ProximityFacts.

(* ================================================================== *)
(** * Properties of the tracking session *)
(* ================================================================== *)

Module SessionFacts.
Import JS Geo TrackBus ProximityFacts.

Lemma updateBusMarker_calls_app (a b : list Call) :
  updateBusMarker_calls (a ++ b) =
  updateBusMarker_calls a ++ updateBusMarker_calls b.
Proof.
  induction a as [| c a IH]; simpl; [reflexivity |].
  destruct c; simpl; rewrite ?IH; reflexivity.
Qed.

Lemma checkProximityToStops_calls_app (a b : list Call) :
  checkProximityToStops_calls (a ++ b) =
  checkProximityToStops_calls a ++ checkProximityToStops_calls b.
Proof.
  induction a as [| c a IH]; simpl; [reflexivity |].
  destruct c; simpl; rewrite ?IH; reflexivity.
Qed.

Lemma live_marker_calls_app (a b : list Call) :
  live_marker_calls (a ++ b) = live_marker_calls a ++ live_marker_calls b.
Proof. apply filter_app. Qed.

Lemma toasts_app (a b : list Call) : toasts (a ++ b) = toasts a ++ toasts b.
Proof. apply filter_app. Qed.

Lemma toasts_approaching (l : list Stop.t) :
  toasts (map approaching l) = map approaching l.
Proof.
  induction l as [| x l IH]; [reflexivity |].
  change (approaching x :: toasts (map approaching l) =
          approaching x :: map approaching l).
  rewrite IH. reflexivity.
Qed.

Lemma updateBusMarker_calls_approaching (l : list Stop.t) :
  updateBusMarker_calls (map approaching l) = [].
Proof. induction l as [| x l IH]; simpl; [reflexivity | exact IH]. Qed.

Lemma checkProximityToStops_calls_approaching (l : list Stop.t) :
  checkProximityToStops_calls (map approaching l) = [].
Proof. induction l as [| x l IH]; simpl; [reflexivity | exact IH]. Qed.

Lemma live_marker_calls_approaching (l : list Stop.t) :
  live_marker_calls (map approaching l) = [].
Proof. induction l as [| x l IH]; simpl; [reflexivity | exact IH]. Qed.

Lemma place_is_live (m : option LngLat) (c : LngLat) :
  is_live_marker_call (place m c) = true.
Proof. destruct m; reflexivity. Qed.

Lemma views_of_proximity_events (stops : list Stop.t) (p : BusLocation.t) :
  updateBusMarker_calls (proximity_events stops p) = [] /\
  live_marker_calls (proximity_events stops p) = [] /\
  checkProximityToStops_calls (proximity_events stops p) = [p] /\
  toasts (proximity_events stops p) = map approaching (filter (near p) stops).
Proof.
  unfold proximity_events. simpl.
  rewrite updateBusMarker_calls_approaching,
    checkProximityToStops_calls_approaching.
  pose proof (live_marker_calls_approaching (filter (near p) stops)) as Hl.
  pose proof (toasts_approaching (filter (near p) stops)) as Ht.
  unfold live_marker_calls, toasts in *. rewrite Hl, Ht. auto.
Qed.

Lemma views_of_marker_update (m : option LngLat) (p : BusLocation.t) :
  updateBusMarker_calls (marker_update m p) = [p] /\
  live_marker_calls (marker_update m p) =
    [place m (coords p); Map_flyTo (coords p) 14] /\
  checkProximityToStops_calls (marker_update m p) = [] /\
  toasts (marker_update m p) = [].
Proof.
  unfold marker_update. destruct m; simpl; auto.
Qed.

(** The third effect on a mounted session whose location was just set. *)
Lemma commit_busLocation_after_set (p : BusLocation.t) (s : Session) :
  mounted s = true -> busLocation s = Some p ->
  let s' := commit_busLocation s in
  mounted s' = true /\ channel s' = channel s /\
  map_current s' = map_current s /\ busLocation s' = Some p /\
  stops s' = stops s /\ pending s' = pending s /\ cleanups s' = cleanups s /\
  trace s' =
    trace s ++
    (if map_current s then marker_update (busMarker_current s) p else []) /\
  busMarker_current s' =
    (if map_current s then Some (coords p) else busMarker_current s).
Proof.
  intros Hm Hl. unfold commit_busLocation, effect_busLocation.
  rewrite Hm, Hl.
  destruct (map_current s) eqn:Hmap.
  - unfold updateBusMarker. simpl. rewrite Hmap. simpl.
    destruct (busMarker_current s); simpl;
      rewrite <- !app_assoc; simpl; repeat split; assumption.
  - cbv zeta. rewrite app_nil_r. repeat split; assumption.
Qed.

(** One position delivered on the channel of a mounted session. *)
Lemma on_insert_mounted (captured : list Stop.t) (p : BusLocation.t)
    (s : Session) :
  mounted s = true ->
  let s' := on_insert captured p s in
  mounted s' = true /\ channel s' = channel s /\
  map_current s' = map_current s /\ busLocation s' = Some p /\
  stops s' = stops s /\ pending s' = pending s /\ cleanups s' = cleanups s /\
  trace s' =
    trace s ++ proximity_events captured p ++
    (if map_current s then marker_update (busMarker_current s) p else []) /\
  busMarker_current s' =
    (if map_current s then Some (coords p) else busMarker_current s).
Proof.
  intros Hm. unfold on_insert, setBusLocation. rewrite Hm.
  rewrite checkProximityToStops_emits. fold (proximity_events captured p).
  set (s2 := emit (proximity_events captured p) (with_busLocation (Some p) s)).
  assert (Hm2 : mounted s2 = true) by exact Hm.
  assert (Hl2 : busLocation s2 = Some p) by reflexivity.
  pose proof (commit_busLocation_after_set p s2 Hm2 Hl2) as H.
  cbv zeta in *.
  destruct H as (H1 & H2 & H3 & H4 & H5 & H6 & H7 & H8 & H9).
  repeat split; try assumption.
  rewrite H8. unfold s2. simpl. rewrite <- app_assoc. reflexivity.
Qed.


Lemma step_insert_mounted (captured : list Stop.t) (p : BusLocation.t)
    (s : Session) :
  mounted s = true -> channel s = Some captured ->
  let s' := step (Insert p) s in
  mounted s' = true /\ channel s' = Some captured /\
  map_current s' = map_current s /\ busLocation s' = Some p /\
  trace s' =
    trace s ++ delivery captured (map_current s) (busMarker_current s) p /\
  busMarker_current s' =
    (if map_current s then Some (coords p) else busMarker_current s).
Proof.
  intros Hm Hc. simpl. rewrite Hc.
  pose proof (on_insert_mounted captured p s Hm) as H. cbv zeta in H.
  destruct H as (H1 & H2 & H3 & H4 & _ & _ & _ & H8 & H9).
  rewrite Hc in H2. repeat split; assumption.
Qed.

(** X23. One call of [checkProximityToStops] changes nothing but the
    trace: it adds its own entry, then one notification per stop within the
    threshold, in the order of the list, and none for another stop. For
    stops in ascending [stop_order], the order [loadStops] asks the backend
    for, the notifications are in ascending [stop_order]. Nothing is
    remembered from one call to the next: a second call with the same
    stops and position emits the same notifications again. *)
Theorem proximity_events_per_call (stops : list Stop.t)
    (location : BusLocation.t) (s : Session) :
  let notified := filter (near location) stops in
  let events :=
    call_checkProximityToStops location :: map approaching notified in
  checkProximityToStops stops location s = emit events s /\
  toasts events = map approaching notified /\
  (forall stop : Stop.t,
     In stop notified <-> In stop stops /\ near location stop = true) /\
  (ascending_stop_order stops -> ascending_stop_order notified) /\
  checkProximityToStops stops location
    (checkProximityToStops stops location s) =
    emit (events ++ events) s.
Proof.
  intros notified events.
  split; [| split; [| split; [| split]]].
  - apply checkProximityToStops_emits.
  - apply (views_of_proximity_events stops location).
  - intros stop. apply filter_In.
  - intros Hsorted. apply filter_ascending. exact Hsorted.
  - rewrite !checkProximityToStops_emits, emit_emit. reflexivity.
Qed.

Lemma proximity_events_per_call_witness :
  let stop1 := Stop.mk "stop-1" "Main Gate" 17.385 78.4867 1 in
  let stop2 := Stop.mk "stop-2" "Library" 17.39 78.49 2 in
  let location := BusLocation.mk 17.385 78.4867 "2024-01-01T08:00:00Z" in
  ascending_stop_order [stop1; stop2] /\
  ascending_stop_order (filter (near location) [stop1; stop2]).
Proof.
  cbv zeta.
  assert (Hsorted : ascending_stop_order
            [Stop.mk "stop-1" "Main Gate" 17.385 78.4867 1;
             Stop.mk "stop-2" "Library" 17.39 78.49 2]).
  { unfold ascending_stop_order. repeat constructor; simpl; lia. }
  split; [exact Hsorted |].
  exact (proj1 (proj2 (proj2 (proj2
           (proximity_events_per_call _
              (BusLocation.mk 17.385 78.4867 "2024-01-01T08:00:00Z")
              (initial "bus-1"))))) Hsorted).
Defined.

Lemma views_of_delivery (captured : list Stop.t) (m : bool)
    (marker : option LngLat) (p : BusLocation.t) :
  let cs := delivery captured m marker p in
  updateBusMarker_calls cs = (if m then [p] else []) /\
  live_marker_calls cs =
    (if m then [place marker (coords p); Map_flyTo (coords p) 14] else []) /\
  checkProximityToStops_calls cs = [p].
Proof.
  cbv zeta. unfold delivery.
  rewrite updateBusMarker_calls_app, live_marker_calls_app,
    checkProximityToStops_calls_app.
  destruct (views_of_proximity_events captured p) as (E1 & E2 & E3 & _).
  rewrite E1, E2, E3.
  destruct m.
  - destruct (views_of_marker_update marker p) as (F1 & F2 & F3 & _).
    rewrite F1, F2, F3. auto.
  - auto.
Qed.

(** ** After unmount *)

Lemma stop_markers_loop (l : list Stop.t) :
  forall s : Session,
    forEach l (fun stop s => emit [stop_marker stop] s) s =
    emit (map stop_marker l) s.
Proof.
  unfold forEach.
  induction l as [| x l IH]; intros s; simpl.
  - symmetry. apply emit_nil.
  - rewrite IH, emit_emit. reflexivity.
Qed.

Lemma views_of_stop_markers (l : list Stop.t) :
  updateBusMarker_calls (map stop_marker l) = [] /\
  live_marker_calls (map stop_marker l) = [].
Proof.
  induction l as [| x l [IH1 IH2]]; simpl; auto.
Qed.

Lemma live_view_emit (cs : list Call) (s : Session) :
  updateBusMarker_calls cs = [] -> live_marker_calls cs = [] ->
  live_view (emit cs s) = live_view s.
Proof.
  intros H1 H2. unfold live_view. simpl.
  rewrite updateBusMarker_calls_app, live_marker_calls_app, H1, H2.
  rewrite !app_nil_r. reflexivity.
Qed.

Lemma live_view_ext (cs : list Call) (s1 s2 : Session) :
  busLocation s1 = busLocation s2 ->
  busMarker_current s1 = busMarker_current s2 ->
  trace s1 = trace s2 ++ cs ->
  updateBusMarker_calls cs = [] -> live_marker_calls cs = [] ->
  live_view s1 = live_view s2.
Proof.
  intros Hl Hk Ht H1 H2. unfold live_view.
  rewrite Hl, Hk, Ht, updateBusMarker_calls_app, live_marker_calls_app, H1, H2.
  rewrite !app_nil_r. reflexivity.
Qed.

Lemma run_cleanups_fields (cs : list Cleanup) :
  forall s : Session,
    let s' := fold_left (fun acc c => run_cleanup c acc) cs s in
    mounted s' = mounted s /\ busLocation s' = busLocation s /\
    live_view s' = live_view s.
Proof.
  induction cs as [| c cs IH]; intros s; simpl.
  - auto.
  - destruct (IH (run_cleanup c s)) as (H1 & H2 & H3).
    rewrite H1, H2, H3. destruct c. simpl.
    repeat split. apply (live_view_emit [removeChannel]); reflexivity.
Qed.

(** The first step of teardown always leaves an unmounted session. *)
Lemma step_unmount_unmounted (s : Session) : mounted (step Unmount s) = false.
Proof.
  simpl. destruct (mounted s) eqn:Hm; [reflexivity | exact Hm].
Qed.

(** An unmounted session stays unmounted, and no event changes what its
    live marker shows. *)
Lemma step_unmounted (e : Event) (s : Session) :
  mounted s = false ->
  mounted (step e s) = false /\ live_view (step e s) = live_view s.
Proof.
  intros Hm.
  destruct e as [data | busRoute | stopsData | data | new | value |]; simpl.
  - unfold answered. destruct (take ReqBusInfo (pending s)); [| auto].
    destruct data; simpl.
    + unfold setBusInfo. simpl. rewrite Hm. auto.
    + split; [exact Hm |].
      apply (live_view_ext [toast_error "Failed to load bus information"]);
        reflexivity.
  - unfold answered. destruct (take ReqBusRoute (pending s)); [| auto].
    destruct busRoute as [route_id |]; simpl; [| auto].
    split; [exact Hm |].
    apply (live_view_ext
             [select (mkQuery "stops" "*" ("route_id", route_id)
                        (Some ("stop_order", true)) None false)]);
      reflexivity.
  - unfold answered. destruct (take ReqStops (pending s)); [| auto].
    destruct stopsData as [stopsData |]; simpl; [| auto].
    unfold setStops. simpl. rewrite Hm. simpl.
    destruct (map_current s); [| auto].
    rewrite stop_markers_loop. split; [exact Hm |].
    destruct (views_of_stop_markers stopsData) as [V1 V2].
    apply (live_view_ext (map stop_marker stopsData));
      try assumption; reflexivity.
  - unfold answered. destruct (take ReqLatestLocation (pending s)); [| auto].
    destruct data; simpl; [| auto].
    unfold commit_busLocation, setBusLocation. simpl. rewrite Hm. simpl.
    rewrite Hm. auto.
  - destruct (channel s) as [captured |]; [| auto].
    unfold on_insert, setBusLocation. rewrite Hm.
    rewrite checkProximityToStops_emits.
    unfold commit_busLocation. simpl. rewrite Hm. split; [exact Hm |].
    destruct (views_of_proximity_events captured new) as (V1 & V2 & _).
    apply (live_view_ext (proximity_events captured new));
      try assumption; reflexivity.
  - rewrite Hm. auto.
  - rewrite Hm. auto.
Qed.

Lemma run_unmounted (es : list Event) :
  forall s : Session,
    mounted s = false ->
    mounted (run es s) = false /\ live_view (run es s) = live_view s.
Proof.
  unfold run.
  induction es as [| e es IH]; intros s Hm; simpl.
  - auto.
  - destruct (step_unmounted e s Hm) as [Hm' Hv].
    destruct (IH _ Hm') as [Hm'' Hv'].
    split; [exact Hm'' | rewrite Hv'; exact Hv].
Qed.

(** After the session is torn down, whatever arrives afterwards (the
    answer of a fetch that was in flight, a row pushed on the channel, any
    sequence of them), [updateBusMarker] is not invoked again, the live
    marker is neither placed nor moved, the map is not recentred and the
    current position does not change. What holds this is not a flag in the
    code: the answer of the fetch still calls the state setter, and a state
    setter of an unmounted component changes nothing and schedules no
    render. *)
Lemma no_marker_update_after_teardown (s : Session) (es : list Event) :
  let s0 := step Unmount s in
  let s' := run es s0 in
  mounted s' = false /\
  busLocation s' = busLocation s0 /\
  busMarker_current s' = busMarker_current s0 /\
  updateBusMarker_calls (trace s') = updateBusMarker_calls (trace s0) /\
  live_marker_calls (trace s') = live_marker_calls (trace s0).
Proof.
  cbv zeta.
  destruct (run_unmounted es (step Unmount s) (step_unmount_unmounted s))
    as [Hm Hv].
  unfold live_view in Hv. injection Hv as H1 H2 H3 H4.
  repeat split; assumption.
Qed.

(** ** The eager fetch of the latest location *)

(** An event that delivers no position leaves the current position as it
    is. *)
Lemma step_keeps_busLocation (e : Event) (s : Session) :
  delivers_position e = false -> busLocation (step e s) = busLocation s.
Proof.
  intros He.
  destruct e as [data | busRoute | stopsData | data | new | value |]; simpl.
  - unfold answered. destruct (take ReqBusInfo (pending s)); [| reflexivity].
    destruct data; simpl; [| reflexivity].
    unfold setBusInfo. simpl. destruct (mounted s); reflexivity.
  - unfold answered. destruct (take ReqBusRoute (pending s)); [| reflexivity].
    destruct busRoute; reflexivity.
  - unfold answered. destruct (take ReqStops (pending s)); [| reflexivity].
    destruct stopsData as [stopsData |]; simpl; [| reflexivity].
    unfold setStops. simpl.
    destruct (mounted s); simpl; destruct (map_current s);
      rewrite ?stop_markers_loop; reflexivity.
  - destruct data; [discriminate He |].
    unfold answered.
    destruct (take ReqLatestLocation (pending s)); reflexivity.
  - discriminate He.
  - destruct (mounted s) eqn:Hm; [| reflexivity].
    unfold on_token_input. destruct (String.eqb value (mapboxToken s));
      [reflexivity |].
    unfold commit_mapboxToken, setMapboxToken. rewrite Hm. simpl. rewrite Hm.
    unfold effect_mapboxToken, initializeMap. simpl. rewrite Hm. simpl.
    destruct (truthy value); simpl; [| reflexivity].
    destruct (map_current s); reflexivity.
  - destruct (mounted s); [| reflexivity].
    unfold unmount. simpl.
    apply (run_cleanups_fields (cleanups s) s).
Qed.

Lemma run_keeps_busLocation (es : list Event) :
  forall s : Session,
    forallb (fun e => negb (delivers_position e)) es = true ->
    busLocation (run es s) = busLocation s.
Proof.
  unfold run.
  induction es as [| e es IH]; intros s Hes; simpl in *.
  - reflexivity.
  - apply andb_true_iff in Hes as [He Hes].
    rewrite IH by exact Hes.
    apply step_keeps_busLocation.
    destruct (delivers_position e); [discriminate He | reflexivity].
Qed.

(** The answer of the eager fetch, when it carries a row, on a mounted
    session: the state is set and committed as for a pushed row, and
    [checkProximityToStops] is not entered. *)
Lemma latest_location_answer_mounted (d : BusLocation.t) (rest : list Request)
    (s : Session) :
  mounted s = true -> take ReqLatestLocation (pending s) = Some rest ->
  let s' := step (LatestLocationAnswer (Some d)) s in
  busLocation s' = Some d /\
  trace s' =
    trace s ++
    (if map_current s then marker_update (busMarker_current s) d else []) /\
  busMarker_current s' =
    (if map_current s then Some (coords d) else busMarker_current s).
Proof.
  intros Hm Hp. simpl. unfold answered. rewrite Hp. simpl.
  unfold setBusLocation. simpl. rewrite Hm.
  set (s2 := with_busLocation (Some d) (with_pending rest s)).
  pose proof (commit_busLocation_after_set d s2 Hm eq_refl) as H.
  cbv zeta in H. destruct H as (_ & _ & _ & H4 & _ & _ & _ & H8 & H9).
  repeat split; assumption.
Qed.

(** C6 (amended). Mounting the page opens the subscription and issues
    exactly one fetch of the latest stored position of the bus (ordered by
    timestamp descending, limit one, single row). A row it finds is stored
    with the same state setter as a pushed row and commits the same marker
    update, but it does not go through the channel callback: no proximity
    evaluation runs for it. When it finds no row, nothing changes, and the
    current position stays null until an event delivers a position. *)
Theorem eager_fetch_of_latest_location (busId : string) :
  let s0 := mount busId in
  queries_from "bus_locations" (trace s0) =
    [mkQuery "bus_locations" "*" ("bus_id", busId)
       (Some ("timestamp", false)) (Some 1%nat) true] /\
  pending s0 = [ReqBusInfo; ReqBusRoute; ReqLatestLocation] /\
  busLocation s0 = None /\
  (forall d : BusLocation.t,
     let s1 := step (LatestLocationAnswer (Some d)) s0 in
     busLocation s1 = Some d /\ trace s1 = trace s0 /\
     checkProximityToStops_calls (trace s1) = []) /\
  step (LatestLocationAnswer None) s0 =
    with_pending [ReqBusInfo; ReqBusRoute] s0 /\
  (forall es : list Event,
     forallb (fun e => negb (delivers_position e)) es = true ->
     busLocation (run es s0) = None) /\
  (forall p : BusLocation.t,
     busLocation (run [LatestLocationAnswer None; Insert p] s0) = Some p) /\
  (forall (s : Session) (captured : list Stop.t) (rest : list Request)
          (d : BusLocation.t),
     mounted s = true -> channel s = Some captured ->
     take ReqLatestLocation (pending s) = Some rest ->
     let fetched := step (LatestLocationAnswer (Some d)) s in
     let pushed := step (Insert d) s in
     busLocation fetched = busLocation pushed /\
     busMarker_current fetched = busMarker_current pushed /\
     updateBusMarker_calls (trace fetched) =
       updateBusMarker_calls (trace pushed) /\
     live_marker_calls (trace fetched) = live_marker_calls (trace pushed) /\
     checkProximityToStops_calls (trace fetched) =
       checkProximityToStops_calls (trace s) /\
     checkProximityToStops_calls (trace pushed) =
       checkProximityToStops_calls (trace s) ++ [d]).
Proof.
  cbv zeta.
  split; [vm_compute; reflexivity |].
  split; [vm_compute; reflexivity |].
  split; [vm_compute; reflexivity |].
  split; [intros d; lazy; repeat split |].
  split; [vm_compute; reflexivity |].
  split; [intros es Hes; rewrite run_keeps_busLocation by exact Hes;
          vm_compute; reflexivity |].
  split; [intros p; lazy; reflexivity |].
  intros s captured rest d Hm Hc Hp.
  destruct (latest_location_answer_mounted d rest s Hm Hp) as (F1 & F2 & F3).
  destruct (step_insert_mounted captured d s Hm Hc)
    as (_ & _ & _ & I1 & I2 & I3).
  rewrite F1, F2, F3, I1, I2, I3.
  rewrite !updateBusMarker_calls_app, !live_marker_calls_app,
    !checkProximityToStops_calls_app.
  destruct (views_of_delivery captured (map_current s) (busMarker_current s) d)
    as (D1 & D2 & D3).
  cbv zeta in D1, D2, D3. rewrite D1, D2, D3.
  destruct (map_current s).
  - destruct (views_of_marker_update (busMarker_current s) d)
      as (M1 & M2 & M3 & _).
    rewrite M1, M2, M3, app_nil_r. repeat split; reflexivity.
  - simpl. rewrite !app_nil_r. repeat split; reflexivity.
Qed.

Lemma eager_fetch_of_latest_location_witness :
  let s := step (TokenInput "pk.test") (mount "bus-7") in
  let d := BusLocation.mk 17.385 78.4867 "2024-01-01T08:00:00Z" in
  let fetched := step (LatestLocationAnswer (Some d)) s in
  let pushed := step (Insert d) s in
  mounted s = true /\ channel s = Some [] /\
  take ReqLatestLocation (pending s) = Some [ReqBusInfo; ReqBusRoute] /\
  busLocation fetched = busLocation pushed /\
  updateBusMarker_calls (trace fetched) =
    updateBusMarker_calls (trace pushed) /\
  checkProximityToStops_calls (trace fetched) =
    checkProximityToStops_calls (trace s) /\
  checkProximityToStops_calls (trace pushed) =
    checkProximityToStops_calls (trace s) ++ [d].
Proof.
  cbv zeta.
  set (s := step (TokenInput "pk.test") (mount "bus-7")).
  assert (Hm : mounted s = true) by (vm_compute; reflexivity).
  assert (Hc : channel s = Some []) by (vm_compute; reflexivity).
  assert (Hp : take ReqLatestLocation (pending s) =
               Some [ReqBusInfo; ReqBusRoute]) by (vm_compute; reflexivity).
  destruct (proj2 (proj2 (proj2 (proj2 (proj2 (proj2 (proj2
              (eager_fetch_of_latest_location "bus-7")))))))
              s [] [ReqBusInfo; ReqBusRoute]
              (BusLocation.mk 17.385 78.4867 "2024-01-01T08:00:00Z")
              Hm Hc Hp) as (H1 & _ & H3 & _ & H5 & H6).
  repeat split; assumption.
Defined.

(** C6, as stated, fails: on a freshly mounted session the row found by the
    eager fetch is stored without any proximity evaluation, while the same
    row pushed on the channel runs one. The two do not go through the same
    callback. *)
Lemma eager_fetch_skips_proximity :
  let d := BusLocation.mk 17.385 78.4867 "2024-01-01T08:00:00Z" in
  let s0 := mount "bus-7" in
  busLocation (step (LatestLocationAnswer (Some d)) s0) = Some d /\
  checkProximityToStops_calls
    (trace (step (LatestLocationAnswer (Some d)) s0)) = [] /\
  busLocation (step (Insert d) s0) = Some d /\
  checkProximityToStops_calls (trace (step (Insert d) s0)) = [d].
Proof.
  cbv zeta. lazy. repeat split.
Qed.

(** ** The stops the channel callback sees *)

(** No cleanup is ever registered, so the channel opened at mount stays as
    it was opened. *)
Lemma step_keeps_channel (e : Event) (s : Session) :
  cleanups s = [] ->
  cleanups (step e s) = [] /\ channel (step e s) = channel s.
Proof.
  intros Hc.
  destruct e as [data | busRoute | stopsData | data | new | value |]; simpl.
  - unfold answered. destruct (take ReqBusInfo (pending s)); [| auto].
    destruct data; simpl; [| auto].
    unfold setBusInfo. simpl. destruct (mounted s); auto.
  - unfold answered. destruct (take ReqBusRoute (pending s)); [| auto].
    destruct busRoute; simpl; auto.
  - unfold answered. destruct (take ReqStops (pending s)); [| auto].
    destruct stopsData as [stopsData |]; simpl; [| auto].
    unfold setStops. simpl.
    destruct (mounted s); simpl; destruct (map_current s);
      rewrite ?stop_markers_loop; auto.
  - unfold answered.
    destruct (take ReqLatestLocation (pending s)) as [rest |]; [| auto].
    destruct data as [d |]; simpl; [| auto].
    unfold setBusLocation. simpl.
    destruct (mounted s) eqn:Hm.
    + set (s2 := with_busLocation (Some d) (with_pending rest s)).
      destruct (commit_busLocation_after_set d s2 Hm eq_refl)
        as (_ & H2 & _ & _ & _ & _ & H7 & _).
      split; [rewrite H7; exact Hc | rewrite H2; reflexivity].
    + unfold commit_busLocation. simpl. rewrite Hm. auto.
  - destruct (channel s) as [captured |] eqn:Hch; [| auto].
    destruct (mounted s) eqn:Hm.
    + destruct (on_insert_mounted captured new s Hm)
        as (_ & H2 & _ & _ & _ & _ & H7 & _).
      split; [rewrite H7; exact Hc | rewrite H2; exact Hch].
    + unfold on_insert, setBusLocation. rewrite Hm.
      rewrite checkProximityToStops_emits.
      unfold commit_busLocation. simpl. rewrite Hm. auto.
  - destruct (mounted s) eqn:Hm; [| auto].
    unfold on_token_input. destruct (String.eqb value (mapboxToken s));
      [auto |].
    unfold commit_mapboxToken, setMapboxToken. rewrite Hm. simpl. rewrite Hm.
    unfold effect_mapboxToken, initializeMap. simpl. rewrite Hm. simpl.
    destruct (truthy value); simpl; [| auto].
    destruct (map_current s); simpl; auto.
  - destruct (mounted s); [| auto].
    unfold unmount. rewrite Hc. simpl. auto.
Qed.

(** In a session started by [mount], the callback of the channel is the
    one of the first render, and the [stops] it reads are the initial
    empty list, whatever was loaded since. *)
Lemma channel_sees_initial_stops (busId : string) (es : list Event) :
  cleanups (run es (mount busId)) = [] /\
  channel (run es (mount busId)) = Some [].
Proof.
  unfold run. rewrite <- (rev_involutive es).
  induction (rev es) as [| e l IH]; simpl.
  - split; vm_compute; reflexivity.
  - rewrite fold_left_app. simpl.
    destruct IH as [IHc IHch].
    destruct (step_keeps_channel e _ IHc) as [Hc Hch].
    split; [exact Hc | rewrite Hch; exact IHch].
Qed.

(** Hence a position delivered to such a session adds no notification. *)
Lemma delivered_position_adds_no_toast (busId : string) (es : list Event)
    (p : BusLocation.t) :
  let s := run es (mount busId) in
  toasts (trace (step (Insert p) s)) = toasts (trace s).
Proof.
  cbv zeta.
  destruct (channel_sees_initial_stops busId es) as [_ Hch].
  set (s := run es (mount busId)) in *.
  destruct (mounted s) eqn:Hm.
  - destruct (step_insert_mounted [] p s Hm Hch) as (_ & _ & _ & _ & Ht & _).
    rewrite Ht. unfold delivery. rewrite !toasts_app.
    destruct (views_of_proximity_events [] p) as (_ & _ & _ & V).
    rewrite V. simpl.
    destruct (map_current s);
      [destruct (views_of_marker_update (busMarker_current s) p)
         as (_ & _ & _ & M); rewrite M |];
      rewrite ?app_nil_r; reflexivity.
  - simpl. rewrite Hch. unfold on_insert, setBusLocation. rewrite Hm.
    rewrite checkProximityToStops_emits.
    unfold commit_busLocation. simpl. rewrite Hm.
    change (toasts (trace s ++ proximity_events [] p) = toasts (trace s)).
    rewrite toasts_app.
    destruct (views_of_proximity_events [] p) as (_ & _ & _ & V).
    rewrite V. simpl. apply app_nil_r.
Qed.

End SessionFacts.

(* ================================================================== *)
(** * Properties of the bus selection *)
(* ================================================================== *)

Module DashboardFacts.
Import StudentDashboard.

Lemma belongs_to_own (student bus : string) :
  belongs_to student (Assignment.mk student bus) = true.
Proof. unfold belongs_to. simpl. apply String.eqb_refl. Qed.

Lemma none_left_after_delete (student : string) (rows : list Assignment.t) :
  assignments_of student (assignments_of_others student rows) = [].
Proof.
  unfold assignments_of, assignments_of_others.
  induction rows as [| r rows IH]; simpl; [reflexivity |].
  destruct (belongs_to student r) eqn:Hr; simpl; [exact IH |].
  rewrite Hr. exact IH.
Qed.

Lemma others_after_delete (student : string) (rows : list Assignment.t) :
  assignments_of_others student (assignments_of_others student rows) =
  assignments_of_others student rows.
Proof.
  unfold assignments_of_others.
  induction rows as [| r rows IH]; simpl; [reflexivity |].
  destruct (belongs_to student r) eqn:Hr; simpl; [exact IH |].
  rewrite Hr. simpl. rewrite IH. reflexivity.
Qed.

(** Once the student's rows are gone, the new row cannot collide. *)
Lemma no_collision_after_delete (student bus : string)
    (rows : list Assignment.t) :
  existsb (same_assignment (Assignment.mk student bus))
    (assignments_of_others student rows) = false.
Proof.
  unfold assignments_of_others.
  induction rows as [| r rows IH]; simpl; [reflexivity |].
  destruct (belongs_to student r) eqn:Hr; simpl; [exact IH |].
  rewrite IH. unfold same_assignment. simpl.
  unfold belongs_to in Hr. rewrite String.eqb_sym, Hr. reflexivity.
Qed.

Lemma assignments_of_app (student : string) (a b : list Assignment.t) :
  assignments_of student (a ++ b) =
  assignments_of student a ++ assignments_of student b.
Proof. apply filter_app. Qed.

Lemma assignments_of_others_app (student : string) (a b : list Assignment.t) :
  assignments_of_others student (a ++ b) =
  assignments_of_others student a ++ assignments_of_others student b.
Proof. apply filter_app. Qed.

(** A call in which the backend serves both writes. *)
Lemma handleSelectBus_served (student busId : string)
    (rows : list Assignment.t) (tr : list Call) :
  handleSelectBus busId Served Served (mkWorld (Some student) rows tr) =
  mkWorld (Some student)
    (assignments_of_others student rows ++ [Assignment.mk student busId])
    (tr ++ [delete_eq "student_buses" "student_id" student;
            insert "student_buses" (Assignment.mk student busId);
            toast_success "Bus selected successfully";
            select_single "student_buses" "bus_id, buses(*)"
              "student_id" student]).
Proof.
  unfold handleSelectBus. simpl.
  fold (assignments_of_others student rows).
  rewrite no_collision_after_delete.
  unfold loadMyBus, emit, with_student_buses. simpl.
  rewrite <- !app_assoc. reflexivity.
Qed.

(** A call in which the backend refuses the insert. *)
Lemma handleSelectBus_insert_refused (student busId : string) (del : Outcome)
    (rows : list Assignment.t) (tr : list Call) :
  handleSelectBus busId del Refused (mkWorld (Some student) rows tr) =
  mkWorld (Some student)
    (fst (backend_delete del student rows))
    (tr ++ [delete_eq "student_buses" "student_id" student;
            insert "student_buses" (Assignment.mk student busId);
            toast_error "Failed to select bus"]).
Proof.
  unfold handleSelectBus. simpl.
  destruct del; simpl; unfold emit, with_student_buses; simpl;
    rewrite <- !app_assoc; reflexivity.
Qed.

Lemma failure_notices_app (a b : list Call) :
  failure_notices (a ++ b) = failure_notices a ++ failure_notices b.
Proof. apply filter_app. Qed.

Lemma writes_app (a b : list Call) : writes (a ++ b) = writes a ++ writes b.
Proof. apply filter_app. Qed.

(** What one call adds to the trace, by the answer to the insert. *)
Lemma handleSelectBus_trace (student busId : string) (del ins : Outcome)
    (rows : list Assignment.t) (tr : list Call) :
  let row := Assignment.mk student busId in
  let error :=
    snd (backend_insert ins row (fst (backend_delete del student rows))) in
  trace (handleSelectBus busId del ins (mkWorld (Some student) rows tr)) =
  tr ++ [delete_eq "student_buses" "student_id" student;
         insert "student_buses" row] ++
  (if error then [toast_error "Failed to select bus"]
   else [toast_success "Bus selected successfully";
         select_single "student_buses" "bus_id, buses(*)"
           "student_id" student]).
Proof.
  cbv zeta. unfold handleSelectBus. simpl.
  destruct (backend_delete del student rows) as [rows1 e1]. simpl.
  destruct (backend_insert ins (Assignment.mk student busId) rows1)
    as [rows2 e2]. simpl.
  destruct e2; simpl; rewrite <- !app_assoc; reflexivity.
Qed.

(** C7 (amended). When the delete of [handleSelectBus] is served and the
    insert is refused, the student's prior assignment is gone and is not
    put back, and the failure notice is shown. The notice follows the
    answer to the insert, whatever became of the delete: it is shown exactly
    when the insert ends in an error. Each of the two writes is issued once
    per call, with no retry. *)
Theorem select_bus_insert_failure (student busId : string)
    (rows : list Assignment.t) (tr : list Call) :
  let w := mkWorld (Some student) rows tr in
  let row := Assignment.mk student busId in
  (let w' := handleSelectBus busId Served Refused w in
   assignments_of student (student_buses w') = [] /\
   assignments_of_others student (student_buses w') =
     assignments_of_others student rows /\
   trace w' =
     tr ++ [delete_eq "student_buses" "student_id" student;
            insert "student_buses" row;
            toast_error "Failed to select bus"]) /\
  (forall del ins : Outcome,
     let w' := handleSelectBus busId del ins w in
     let error :=
       snd (backend_insert ins row (fst (backend_delete del student rows))) in
     failure_notices (trace w') =
       failure_notices tr ++
       (if error then [toast_error "Failed to select bus"] else []) /\
     writes (trace w') =
       writes tr ++ [delete_eq "student_buses" "student_id" student;
                     insert "student_buses" row]).
Proof.
  cbv zeta. split.
  - rewrite handleSelectBus_insert_refused. simpl.
    fold (assignments_of_others student rows).
    rewrite none_left_after_delete, others_after_delete. auto.
  - intros del ins.
    pose proof (handleSelectBus_trace student busId del ins rows tr) as Ht.
    cbv zeta in Ht. rewrite Ht.
    rewrite !failure_notices_app, !writes_app.
    destruct (snd (backend_insert ins (Assignment.mk student busId)
                     (fst (backend_delete del student rows))));
      simpl; rewrite ?app_nil_r; auto.
Qed.

(** C7, as stated, fails: the student has an assignment, the backend
    refuses the delete and serves the insert; no failure notice is shown,
    the success notice is, and the old row is still there next to the new
    one. *)
Lemma failed_delete_is_not_reported :
  let w := mkWorld (Some "student-1")
             [Assignment.mk "student-1" "bus-A"] [] in
  let w' := handleSelectBus "bus-B" Refused Served w in
  failure_notices (trace w') = [] /\
  trace w' =
    [delete_eq "student_buses" "student_id" "student-1";
     insert "student_buses" (Assignment.mk "student-1" "bus-B");
     toast_success "Bus selected successfully";
     select_single "student_buses" "bus_id, buses(*)"
       "student_id" "student-1"] /\
  student_buses w' =
    [Assignment.mk "student-1" "bus-A"; Assignment.mk "student-1" "bus-B"].
Proof.
  cbv zeta. repeat split.
Qed.

(** C8. Whatever the table holds, two calls of [handleSelectBus] in a row,
    for two different buses, both served by the backend, leave the student
    with exactly one row, for the second bus; both calls end in the success
    notice and the rows of the other students are untouched. *)
Theorem select_bus_twice (student b1 b2 : string)
    (rows : list Assignment.t) (tr : list Call) :
  b1 <> b2 ->
  let w := mkWorld (Some student) rows tr in
  let w1 := handleSelectBus b1 Served Served w in
  let w2 := handleSelectBus b2 Served Served w1 in
  assignments_of student (student_buses w1) = [Assignment.mk student b1] /\
  assignments_of student (student_buses w2) = [Assignment.mk student b2] /\
  assignments_of_others student (student_buses w2) =
    assignments_of_others student rows /\
  failure_notices (trace w2) = failure_notices tr.
Proof.
  intros _. cbv zeta.
  rewrite !handleSelectBus_served. simpl.
  rewrite !assignments_of_app, !assignments_of_others_app.
  rewrite !none_left_after_delete, !others_after_delete.
  unfold assignments_of, assignments_of_others. simpl.
  rewrite !belongs_to_own. simpl.
  rewrite !app_nil_r, !failure_notices_app. simpl.
  rewrite !app_nil_r.
  pose proof (none_left_after_delete student rows) as Hnone.
  unfold assignments_of, assignments_of_others in Hnone. rewrite Hnone.
  auto.
Qed.

Lemma select_bus_twice_witness :
  let w := mkWorld (Some "student-1")
             [Assignment.mk "student-1" "bus-A";
              Assignment.mk "student-2" "bus-A"] [] in
  let w2 := handleSelectBus "bus-C" Served Served
              (handleSelectBus "bus-B" Served Served w) in
  "bus-B" <> "bus-C" /\
  assignments_of "student-1" (student_buses w2) =
    [Assignment.mk "student-1" "bus-C"].
Proof.
  cbv zeta.
  assert (Hne : "bus-B" <> "bus-C") by discriminate.
  split; [exact Hne |].
  apply (select_bus_twice "student-1" "bus-B" "bus-C"
           [Assignment.mk "student-1" "bus-A";
            Assignment.mk "student-2" "bus-A"] [] Hne).
Defined.

End DashboardFacts.

(* ================================================================== *)
(** * More of the geo-distance calculator *)
(* ================================================================== *)

Module GeoExtras.
Import JS Geo GeoFacts TrackBus ProximityFacts.

(** Half an angle of [-PI, PI] whose sine vanishes is zero. *)
Lemma sin_zero_in_range (x : R) : - PI < x < PI -> sin x = 0 -> x = 0.
Proof.
  intros [Hlo Hhi] Hs.
  destruct (Rtotal_order x 0) as [Hneg | [Hz | Hpos]].
  - assert (0 < sin (- x)) by (apply sin_gt_0; lra).
    rewrite sin_neg in H. lra.
  - exact Hz.
  - assert (0 < sin x) by (apply sin_gt_0; lra). lra.
Qed.

Lemma asin_sqrt_zero (a : R) : 0 <= a <= 1 -> asin (sqrt a) = 0 -> a = 0.
Proof.
  intros [H0 H1] Ha.
  assert (Hs : sqrt a <= 1).
  { rewrite <- sqrt_1. apply sqrt_le_1; lra. }
  pose proof (sqrt_pos a) as Hp.
  assert (Hsin : sin (asin (sqrt a)) = sqrt a) by (apply sin_asin; lra).
  rewrite Ha, sin_0 in Hsin.
  apply sqrt_eq_0; [exact H0 | symmetry; exact Hsin].
Qed.

Lemma cos_pos_of_latitude (lat : R) : -90 < lat < 90 -> 0 < cos (lat * PI / 180).
Proof.
  intros [Hlo Hhi]. pose proof PI_RGT_0 as Hpi.
  apply cos_gt_0.
  - assert (- 90 * PI < lat * PI) by (apply Rmult_lt_compat_r; lra). lra.
  - assert (lat * PI < 90 * PI) by (apply Rmult_lt_compat_r; lra). lra.
Qed.

Lemma cos_nonneg_of_latitude (lat : R) :
  -90 <= lat <= 90 -> 0 <= cos (lat * PI / 180).
Proof.
  intros [Hlo Hhi]. pose proof PI_RGT_0 as Hpi.
  apply cos_ge_0.
  - assert (- 90 * PI <= lat * PI) by (apply Rmult_le_compat_r; lra). lra.
  - assert (lat * PI <= 90 * PI) by (apply Rmult_le_compat_r; lra). lra.
Qed.

Lemma square_zero (x : R) : x * x = 0 -> x = 0.
Proof. intros H. apply Rmult_integral in H. tauto. Qed.

(** X1. Two points at distance zero are the same point, for latitudes of
    [-90, 90] (the first one not a pole) and longitudes less than a full
    turn apart. *)
Theorem zero_distance_same_point (lat1 lon1 lat2 lon2 : R) :
  -90 < lat1 < 90 -> -90 <= lat2 <= 90 -> Rabs (lon2 - lon1) < 360 ->
  calculateDistance lat1 lon1 lat2 lon2 = 0 ->
  lat1 = lat2 /\ lon1 = lon2.
Proof.
  intros Hl1 Hl2 Hlon Hd.
  pose proof PI_RGT_0 as Hpi.
  rewrite calculateDistance_asin in Hd.
  assert (Ha : haversine_a lat1 lon1 lat2 lon2 = 0).
  { apply asin_sqrt_zero; [apply haversine_a_bounds | lra]. }
  unfold haversine_a in Ha. cbv zeta in Ha.
  set (u := sin ((lat2 - lat1) * PI / 180 / 2)) in Ha.
  set (v := sin ((lon2 - lon1) * PI / 180 / 2)) in Ha.
  pose proof (cos_pos_of_latitude lat1 Hl1) as Hc1.
  pose proof (cos_nonneg_of_latitude lat2 Hl2) as Hc2.
  assert (Hu2 : 0 <= u * u) by apply Rle_0_sqr.
  assert (Hv2 : 0 <= v * v) by apply Rle_0_sqr.
  assert (Hcc : 0 <= cos (lat1 * PI / 180) * cos (lat2 * PI / 180))
    by (apply Rmult_le_pos; lra).
  assert (Hterm : 0 <= cos (lat1 * PI / 180) * cos (lat2 * PI / 180) * (v * v))
    by (apply Rmult_le_pos; assumption).
  assert (Hu : u = 0) by (apply square_zero; lra).
  assert (Hlat : lat1 = lat2).
  { assert (Hx : (lat2 - lat1) * PI / 180 / 2 = 0).
    { apply sin_zero_in_range; [| exact Hu].
      assert (-180 * PI < (lat2 - lat1) * PI)
        by (apply Rmult_lt_compat_r; lra).
      assert ((lat2 - lat1) * PI < 180 * PI)
        by (apply Rmult_lt_compat_r; lra).
      lra. }
    assert (Hx' : (lat2 - lat1) * PI = 0) by lra.
    apply Rmult_integral in Hx'. lra. }
  split; [exact Hlat |].
  subst lat2.
  assert (Hvv : cos (lat1 * PI / 180) * cos (lat1 * PI / 180) * (v * v) = 0)
    by lra.
  assert (Hcc' : 0 < cos (lat1 * PI / 180) * cos (lat1 * PI / 180))
    by (apply Rmult_lt_0_compat; assumption).
  assert (Hv : v = 0).
  { apply square_zero. apply Rmult_integral in Hvv. lra. }
  assert (Hx : (lon2 - lon1) * PI / 180 / 2 = 0).
  { apply sin_zero_in_range; [| exact Hv].
    apply Rabs_def2 in Hlon. destruct Hlon as [Hhi Hlo].
    assert (-360 * PI < (lon2 - lon1) * PI)
      by (apply Rmult_lt_compat_r; lra).
    assert ((lon2 - lon1) * PI < 360 * PI)
      by (apply Rmult_lt_compat_r; lra).
    lra. }
  assert (Hx' : (lon2 - lon1) * PI = 0) by lra.
  apply Rmult_integral in Hx'. lra.
Qed.


(** The haversine term through the cosines of the two differences. *)
Lemma haversine_a_cos_form (lat1 lon1 lat2 lon2 : R) :
  haversine_a lat1 lon1 lat2 lon2 =
  (1 - cos ((lat2 - lat1) * PI / 180)) / 2 +
  cos (lat1 * PI / 180) * cos (lat2 * PI / 180) *
  ((1 - cos ((lon2 - lon1) * PI / 180)) / 2).
Proof.
  unfold haversine_a. cbv zeta.
  rewrite <- !sin_half_sq. ring.
Qed.

(** X2. The distance depends on the two longitudes only through their
    difference, and only up to full turns: moving both points by the same
    angle, or one of them by a whole number of turns east or west, leaves
    it as it is. *)
Theorem distance_longitude_wrap (lat1 lon1 lat2 lon2 d : R) (k : nat) :
  calculateDistance lat1 (lon1 + d) lat2 (lon2 + d) =
    calculateDistance lat1 lon1 lat2 lon2 /\
  calculateDistance lat1 lon1 lat2 (lon2 + 360 * INR k) =
    calculateDistance lat1 lon1 lat2 lon2 /\
  calculateDistance lat1 lon1 lat2 (lon2 - 360 * INR k) =
    calculateDistance lat1 lon1 lat2 lon2.
Proof.
  rewrite !calculateDistance_unfold, !haversine_a_cos_form.
  replace (lon2 + d - (lon1 + d)) with (lon2 - lon1) by ring.
  replace ((lon2 + 360 * INR k - lon1) * PI / 180)
    with ((lon2 - lon1) * PI / 180 + 2 * INR k * PI) by field.
  rewrite cos_period.
  replace (cos ((lon2 - 360 * INR k - lon1) * PI / 180))
    with (cos ((lon2 - lon1) * PI / 180)).
  - auto.
  - rewrite <- (cos_period ((lon2 - 360 * INR k - lon1) * PI / 180) k).
    f_equal. field.
Qed.

(** The angle back from the square of the sine of its half. *)
Lemma asin_sqrt_sin_sq (x : R) :
  Rabs x <= PI / 2 -> asin (sqrt (sin x * sin x)) = Rabs x.
Proof.
  intros Hx. pose proof PI_RGT_0 as Hpi.
  destruct (Rle_dec 0 x) as [Hpos | Hneg].
  - rewrite Rabs_right in * by lra.
    change (sin x * sin x) with ((sin x)²).
    rewrite sqrt_Rsqr by (apply sin_ge_0; lra).
    apply asin_sin. lra.
  - rewrite Rabs_left in * by lra.
    replace (sin x * sin x) with ((sin (- x))²)
      by (rewrite sin_neg; unfold Rsqr; ring).
    rewrite sqrt_Rsqr by (apply sin_ge_0; lra).
    apply asin_sin. lra.
Qed.

Lemma half_angle_bound (deg : R) :
  Rabs deg <= 180 ->
  Rabs (deg * PI / 180 / 2) = Rabs deg * PI / 180 / 2 /\
  Rabs (deg * PI / 180 / 2) <= PI / 2.
Proof.
  intros Hd. pose proof PI_RGT_0 as Hpi.
  pose proof (Rabs_pos deg) as Hp.
  assert (E : Rabs (deg * PI / 180 / 2) = Rabs deg * PI / 180 / 2).
  { replace (deg * PI / 180 / 2) with (deg * (PI / 360)) by field.
    rewrite Rabs_mult, (Rabs_right (PI / 360)) by lra. field. }
  split; [exact E |].
  rewrite E.
  assert (Rabs deg * PI <= 180 * PI) by (apply Rmult_le_compat_r; lra).
  lra.
Qed.

Lemma haversine_a_meridian (lon lat1 lat2 : R) :
  haversine_a lat1 lon lat2 lon =
  sin ((lat2 - lat1) * PI / 180 / 2) * sin ((lat2 - lat1) * PI / 180 / 2).
Proof.
  unfold haversine_a. cbv zeta.
  replace ((lon - lon) * PI / 180 / 2) with 0 by lra.
  rewrite sin_0. ring.
Qed.

(** X3. Between two points of one meridian, at most half a turn apart, the
    distance is the arc: the radius times the difference of the latitudes
    in radians (about 111.19 km for each degree). *)
Theorem distance_along_meridian (lon lat1 lat2 : R) :
  Rabs (lat2 - lat1) <= 180 ->
  calculateDistance lat1 lon lat2 lon =
  6371 * (Rabs (lat2 - lat1) * PI / 180).
Proof.
  intros Hd.
  rewrite calculateDistance_asin, haversine_a_meridian.
  destruct (half_angle_bound (lat2 - lat1) Hd) as [E Hb].
  rewrite asin_sqrt_sin_sq by exact Hb.
  rewrite E. field.
Qed.

Lemma distance_along_meridian_witness :
  Rabs (18 - 17) <= 180 /\
  calculateDistance 17 78 18 78 = 6371 * (Rabs (18 - 17) * PI / 180).
Proof.
  assert (H : Rabs (18 - 17) <= 180) by (rewrite Rabs_right; lra).
  split; [exact H | exact (distance_along_meridian 78 17 18 H)].
Defined.

(** X4. Between two points of the equator, at most half a turn apart in
    either direction, the distance is the arc as well. *)
Theorem distance_along_equator (lon1 lon2 : R) :
  Rabs (lon2 - lon1) <= 180 ->
  calculateDistance 0 lon1 0 lon2 = 6371 * (Rabs (lon2 - lon1) * PI / 180).
Proof.
  intros Hd.
  rewrite calculateDistance_asin. unfold haversine_a. cbv zeta.
  replace ((0 - 0) * PI / 180 / 2) with 0 by lra.
  replace (0 * PI / 180) with 0 by lra.
  rewrite sin_0, cos_0.
  set (x := (lon2 - lon1) * PI / 180 / 2).
  replace (0 * 0 + 1 * 1 * sin x * sin x) with (sin x * sin x) by ring.
  destruct (half_angle_bound (lon2 - lon1) Hd) as [E Hb].
  fold x in E, Hb.
  rewrite asin_sqrt_sin_sq by exact Hb.
  rewrite E. field.
Qed.

Lemma distance_along_equator_witness :
  Rabs (-90 - 90) <= 180 /\
  calculateDistance 0 90 0 (-90) = 6371 * (Rabs (-90 - 90) * PI / 180).
Proof.
  assert (H : Rabs (-90 - 90) <= 180) by (rewrite Rabs_left; lra).
  split; [exact H | exact (distance_along_equator 90 (-90) H)].
Defined.

(** X5. For a stop due north or south of the bus, the notification radius
    in degrees: the stop is within the threshold exactly when the
    latitudes differ by less than [0.9 / (6371 * PI)] degrees, about
    0.000045. *)
Theorem notification_radius_in_degrees (location : BusLocation.t)
    (stop : Stop.t) :
  Stop.longitude stop = BusLocation.longitude location ->
  Rabs (Stop.latitude stop - BusLocation.latitude location) <= 180 ->
  (near location stop = true <->
   Rabs (Stop.latitude stop - BusLocation.latitude location) <
   0.9 / (6371 * PI)).
Proof.
  intros Hlon Hd. pose proof PI_RGT_0 as Hpi.
  unfold near, PROXIMITY_THRESHOLD.
  rewrite lt_true_iff, Hlon, calculateDistance_asin, haversine_a_meridian.
  destruct (half_angle_bound _ Hd) as [E Hb].
  rewrite asin_sqrt_sin_sq by exact Hb.
  rewrite E. clear E Hb.
  set (d := Rabs (Stop.latitude stop - BusLocation.latitude location)).
  assert (Hpos : 0 < 6371 * PI) by lra.
  split; intros H.
  - apply (Rmult_lt_reg_r (6371 * PI)); [exact Hpos |].
    replace (0.9 / (6371 * PI) * (6371 * PI)) with 0.9 by (field; lra).
    lra.
  - apply (Rmult_lt_compat_r (6371 * PI)) in H; [| exact Hpos].
    replace (0.9 / (6371 * PI) * (6371 * PI)) with 0.9 in H by (field; lra).
    lra.
Qed.

Lemma notification_radius_in_degrees_witness :
  let location := BusLocation.mk 17.385 78.4867 "2024-01-01T08:00:00Z" in
  let stop := Stop.mk "stop-1" "Main Gate" 17.38501 78.4867 1 in
  Stop.longitude stop = BusLocation.longitude location /\
  Rabs (Stop.latitude stop - BusLocation.latitude location) <= 180 /\
  (near location stop = true <->
   Rabs (Stop.latitude stop - BusLocation.latitude location) <
   0.9 / (6371 * PI)).
Proof.
  cbv zeta.
  assert (H : Rabs (17.38501 - 17.385) <= 180) by (rewrite Rabs_right; lra).
  split; [reflexivity | split; [exact H |]].
  exact (notification_radius_in_degrees
           (BusLocation.mk 17.385 78.4867 "2024-01-01T08:00:00Z")
           (Stop.mk "stop-1" "Main Gate" 17.38501 78.4867 1) eq_refl H).
Defined.

(** X6. A bus at the very coordinates of one of the stops is at distance
    zero from it, and the evaluator notifies that stop. *)
Theorem bus_at_a_stop_is_notified (stops : list Stop.t)
    (location : BusLocation.t) (stop : Stop.t) (s : Session) :
  In stop stops ->
  Stop.latitude stop = BusLocation.latitude location ->
  Stop.longitude stop = BusLocation.longitude location ->
  calculateDistance
    (BusLocation.latitude location) (BusLocation.longitude location)
    (Stop.latitude stop) (Stop.longitude stop) = 0 /\
  In (approaching stop) (trace (checkProximityToStops stops location s)).
Proof.
  intros Hin Hlat Hlon.
  assert (Hd : calculateDistance
                 (BusLocation.latitude location)
                 (BusLocation.longitude location)
                 (Stop.latitude stop) (Stop.longitude stop) = 0).
  { rewrite Hlat, Hlon. apply calculateDistance_same_point. }
  split; [exact Hd |].
  rewrite checkProximityToStops_emits. simpl.
  apply in_or_app. right. right.
  apply in_map, filter_In. split; [exact Hin |].
  unfold near, PROXIMITY_THRESHOLD. rewrite Hd. apply lt_true_iff. lra.
Qed.

Lemma bus_at_a_stop_is_notified_witness :
  let stop := Stop.mk "stop-1" "Main Gate" 17.385 78.4867 1 in
  let location := BusLocation.mk 17.385 78.4867 "2024-01-01T08:00:00Z" in
  In stop [stop] /\
  In (approaching stop)
     (trace (checkProximityToStops [stop] location (initial "bus-1"))).
Proof.
  cbv zeta. split; [left; reflexivity |].
  apply (bus_at_a_stop_is_notified
           [Stop.mk "stop-1" "Main Gate" 17.385 78.4867 1]
           (BusLocation.mk 17.385 78.4867 "2024-01-01T08:00:00Z")
           (Stop.mk "stop-1" "Main Gate" 17.385 78.4867 1)
           (initial "bus-1")); [left |  |]; reflexivity.
Defined.

Lemma zero_distance_same_point_witness :
  -90 < 0 < 90 /\ -90 <= 0 <= 90 /\ Rabs (10 - 10) < 360 /\
  calculateDistance 0 10 0 10 = 0 /\ (0 = 0 /\ 10 = 10).
Proof.
  assert (H1 : -90 < 0 < 90) by lra.
  assert (H2 : -90 <= 0 <= 90) by lra.
  assert (H3 : Rabs (10 - 10) < 360)
    by (replace (10 - 10) with 0 by lra; rewrite Rabs_R0; lra).
  assert (H4 : calculateDistance 0 10 0 10 = 0)
    by apply calculateDistance_same_point.
  split; [exact H1 | split; [exact H2 | split; [exact H3 | split]]].
  - exact H4.
  - exact (zero_distance_same_point 0 10 0 10 H1 H2 H3 H4).
Defined.

End GeoExtras.

(* ================================================================== *)
(** * The notification radius *)
(* ================================================================== *)

Module ProximityRadius.
Import JS Geo GeoFacts TrackBus ProximityFacts GeoExtras.

(** The distance to a stop due north or south of the bus, at most half a
    turn away: the arc between them on the sphere of radius 6371 km. *)
Lemma distance_to_stop_on_meridian (location : BusLocation.t)
    (stop : Stop.t) :
  Stop.longitude stop = BusLocation.longitude location ->
  Rabs (Stop.latitude stop - BusLocation.latitude location) <= 180 ->
  calculateDistance
    (BusLocation.latitude location) (BusLocation.longitude location)
    (Stop.latitude stop) (Stop.longitude stop) =
  6371 *
  (Rabs (Stop.latitude stop - BusLocation.latitude location) * PI / 180).
Proof.
  intros Hlon Hd.
  rewrite Hlon, calculateDistance_asin, haversine_a_meridian.
  destruct (half_angle_bound _ Hd) as [E Hb].
  rewrite asin_sqrt_sin_sq by exact Hb.
  rewrite E. field.
Qed.

(** C2. [checkProximityToStops] emits the notification of a stop exactly
    when [calculateDistance] from the position to the stop is below 0.005,
    and [calculateDistance] is a length in kilometres: for a stop due north
    or south it is the arc on the sphere of radius 6371 km, and the stop is
    notified exactly when that arc, in metres, is below 5. So a stop about
    3.3 m away is notified, and a stop about 111 m away, well within the
    500 m of the comment and a thousandth of a degree away in raw
    coordinates, is not. *)
Theorem proximity_threshold_is_five_metres :
  (forall (stops : list Stop.t) (location : BusLocation.t) (s : Session),
     checkProximityToStops stops location s =
     emit (call_checkProximityToStops location ::
           map approaching (filter (near location) stops)) s) /\
  (forall (location : BusLocation.t) (stop : Stop.t),
     near location stop = true <->
     calculateDistance
       (BusLocation.latitude location) (BusLocation.longitude location)
       (Stop.latitude stop) (Stop.longitude stop) < 0.005) /\
  (forall (location : BusLocation.t) (stop : Stop.t),
     Stop.longitude stop = BusLocation.longitude location ->
     Rabs (Stop.latitude stop - BusLocation.latitude location) <= 180 ->
     let arc_km :=
       6371 *
       (Rabs (Stop.latitude stop - BusLocation.latitude location) *
        PI / 180) in
     calculateDistance
       (BusLocation.latitude location) (BusLocation.longitude location)
       (Stop.latitude stop) (Stop.longitude stop) = arc_km /\
     (near location stop = true <-> 1000 * arc_km < 5)) /\
  (let location := BusLocation.mk 17.385 78.4867 "2024-01-01T08:00:00Z" in
   let stop := Stop.mk "stop-1" "Main Gate" 17.38503 78.4867 1 in
   3 < 1000 * calculateDistance 17.385 78.4867 17.38503 78.4867 < 5 /\
   near location stop = true /\
   toasts (trace (checkProximityToStops [stop] location (initial "bus-1"))) =
     [approaching stop]) /\
  (let location := BusLocation.mk 0 0 "2024-01-01T08:00:00Z" in
   let stop := Stop.mk "stop-1" "Main Gate" 0 0.001 1 in
   100 < 1000 * calculateDistance 0 0 0 0.001 /\
   calculateDistance 0 0 0 0.001 < 0.5 /\
   Rabs (0.001 - 0) < 0.005 /\
   near location stop = false /\
   toasts (trace (checkProximityToStops [stop] location (initial "bus-1"))) = []).
Proof.
  split; [| split; [| split; [| split]]].
  - exact checkProximityToStops_emits.
  - intros location stop. unfold near, PROXIMITY_THRESHOLD. apply lt_true_iff.
  - intros location stop Hlon Hd. cbv zeta.
    pose proof (distance_to_stop_on_meridian location stop Hlon Hd) as E.
    split; [exact E |].
    unfold near, PROXIMITY_THRESHOLD. rewrite lt_true_iff, E.
    split; intros H; lra.
  - cbv zeta.
    set (location := BusLocation.mk 17.385 78.4867 "2024-01-01T08:00:00Z").
    set (stop := Stop.mk "stop-1" "Main Gate" 17.38503 78.4867 1).
    assert (Hd : Rabs (Stop.latitude stop - BusLocation.latitude location) =
                 0.00003).
    { simpl. replace (17.38503 - 17.385) with 0.00003 by lra.
      apply Rabs_right. lra. }
    assert (E : calculateDistance 17.385 78.4867 17.38503 78.4867 =
                6371 * (0.00003 * PI / 180)).
    { rewrite <- Hd.
      apply (distance_to_stop_on_meridian location stop); [reflexivity |].
      rewrite Hd. lra. }
    pose proof PI2_3_2 as Hlo. pose proof PI_4 as Hhi.
    assert (Hnear : near location stop = true).
    { unfold near, PROXIMITY_THRESHOLD. apply lt_true_iff.
      simpl. rewrite E. lra. }
    split; [rewrite E; split; lra | split; [exact Hnear |]].
    rewrite checkProximityToStops_emits. simpl filter. rewrite Hnear.
    reflexivity.
  - cbv zeta.
    pose proof thousandth_degree_east as [Hlo Hhi].
    assert (Hfar : near (BusLocation.mk 0 0 "2024-01-01T08:00:00Z")
                        (Stop.mk "stop-1" "Main Gate" 0 0.001 1) = false).
    { unfold near, PROXIMITY_THRESHOLD. simpl. apply lt_false_iff. lra. }
    split; [lra | split; [lra | split; [| split]]].
    + rewrite Rabs_right; lra.
    + exact Hfar.
    + rewrite checkProximityToStops_emits. simpl filter. rewrite Hfar.
      reflexivity.
Qed.

Lemma proximity_threshold_is_five_metres_witness :
  let location := BusLocation.mk 17.385 78.4867 "2024-01-01T08:00:00Z" in
  let stop := Stop.mk "stop-2" "Library" 17.3851 78.4867 2 in
  Stop.longitude stop = BusLocation.longitude location /\
  Rabs (Stop.latitude stop - BusLocation.latitude location) <= 180 /\
  calculateDistance 17.385 78.4867 17.3851 78.4867 =
    6371 * (Rabs (17.3851 - 17.385) * PI / 180) /\
  (near location stop = true <->
   1000 * (6371 * (Rabs (17.3851 - 17.385) * PI / 180)) < 5).
Proof.
  cbv zeta.
  assert (H : Rabs (17.3851 - 17.385) <= 180) by (rewrite Rabs_right; lra).
  split; [reflexivity | split; [exact H |]].
  exact (proj1 (proj2 (proj2 proximity_threshold_is_five_metres))
           (BusLocation.mk 17.385 78.4867 "2024-01-01T08:00:00Z")
           (Stop.mk "stop-2" "Library" 17.3851 78.4867 2) eq_refl H).
Defined.

End ProximityRadius.

(* ================================================================== *)
(** * More of the tracking session *)
(* ================================================================== *)

Module SessionExtras.
Import JS Geo TrackBus TrackBusView TrackBusInvariants ProximityFacts
  SessionFacts.

(** The two steps with a loop, with the loop replaced by what it emits. *)
Lemma step_stops_answer (stopsData : option (list Stop.t)) (s : Session) :
  step (StopsAnswer stopsData) s =
  match take ReqStops (pending s) with
  | Some rest =>
      match stopsData with
      | Some l =>
          emit (if map_current s then map stop_marker l else [])
            (setStops l (with_pending rest s))
      | None => with_pending rest s
      end
  | None => s
  end.
Proof.
  simpl. unfold answered.
  destruct (take ReqStops (pending s)) as [rest |]; [| reflexivity].
  destruct stopsData as [l |]; [| reflexivity].
  simpl. unfold setStops. simpl.
  destruct (mounted s); simpl; destruct (map_current s);
    rewrite ?stop_markers_loop, ?emit_nil; reflexivity.
Qed.

Lemma step_insert (p : BusLocation.t) (s : Session) :
  step (Insert p) s =
  match channel s with
  | Some captured =>
      commit_busLocation
        (emit (proximity_events captured p) (setBusLocation p s))
  | None => s
  end.
Proof.
  simpl. destruct (channel s) as [captured |]; [| reflexivity].
  unfold on_insert. rewrite checkProximityToStops_emits. reflexivity.
Qed.

Lemma cleanups_loop (cl : list Cleanup) :
  forall s : Session,
    fold_left (fun acc c => run_cleanup c acc) cl s =
    match cl with
    | [] => s
    | _ :: _ =>
        with_channel None (emit (map (fun _ => removeChannel) cl) s)
    end.
Proof.
  induction cl as [| c cl IH]; intros s; [reflexivity |].
  simpl fold_left. rewrite IH. destruct c. destruct cl as [| c' cl].
  - reflexivity.
  - unfold run_cleanup, emit, with_channel, with_trace. simpl.
    rewrite <- app_assoc. reflexivity.
Qed.

Lemma step_unmount (s : Session) :
  step Unmount s =
  if mounted s then
    with_mounted false
      (with_cleanups []
         match cleanups s with
         | [] => s
         | _ :: _ =>
             with_channel None
               (emit (map (fun _ => removeChannel) (cleanups s)) s)
         end)
  else s.
Proof.
  simpl. unfold unmount. rewrite cleanups_loop. reflexivity.
Qed.

(** Opens a step: the event by cases, the session as its fields. *)
Ltac open_step s e :=
  destruct e as [data | busRoute | stopsData | data | new | value |];
  [ | | rewrite step_stops_answer | | rewrite step_insert | |
    rewrite step_unmount ];
  destruct s as [bus mnt loc sts info tok mp mk ch cl pe tr];
  unfold step, answered, loadBusInfo_resume, loadStops_resume1,
    loadLatestLocation_resume, on_token_input,
    unmount, request, setBusInfo, setStops, setBusLocation, setMapboxToken,
    commit_busLocation, commit_mapboxToken, effect_busLocation,
    effect_mapboxToken, initializeMap, updateBusMarker;
  cbn [busId mounted busLocation stops busInfo mapboxToken map_current
       busMarker_current channel cleanups pending trace].

Lemma run_snoc (es : list Event) (e : Event) (s : Session) :
  run (es ++ [e]) s = step e (run es s).
Proof. unfold run. rewrite fold_left_app. reflexivity. Qed.

(** An invariant of the steps holds of every session started by [mount]. *)
Lemma reachable_ind (P : Session -> Prop) (busId : string) :
  P (mount busId) ->
  (forall e s, P s -> P (step e s)) ->
  forall es, P (run es (mount busId)).
Proof.
  intros H0 Hstep es.
  induction es as [| e es IH] using rev_ind.
  - exact H0.
  - rewrite run_snoc. apply Hstep. exact IH.
Qed.

Ltac split_cases :=
  repeat (match goal with
          | |- context [match take ?r ?l with _ => _ end] =>
              let E := fresh "Htake" in destruct (take r l) eqn:E
          | |- context [if String.eqb ?a ?b then _ else _] =>
              let E := fresh "Heqb" in destruct (String.eqb a b) eqn:E
          | |- context [truthy ?v] =>
              let E := fresh "Htruthy" in destruct (truthy v) eqn:E
          | |- context [if ?b then _ else _] => is_var b; destruct b
          | |- context [negb ?b] => is_var b; destruct b
          | |- context [match ?o with Some _ => _ | None => _ end] =>
              is_var o; destruct o
          | |- context [match ?l with [] => _ | _ :: _ => _ end] =>
              is_var l; destruct l
          end; cbn -[filter flat_map waiting]).

Lemma filter_map_none {A B : Type} (f : B -> bool) (g : A -> B)
    (l : list A) :
  (forall x, f (g x) = false) -> filter f (map g l) = [].
Proof.
  intros H. induction l as [| x l IH]; simpl; [reflexivity |].
  rewrite H. exact IH.
Qed.

Lemma filter_map_all {A B : Type} (f : B -> bool) (g : A -> B)
    (l : list A) :
  (forall x, f (g x) = true) -> filter f (map g l) = map g l.
Proof.
  intros H. induction l as [| x l IH]; simpl; [reflexivity |].
  rewrite H, IH. reflexivity.
Qed.

Lemma length_filter_map_none {A B : Type} (f : B -> bool) (g : A -> B)
    (l : list A) :
  (forall x, f (g x) = false) -> List.length (filter f (map g l)) = 0%nat.
Proof. intros H. rewrite filter_map_none by exact H. reflexivity. Qed.

(** The filters of the views over what the loops emit. *)
Ltac views f :=
  unfold proximity_events, marker_update, place;
  cbn -[waiting filter flat_map];
  rewrite ?filter_app;
  cbn -[waiting flat_map];
  rewrite ?(filter_map_none f approaching) by (intros; reflexivity);
  rewrite ?(filter_map_none f stop_marker) by (intros; reflexivity);
  rewrite ?(filter_map_none f (fun _ : Cleanup => removeChannel))
    by (intros; reflexivity);
  cbn -[waiting flat_map]; rewrite ?app_nil_r.

(** ** The map *)

Lemma step_map_creation (e : Event) (s : Session) :
  map_creations (trace s) =
    (if map_current s then [Map_new (78.4867, 17.3850) 12] else []) ->
  map_creations (trace (step e s)) =
    (if map_current (step e s) then [Map_new (78.4867, 17.3850) 12] else []).
Proof.
  intros H. open_step s e; cbn in H; split_cases.
  all: unfold emit, map_creations in *; cbn -[filter] in *;
    views is_Map_new; rewrite ?H; reflexivity.
Qed.

(** X7. In a session, the map is created at most once, whatever is typed
    into the token field and however often, and it is there exactly when
    it has been created. *)
Theorem map_created_at_most_once (busId : string) (es : list Event) :
  let s := run es (mount busId) in
  map_creations (trace s) =
  (if map_current s then [Map_new (78.4867, 17.3850) 12] else []).
Proof.
  cbv zeta. apply reachable_ind.
  - vm_compute. reflexivity.
  - intros e s. apply step_map_creation.
Qed.

(** ** The live marker *)

Lemma step_marker_ok (e : Event) (s : Session) :
  marker_ok s -> marker_ok (step e s).
Proof.
  unfold marker_ok. intros [H1 H2].
  open_step s e; cbn in H1, H2; split_cases.
  all: try (destruct (H2 _ eq_refl) as [? _]; discriminate).
  all: split;
    [ unfold emit, live_marker_creations in *; cbn -[filter] in *;
      views is_live_marker_new; rewrite ?length_app, ?H1; try reflexivity
    | intros c0 Hc; cbn in Hc; try discriminate;
      try (injection Hc as <-; split;
           [reflexivity | eexists; split; reflexivity]);
      try (apply H2; exact Hc) ].
  all: cbn; try lia.
Qed.

Lemma marker_ok_reachable (busId : string) (es : list Event) :
  marker_ok (run es (mount busId)).
Proof.
  apply reachable_ind.
  - split; [vm_compute; reflexivity | intros c Hc; discriminate Hc].
  - apply step_marker_ok.
Qed.

(** X8. In a session there is one live marker at most: it is created once,
    by the first position committed while a map is attached, and only moved
    afterwards; and whenever it exists it sits at the coordinates of the
    current position. *)
Theorem one_live_marker_at_the_position (busId : string) (es : list Event) :
  let s := run es (mount busId) in
  List.length (live_marker_creations (trace s)) =
    match busMarker_current s with Some _ => 1%nat | None => 0%nat end /\
  (forall c, busMarker_current s = Some c ->
     map_current s = true /\
     exists p, busLocation s = Some p /\ c = coords p).
Proof.
  cbv zeta.
  pose proof (marker_ok_reachable busId es) as [H1 H2].
  split; [exact H1 | exact H2].
Qed.

Lemma one_live_marker_at_the_position_witness :
  let P1 := BusLocation.mk 17.385 78.4867 "2024-01-01T08:00:00Z" in
  let P2 := BusLocation.mk 17.386 78.4871 "2024-01-01T08:00:05Z" in
  let s := run [TokenInput "pk.test"; Insert P1; Insert P2] (mount "bus-7") in
  busMarker_current s = Some (coords P2) /\
  List.length (live_marker_creations (trace s)) = 1%nat /\
  map_current s = true /\
  exists p, busLocation s = Some p /\ coords P2 = coords p.
Proof.
  cbv zeta.
  set (P1 := BusLocation.mk 17.385 78.4867 "2024-01-01T08:00:00Z").
  set (P2 := BusLocation.mk 17.386 78.4871 "2024-01-01T08:00:05Z").
  set (es := [TokenInput "pk.test"; Insert P1; Insert P2]).
  assert (Hm : busMarker_current (run es (mount "bus-7")) = Some (coords P2))
    by (vm_compute; reflexivity).
  destruct (one_live_marker_at_the_position "bus-7" es) as [H1 H2].
  rewrite Hm in H1.
  destruct (H2 _ Hm) as [H3 H4].
  split; [exact Hm | split; [exact H1 | split; [exact H3 | exact H4]]].
Defined.

(** X9. Entering the token when a position is already known creates the map
    and nothing else: the effect that places the marker depends on the
    position alone, so the known position is not drawn, and the bus appears
    on the map only with the next position. *)
Theorem known_position_not_drawn_on_new_map (busId value : string)
    (es : list Event) (p q : BusLocation.t) :
  let s := run es (mount busId) in
  mounted s = true -> map_current s = false -> busLocation s = Some p ->
  truthy value = true -> String.eqb value (mapboxToken s) = false ->
  let s1 := step (TokenInput value) s in
  map_current s1 = true /\
  busLocation s1 = Some p /\
  busMarker_current s1 = None /\
  trace s1 = trace s ++ [Map_new (78.4867, 17.3850) 12; Map_addControl] /\
  busMarker_current (step (Insert q) s1) = Some (coords q).
Proof.
  cbv zeta. intros Hm Hmap Hloc Htr Hne.
  pose proof (marker_ok_reachable busId es) as [_ Hk].
  destruct (channel_sees_initial_stops busId es) as [_ Hc].
  set (s := run es (mount busId)) in *.
  assert (Hnone : busMarker_current s = None).
  { destruct (busMarker_current s) as [c |] eqn:E; [| reflexivity].
    destruct (Hk c eq_refl) as [Habs _]. congruence. }
  assert (E : step (TokenInput value) s =
              emit [Map_addControl]
                (with_map_current true
                   (emit [Map_new (78.4867, 17.3850) 12]
                      (with_mapboxToken value s)))).
  { simpl. rewrite Hm. unfold on_token_input. rewrite Hne.
    unfold commit_mapboxToken, setMapboxToken. rewrite Hm. simpl. rewrite Hm.
    unfold effect_mapboxToken, initializeMap. simpl.
    rewrite Hm, Htr, Hmap. reflexivity. }
  rewrite E.
  split; [reflexivity | split; [exact Hloc | split; [exact Hnone | split]]].
  - simpl. rewrite <- app_assoc. reflexivity.
  - set (s1 := emit _ _).
    assert (Hm1 : mounted s1 = true) by exact Hm.
    assert (Hc1 : channel s1 = Some []) by exact Hc.
    destruct (step_insert_mounted [] q s1 Hm1 Hc1)
      as (_ & _ & _ & _ & _ & Hk1).
    exact Hk1.
Qed.

Lemma known_position_not_drawn_on_new_map_witness :
  let p := BusLocation.mk 17.385 78.4867 "2024-01-01T08:00:00Z" in
  let q := BusLocation.mk 17.386 78.4871 "2024-01-01T08:00:05Z" in
  let s := run [LatestLocationAnswer (Some p)] (mount "bus-7") in
  let s1 := step (TokenInput "pk.test") s in
  mounted s = true /\ map_current s = false /\ busLocation s = Some p /\
  truthy "pk.test" = true /\
  String.eqb "pk.test" (mapboxToken s) = false /\
  busMarker_current s1 = None /\
  busMarker_current (step (Insert q) s1) = Some (coords q).
Proof.
  cbv zeta.
  set (p := BusLocation.mk 17.385 78.4867 "2024-01-01T08:00:00Z").
  set (q := BusLocation.mk 17.386 78.4871 "2024-01-01T08:00:05Z").
  set (es := [LatestLocationAnswer (Some p)]).
  assert (H1 : mounted (run es (mount "bus-7")) = true)
    by (vm_compute; reflexivity).
  assert (H2 : map_current (run es (mount "bus-7")) = false)
    by (vm_compute; reflexivity).
  assert (H3 : busLocation (run es (mount "bus-7")) = Some p)
    by (vm_compute; reflexivity).
  assert (H5 : truthy "pk.test" = true) by reflexivity.
  assert (H6 : String.eqb "pk.test" (mapboxToken (run es (mount "bus-7")))
               = false) by (vm_compute; reflexivity).
  destruct (known_position_not_drawn_on_new_map "bus-7" "pk.test" es p q
              H1 H2 H3 H5 H6) as (_ & _ & K3 & _ & K5).
  repeat split; assumption.
Defined.

(** ** Positions in the order of arrival *)

(** X10. Positions are kept in the order they are handled, and no timestamp
    is compared: when the answer of the eager fetch is handled after a
    pushed row, the stored position replaces the pushed one, on the page
    and on the map, whichever of the two is newer. *)
Theorem last_handled_position_wins (s : Session) (captured : list Stop.t)
    (rest : list Request) (pushed stored : BusLocation.t) :
  mounted s = true -> channel s = Some captured ->
  take ReqLatestLocation (pending s) = Some rest ->
  let late := run [Insert pushed; LatestLocationAnswer (Some stored)] s in
  let early := run [LatestLocationAnswer (Some stored); Insert pushed] s in
  busLocation late = Some stored /\
  busLocation early = Some pushed /\
  busMarker_current late =
    (if map_current s then Some (coords stored) else busMarker_current s) /\
  busMarker_current early =
    (if map_current s then Some (coords pushed) else busMarker_current s).
Proof.
  intros Hm Hc Hp. cbv zeta. unfold run. cbn [fold_left].
  destruct (on_insert_mounted captured pushed s Hm)
    as (Hm1 & _ & Hmap1 & _ & _ & Hp1 & _ & _ & Hk1).
  assert (E1 : step (Insert pushed) s = on_insert captured pushed s)
    by (simpl; rewrite Hc; reflexivity).
  assert (Hp1' : take ReqLatestLocation
                   (pending (step (Insert pushed) s)) = Some rest)
    by (rewrite E1, Hp1; exact Hp).
  rewrite <- E1 in Hm1, Hmap1, Hk1.
  destruct (latest_location_answer_mounted stored rest _ Hm1 Hp1')
    as (L1 & _ & L3).
  set (s2 := step (LatestLocationAnswer (Some stored)) s).
  assert (F : mounted s2 = true /\ channel s2 = Some captured /\
              map_current s2 = map_current s /\
              busMarker_current s2 =
                (if map_current s then Some (coords stored)
                 else busMarker_current s)).
  { unfold s2. simpl. unfold answered. rewrite Hp. simpl.
    unfold setBusLocation. simpl. rewrite Hm.
    set (s3 := with_busLocation (Some stored) (with_pending rest s)).
    destruct (commit_busLocation_after_set stored s3 Hm eq_refl)
      as (G1 & G2 & G3 & _ & _ & _ & _ & _ & G9).
    repeat split; try assumption. rewrite G2. exact Hc. }
  destruct F as (Hm2 & Hc2 & Hmap2 & Hk2).
  destruct (step_insert_mounted captured pushed s2 Hm2 Hc2)
    as (_ & _ & _ & I4 & _ & I6).
  split; [exact L1 | split; [exact I4 | split]].
  - rewrite L3, Hmap1, Hk1. destruct (map_current s); reflexivity.
  - rewrite I6, Hmap2, Hk2. destruct (map_current s); reflexivity.
Qed.

Lemma last_handled_position_wins_witness :
  let pushed := BusLocation.mk 17.386 78.4871 "2024-01-01T08:00:05Z" in
  let stored := BusLocation.mk 17.385 78.4867 "2024-01-01T08:00:00Z" in
  let s := mount "bus-7" in
  mounted s = true /\ channel s = Some [] /\
  take ReqLatestLocation (pending s) = Some [ReqBusInfo; ReqBusRoute] /\
  busLocation (run [Insert pushed; LatestLocationAnswer (Some stored)] s) =
    Some stored.
Proof.
  cbv zeta.
  assert (H1 : mounted (mount "bus-7") = true) by (vm_compute; reflexivity).
  assert (H2 : channel (mount "bus-7") = Some [])
    by (vm_compute; reflexivity).
  assert (H3 : take ReqLatestLocation (pending (mount "bus-7")) =
               Some [ReqBusInfo; ReqBusRoute]) by (vm_compute; reflexivity).
  destruct (last_handled_position_wins (mount "bus-7") []
              [ReqBusInfo; ReqBusRoute]
              (BusLocation.mk 17.386 78.4871 "2024-01-01T08:00:05Z")
              (BusLocation.mk 17.385 78.4867 "2024-01-01T08:00:00Z")
              H1 H2 H3) as (K & _).
  repeat split; assumption.
Defined.

(** ** The status card *)

Lemma step_keeps_a_position (e : Event) (s : Session) :
  busLocation s <> None -> busLocation (step e s) <> None.
Proof.
  intros H.
  destruct (delivers_position e) eqn:He.
  - destruct e as [| | | [d |] | new | |]; try discriminate He.
    + simpl. unfold answered.
      destruct (take ReqLatestLocation (pending s)) as [rest |];
        [| exact H].
      simpl. unfold setBusLocation. simpl.
      destruct (mounted s) eqn:Hm.
      * set (s2 := with_busLocation (Some d) (with_pending rest s)).
        destruct (commit_busLocation_after_set d s2 Hm eq_refl)
          as (_ & _ & _ & G & _).
        rewrite G. discriminate.
      * unfold commit_busLocation. simpl. rewrite Hm. exact H.
    + rewrite step_insert. destruct (channel s) as [captured |]; [| exact H].
      unfold setBusLocation, commit_busLocation.
      destruct (mounted s) eqn:Hm; simpl; rewrite Hm.
      * unfold effect_busLocation. simpl.
        destruct (map_current s); [| discriminate].
        unfold updateBusMarker. simpl.
        destruct (map_current s), (busMarker_current s); simpl; discriminate.
      * exact H.
  - rewrite step_keeps_busLocation by exact He. exact H.
Qed.

(** X11. Once a position is known, the status card with its badge "Live"
    stays: no event takes the position away again, so the card is shown
    for as long as the page is, also when no update arrives any more. *)
Theorem status_card_stays (es : list Event) (s : Session) :
  status_card (render s) <> None ->
  status_card (render (run es s)) <> None.
Proof.
  intros H.
  assert (Hl : busLocation s <> None).
  { intros E. apply H. unfold render. simpl. rewrite E. reflexivity. }
  assert (Hr : busLocation (run es s) <> None).
  { clear H. revert s Hl. unfold run.
    induction es as [| e es IH]; intros s Hl; simpl; [exact Hl |].
    apply IH. apply step_keeps_a_position. exact Hl. }
  unfold render. simpl.
  destruct (busLocation (run es s)); [discriminate | contradiction].
Qed.

Lemma status_card_stays_witness :
  let p := BusLocation.mk 17.385 78.4867 "2024-01-01T08:00:00Z" in
  let s := step (Insert p) (mount "bus-7") in
  status_card (render s) <> None /\
  status_card (render (run [LatestLocationAnswer None; Unmount] s)) <> None.
Proof.
  cbv zeta.
  assert (H : status_card
                (render (step (Insert (BusLocation.mk 17.385 78.4867
                                         "2024-01-01T08:00:00Z"))
                           (mount "bus-7"))) <> None)
    by (vm_compute; discriminate).
  split; [exact H |].
  exact (status_card_stays [LatestLocationAnswer None; Unmount] _ H).
Defined.

(** ** The stops *)

Lemma take_some (r : Request) (l l' : list Request) :
  take r l = Some l' ->
  forall r', waiting r' l =
             (waiting r' l' + (if Request_eqb r' r then 1 else 0))%nat.
Proof.
  revert l'. induction l as [| x l IH]; intros l' H r'; [discriminate H |].
  simpl in H. destruct (Request_eqb r x) eqn:E.
  - injection H as <-.
    assert (x = r) by (destruct r, x; try discriminate E; reflexivity).
    subst x. unfold waiting. simpl.
    destruct (Request_eqb r' r); simpl; lia.
  - destruct (take r l) as [l'' |] eqn:T; [| discriminate H].
    injection H as <-. specialize (IH _ eq_refl r').
    unfold waiting in *. simpl.
    destruct (Request_eqb r' x); simpl; lia.
Qed.

Lemma take_none (r : Request) (l : list Request) :
  take r l = None -> waiting r l = 0%nat.
Proof.
  induction l as [| x l IH]; intros H; [reflexivity |].
  simpl in H. destruct (Request_eqb r x) eqn:E; [discriminate H |].
  destruct (take r l); [discriminate H |].
  unfold waiting in *. simpl. rewrite E. apply IH. reflexivity.
Qed.

Lemma take_waiting (r : Request) (l : list Request) :
  waiting r l <> 0%nat -> exists l', take r l = Some l'.
Proof.
  intros H. destruct (take r l) as [l' |] eqn:T; [eauto |].
  apply take_none in T. contradiction.
Qed.

Lemma waiting_snoc (r r' : Request) (l : list Request) :
  waiting r (l ++ [r']) =
  (waiting r l + (if Request_eqb r r' then 1 else 0))%nat.
Proof.
  unfold waiting. rewrite filter_app, length_app. simpl.
  destruct (Request_eqb r r'); reflexivity.
Qed.

Lemma flat_map_map_none {A B C : Type} (f : B -> list C) (g : A -> B)
    (l : list A) :
  (forall x, f (g x) = []) -> flat_map f (map g l) = [].
Proof.
  intros H. induction l as [| x l IH]; simpl; [reflexivity |].
  rewrite H. exact IH.
Qed.

(** What is known of the pending requests after the [take]s of a step. *)
Ltac count_pending :=
  repeat match goal with
         | H : take ?r ?l = Some ?l' |- _ =>
             pose proof (take_some r l l' H ReqBusRoute);
             pose proof (take_some r l l' H ReqStops);
             pose proof (take_some r l l' H ReqBusInfo);
             pose proof (take_some r l l' H ReqLatestLocation);
             clear H
         | H : take ?r ?l = None |- _ => apply take_none in H
         end;
  rewrite ?waiting_snoc in *; cbn [Request_eqb] in *.

Lemma step_stops_loading_ok (e : Event) (s : Session) :
  stops_loading_ok s -> stops_loading_ok (step e s).
Proof.
  unfold stops_loading_ok. intros (H1 & H2 & H3).
  open_step s e; cbn -[waiting queries_from] in H1, H2, H3; split_cases.
  all: count_pending.
  all: unfold emit, stop_marker_calls, queries_from in *;
    cbn -[filter flat_map waiting] in *.
  all: split; [lia |].
  all: split; intros Hw.
  all: try (exfalso; lia).
  all: try (assert (Hr : waiting ReqBusRoute pe = 1%nat) by lia;
            destruct (H2 Hr) as (E1 & E2 & E3)).
  all: try (assert (Hs : waiting ReqStops pe = 1%nat) by lia;
            destruct (H3 Hs) as (F1 & F3)).
  all: rewrite ?flat_map_app; views is_stop_marker;
    cbn -[waiting];
    rewrite ?(flat_map_map_none _ approaching) by (intros; reflexivity);
    rewrite ?(flat_map_map_none _ stop_marker) by (intros; reflexivity);
    rewrite ?(flat_map_map_none _ (fun _ : Cleanup => removeChannel))
      by (intros; reflexivity);
    rewrite ?E1, ?E2, ?E3, ?F1, ?F3; auto.
Qed.

Lemma step_stops_settled (e : Event) (s : Session) :
  stops_settled s ->
  stops_settled (step e s) /\ stops_view (step e s) = stops_view s.
Proof.
  unfold stops_settled, stops_view. intros (H1 & H2).
  open_step s e; cbn -[waiting queries_from] in H1, H2; split_cases.
  all: count_pending.
  all: try (exfalso; lia).
  all: unfold emit, stop_marker_calls, queries_from in *;
    cbn -[filter flat_map waiting] in *.
  all: split; [lia |].
  all: rewrite ?flat_map_app; views is_stop_marker; cbn -[waiting];
    rewrite ?(flat_map_map_none _ approaching) by (intros; reflexivity);
    rewrite ?(flat_map_map_none _ (fun _ : Cleanup => removeChannel))
      by (intros; reflexivity);
    rewrite ?app_nil_r; reflexivity.
Qed.

Lemma run_stops_settled (es : list Event) :
  forall s : Session,
    stops_settled s ->
    stops_settled (run es s) /\ stops_view (run es s) = stops_view s.
Proof.
  unfold run.
  induction es as [| e es IH]; intros s H; simpl; [auto |].
  destruct (step_stops_settled e s H) as [H' E].
  destruct (IH _ H') as [H'' E'].
  split; [exact H'' | rewrite E'; exact E].
Qed.

Lemma stops_loading_ok_reachable (busId : string) (es : list Event) :
  stops_loading_ok (run es (mount busId)).
Proof.
  apply reachable_ind.
  - unfold stops_loading_ok.
    split; [vm_compute; lia |].
    split; intros _; repeat split; vm_compute; reflexivity.
  - apply step_stops_loading_ok.
Qed.

(** X12. The markers of the stops are placed at one moment only, when the
    stops arrive, and only if the map exists at that moment: with a map,
    one marker per stop in the order of the answer; without one (the token
    not yet entered), no stop marker for the rest of the session, whatever
    follows, though the stops are stored. *)
Theorem stop_markers_need_the_map_on_arrival (busId : string)
    (before after : list Event) (l : list Stop.t) :
  let s := run before (mount busId) in
  waiting ReqStops (pending s) <> 0%nat ->
  let s' := run after (step (StopsAnswer (Some l)) s) in
  stop_marker_calls (trace s') =
    (if map_current s then map stop_marker l else []) /\
  stops s' = (if mounted s then l else []).
Proof.
  cbv zeta. intros Hw.
  destruct (stops_loading_ok_reachable busId before) as (H1 & _ & H3).
  set (s := run before (mount busId)) in *. clearbody s.
  assert (Hs : waiting ReqStops (pending s) = 1%nat) by lia.
  destruct (H3 Hs) as [Hstops Hmarkers].
  destruct (take_waiting _ _ Hw) as [rest Htake].
  pose proof (take_some _ _ _ Htake ReqStops) as C1.
  pose proof (take_some _ _ _ Htake ReqBusRoute) as C2.
  cbn [Request_eqb] in C1, C2.
  set (s1 := step (StopsAnswer (Some l)) s).
  assert (E : s1 = emit (if map_current s then map stop_marker l else [])
                     (setStops l (with_pending rest s))).
  { unfold s1. rewrite step_stops_answer, Htake. reflexivity. }
  assert (Hset : stops_settled s1).
  { rewrite E. unfold stops_settled, setStops. cbn -[waiting].
    destruct (mounted s); cbn -[waiting]; lia. }
  destruct (run_stops_settled after s1 Hset) as [_ V].
  unfold stops_view in V. injection V as V1 _ V3.
  rewrite V1, V3, E. unfold setStops, stop_marker_calls.
  cbn [mounted with_pending].
  destruct (mounted s) eqn:Hm, (map_current s) eqn:Hmap; simpl;
    rewrite ?filter_app; fold (stop_marker_calls (trace s));
    rewrite ?Hmarkers, ?Hstops;
    rewrite ?(filter_map_all is_stop_marker stop_marker)
      by (intros; reflexivity);
    rewrite ?app_nil_r; auto.
Qed.

Lemma stop_markers_need_the_map_on_arrival_witness :
  let l := [Stop.mk "stop-1" "Main Gate" 17.385 78.4867 1] in
  let s := run [BusRouteAnswer (Some "route-1")] (mount "bus-7") in
  waiting ReqStops (pending s) <> 0%nat /\
  stop_marker_calls
    (trace (run [TokenInput "pk.test"] (step (StopsAnswer (Some l)) s))) = [].
Proof.
  cbv zeta.
  assert (H : waiting ReqStops
                (pending (run [BusRouteAnswer (Some "route-1")]
                            (mount "bus-7"))) <> 0%nat)
    by (vm_compute; discriminate).
  split; [exact H |].
  destruct (stop_markers_need_the_map_on_arrival "bus-7"
              [BusRouteAnswer (Some "route-1")] [TokenInput "pk.test"]
              [Stop.mk "stop-1" "Main Gate" 17.385 78.4867 1] H) as [K _].
  exact K.
Defined.

(** X13. When the bus has no route (the first query of [loadStops] finds no
    row), the stops are never asked for: for the rest of the session no
    query goes to the table of the stops, none is stored and no stop marker
    is placed. *)
Theorem no_route_no_stops (busId : string) (before after : list Event) :
  let s := run before (mount busId) in
  waiting ReqBusRoute (pending s) <> 0%nat ->
  let s' := run after (step (BusRouteAnswer None) s) in
  stops s' = [] /\
  queries_from "stops" (trace s') = [] /\
  stop_marker_calls (trace s') = [].
Proof.
  cbv zeta. intros Hw.
  destruct (stops_loading_ok_reachable busId before) as (H1 & H2 & _).
  set (s := run before (mount busId)) in *. clearbody s.
  assert (Hr : waiting ReqBusRoute (pending s) = 1%nat) by lia.
  destruct (H2 Hr) as (E1 & E2 & E3).
  destruct (take_waiting _ _ Hw) as [rest Htake].
  pose proof (take_some _ _ _ Htake ReqStops) as C1.
  pose proof (take_some _ _ _ Htake ReqBusRoute) as C2.
  cbn [Request_eqb] in C1, C2.
  set (s1 := step (BusRouteAnswer None) s).
  assert (E : s1 = with_pending rest s).
  { unfold s1. simpl. unfold answered. rewrite Htake. reflexivity. }
  assert (Hset : stops_settled s1).
  { rewrite E. unfold stops_settled. cbn -[waiting]. lia. }
  destruct (run_stops_settled after s1 Hset) as [_ V].
  unfold stops_view in V. injection V as V1 V2 V3.
  rewrite V1, V2, V3, E. simpl. auto.
Qed.

Lemma no_route_no_stops_witness :
  let s := run [] (mount "bus-7") in
  waiting ReqBusRoute (pending s) <> 0%nat /\
  queries_from "stops"
    (trace (run [TokenInput "pk.test"; StopsAnswer (Some [])]
              (step (BusRouteAnswer None) s))) = [].
Proof.
  cbv zeta.
  assert (H : waiting ReqBusRoute (pending (run [] (mount "bus-7"))) <> 0%nat)
    by (vm_compute; discriminate).
  split; [exact H |].
  destruct (no_route_no_stops "bus-7" []
              [TokenInput "pk.test"; StopsAnswer (Some [])] H) as (_ & K & _).
  exact K.
Defined.

(** ** The header *)

Lemma step_info_loading_ok (e : Event) (s : Session) :
  info_loading_ok s -> info_loading_ok (step e s).
Proof.
  unfold info_loading_ok. intros (H1 & H2).
  open_step s e; cbn -[waiting] in H1, H2; split_cases.
  all: count_pending.
  all: split; [lia |]; intros Hw; try (exfalso; lia).
  all: apply H2; lia.
Qed.

Lemma step_info_settled (e : Event) (s : Session) :
  waiting ReqBusInfo (pending s) = 0%nat ->
  waiting ReqBusInfo (pending (step e s)) = 0%nat /\
  busInfo (step e s) = busInfo s.
Proof.
  intros H.
  open_step s e; cbn -[waiting] in H; split_cases.
  all: count_pending.
  all: try (exfalso; lia).
  all: split; [lia | reflexivity].
Qed.

Lemma run_info_settled (es : list Event) :
  forall s : Session,
    waiting ReqBusInfo (pending s) = 0%nat ->
    busInfo (run es s) = busInfo s.
Proof.
  unfold run.
  induction es as [| e es IH]; intros s H; simpl; [reflexivity |].
  destruct (step_info_settled e s H) as [H' E].
  rewrite IH by exact H'. exact E.
Qed.

Lemma info_loading_ok_reachable (busId : string) (es : list Event) :
  info_loading_ok (run es (mount busId)).
Proof.
  apply reachable_ind.
  - split; [vm_compute; lia | intros _; vm_compute; reflexivity].
  - apply step_info_loading_ok.
Qed.

(** X14. The header is settled by the one answer to [loadBusInfo]. After a
    failure the notice is shown and the title stays "Loading..." for the
    rest of the session; after a success on the mounted page the title is
    the bus number, for the rest of the session. *)
Theorem header_settled_by_one_answer (busId bus_number : string)
    (before after : list Event) :
  let s := run before (mount busId) in
  waiting ReqBusInfo (pending s) <> 0%nat ->
  title (render (run after (step (BusInfoAnswer None) s))) = "Loading..." /\
  trace (step (BusInfoAnswer None) s) =
    trace s ++ [toast_error "Failed to load bus information"] /\
  (mounted s = true -> truthy bus_number = true ->
   title (render (run after (step (BusInfoAnswer (Some bus_number)) s))) =
   bus_number).
Proof.
  cbv zeta. intros Hw.
  destruct (info_loading_ok_reachable busId before) as (H1 & H2).
  set (s := run before (mount busId)) in *. clearbody s.
  assert (Hone : waiting ReqBusInfo (pending s) = 1%nat) by lia.
  pose proof (H2 Hone) as Hnone.
  destruct (take_waiting _ _ Hw) as [rest Htake].
  pose proof (take_some _ _ _ Htake ReqBusInfo) as C. cbn [Request_eqb] in C.
  assert (Ef : step (BusInfoAnswer None) s =
               emit [toast_error "Failed to load bus information"]
                 (with_pending rest s)).
  { simpl. unfold answered. rewrite Htake. reflexivity. }
  split; [| split].
  - unfold render. cbn [title]. rewrite run_info_settled.
    + rewrite Ef. simpl. rewrite Hnone. reflexivity.
    + rewrite Ef. cbn -[waiting]. lia.
  - rewrite Ef. reflexivity.
  - intros Hm Ht.
    assert (Es : step (BusInfoAnswer (Some bus_number)) s =
                 with_busInfo (Some bus_number) (with_pending rest s)).
    { simpl. unfold answered. rewrite Htake. simpl.
      unfold setBusInfo. simpl. rewrite Hm. reflexivity. }
    unfold render. cbn [title]. rewrite run_info_settled.
    + rewrite Es. simpl. rewrite Ht. reflexivity.
    + rewrite Es. cbn -[waiting]. lia.
Qed.

Lemma header_settled_by_one_answer_witness :
  let s := run [] (mount "bus-7") in
  waiting ReqBusInfo (pending s) <> 0%nat /\
  mounted s = true /\ truthy "TS-07" = true /\
  title (render (run [Unmount] (step (BusInfoAnswer None) s))) =
    "Loading..." /\
  title (render (run [Unmount] (step (BusInfoAnswer (Some "TS-07")) s))) =
    "TS-07".
Proof.
  cbv zeta.
  assert (H : waiting ReqBusInfo (pending (run [] (mount "bus-7"))) <> 0%nat)
    by (vm_compute; discriminate).
  assert (Hm : mounted (run [] (mount "bus-7")) = true)
    by (vm_compute; reflexivity).
  assert (Ht : truthy "TS-07" = true) by reflexivity.
  destruct (header_settled_by_one_answer "bus-7" "TS-07" [] [Unmount] H)
    as (K1 & _ & K3).
  split; [exact H | split; [exact Hm | split; [exact Ht | split]]].
  - exact K1.
  - exact (K3 Hm Ht).
Defined.

(** ** Queries and subscriptions *)

Lemma step_queries (e : Event) (s : Session) :
  (3 <= queries_sent s)%nat /\
  (queries_sent s + waiting ReqBusRoute (pending s) <= 4)%nat ->
  (3 <= queries_sent (step e s))%nat /\
  (queries_sent (step e s) + waiting ReqBusRoute (pending (step e s)) <= 4)%nat.
Proof.
  unfold queries_sent. intros (H1 & H2).
  open_step s e; cbn -[waiting filter] in H1, H2; split_cases.
  all: count_pending.
  all: unfold emit in *; cbn -[filter waiting] in *;
    views is_select; rewrite ?length_app; cbn -[waiting filter];
    rewrite ?(length_filter_map_none is_select approaching)
      by (intros; reflexivity); lia.
Qed.

Lemma step_subscriptions (e : Event) (s : Session) :
  subscriptions (step e s) = subscriptions s.
Proof.
  unfold subscriptions.
  open_step s e; split_cases.
  all: unfold emit; cbn -[filter]; views is_channel_subscribe; reflexivity.
Qed.

(** X15. A session opens one subscription and sends three queries, or four
    when the bus has a route: nothing is fetched or subscribed again,
    whatever happens afterwards. *)
Theorem one_subscription_and_at_most_four_queries (busId : string)
    (es : list Event) :
  let s := run es (mount busId) in
  subscriptions s =
    [channel_subscribe "bus-location-updates" "bus_locations"
       (String.append "bus_id=eq." busId)] /\
  (3 <= queries_sent s <= 4)%nat.
Proof.
  cbv zeta. split.
  - apply (reachable_ind
             (fun s => subscriptions s =
                [channel_subscribe "bus-location-updates" "bus_locations"
                   (String.append "bus_id=eq." busId)])).
    + vm_compute. reflexivity.
    + intros e s H. rewrite step_subscriptions. exact H.
  - assert (H : (3 <= queries_sent (run es (mount busId)))%nat /\
                (queries_sent (run es (mount busId)) +
                 waiting ReqBusRoute (pending (run es (mount busId)))
                 <= 4)%nat).
    { apply (reachable_ind
               (fun s => (3 <= queries_sent s)%nat /\
                         (queries_sent s + waiting ReqBusRoute (pending s)
                          <= 4)%nat)).
      - split; vm_compute; lia.
      - apply step_queries. }
    lia.
Qed.

End SessionExtras.

(* ================================================================== *)
(** * Positions delivered between renders *)
(* ================================================================== *)

Module RenderingFacts.
Import JS Geo TrackBus Rendering ProximityFacts SessionFacts.

Lemma deliver_one (p : BusLocation.t) (s : Session) :
  deliver [p] s = step (Insert p) s.
Proof. reflexivity. Qed.

Lemma callback_mounted (captured : list Stop.t) (p : BusLocation.t)
    (s : Session) :
  mounted s = true ->
  callback captured p s =
  emit (proximity_events captured p) (with_busLocation (Some p) s).
Proof.
  intros Hm. unfold callback, setBusLocation. rewrite Hm.
  apply checkProximityToStops_emits.
Qed.

(** The callbacks of a batch, before its render. *)
Lemma callbacks_mounted (captured : list Stop.t) (rows : list BusLocation.t) :
  forall s : Session,
    mounted s = true ->
    let s' := forEach rows (callback captured) s in
    mounted s' = true /\ channel s' = channel s /\
    map_current s' = map_current s /\
    busMarker_current s' = busMarker_current s /\
    busLocation s' =
      match latest rows with
      | Some p => Some p
      | None => busLocation s
      end /\
    trace s' = trace s ++ flat_map (proximity_events captured) rows.
Proof.
  unfold forEach.
  induction rows as [| p rows IH]; intros s Hm; cbn [fold_left flat_map latest].
  - rewrite app_nil_r. repeat split; assumption.
  - rewrite (callback_mounted captured p s Hm).
    set (s1 := emit (proximity_events captured p)
                 (with_busLocation (Some p) s)).
    assert (Hm1 : mounted s1 = true) by exact Hm.
    destruct (IH s1 Hm1) as (H1 & H2 & H3 & H4 & H5 & H6).
    repeat split; try assumption.
    + rewrite H5. destruct (latest rows); reflexivity.
    + rewrite H6. unfold s1. simpl. rewrite <- app_assoc. reflexivity.
Qed.

(** One batch and its render, on a mounted session. *)
Lemma deliver_mounted (captured : list Stop.t) (rows : list BusLocation.t)
    (p : BusLocation.t) (s : Session) :
  mounted s = true -> channel s = Some captured -> latest rows = Some p ->
  let s' := deliver rows s in
  mounted s' = true /\ channel s' = Some captured /\
  map_current s' = map_current s /\ busLocation s' = Some p /\
  trace s' =
    trace s ++ flat_map (proximity_events captured) rows ++
    (if map_current s then marker_update (busMarker_current s) p else []) /\
  busMarker_current s' =
    (if map_current s then Some (coords p) else busMarker_current s).
Proof.
  intros Hm Hc Hl. unfold deliver, on_inserts. rewrite Hc.
  destruct rows as [| r rows]; [discriminate Hl |].
  destruct (callbacks_mounted captured (r :: rows) s Hm)
    as (H1 & H2 & H3 & H4 & H5 & H6).
  rewrite Hl in H5.
  set (s1 := forEach (r :: rows) (callback captured) s) in *.
  destruct (commit_busLocation_after_set p s1 H1 H5)
    as (K1 & K2 & K3 & K4 & _ & _ & _ & K8 & K9).
  rewrite H3, H4 in K8, K9.
  repeat split.
  - exact K1.
  - rewrite K2, H2. exact Hc.
  - rewrite K3. exact H3.
  - exact K4.
  - rewrite K8, H6, <- app_assoc. reflexivity.
  - exact K9.
Qed.

Lemma latest_nonempty (rows : list BusLocation.t) :
  rows <> [] -> exists p, latest rows = Some p.
Proof.
  destruct rows as [| r rows]; [intros H; contradiction H; reflexivity |].
  intros _. simpl. destruct (latest rows) as [q |]; eauto.
Qed.

Lemma checkProximityToStops_calls_batch (captured : list Stop.t)
    (rows : list BusLocation.t) :
  checkProximityToStops_calls (flat_map (proximity_events captured) rows) =
  rows.
Proof.
  induction rows as [| p rows IH]; [reflexivity |].
  cbn [flat_map]. rewrite checkProximityToStops_calls_app, IH.
  destruct (views_of_proximity_events captured p) as (_ & _ & E & _).
  rewrite E. reflexivity.
Qed.

Lemma marker_views_batch (captured : list Stop.t)
    (rows : list BusLocation.t) :
  updateBusMarker_calls (flat_map (proximity_events captured) rows) = [] /\
  live_marker_calls (flat_map (proximity_events captured) rows) = [].
Proof.
  induction rows as [| p rows [IH1 IH2]]; [split; reflexivity |].
  cbn [flat_map]. rewrite updateBusMarker_calls_app, live_marker_calls_app.
  destruct (views_of_proximity_events captured p) as (E1 & E2 & _ & _).
  rewrite E1, E2, IH1, IH2. split; reflexivity.
Qed.

(** Batches of rows, a render after each, on a mounted session: every row
    is evaluated, and the marker is updated once per batch. *)
Lemma deliveries_mounted (captured : list Stop.t)
    (batches : list (list BusLocation.t)) :
  forall s : Session,
    mounted s = true -> channel s = Some captured ->
    Forall (fun rows => rows <> []) batches ->
    let s' := deliveries batches s in
    mounted s' = true /\ channel s' = Some captured /\
    map_current s' = map_current s /\
    busLocation s' =
      match latest (rendered batches) with
      | Some p => Some p
      | None => busLocation s
      end /\
    checkProximityToStops_calls (trace s') =
      checkProximityToStops_calls (trace s) ++ List.concat batches /\
    updateBusMarker_calls (trace s') =
      updateBusMarker_calls (trace s) ++
      (if map_current s then rendered batches else []) /\
    live_marker_calls (trace s') =
      live_marker_calls (trace s) ++
      (if map_current s
       then marker_moves (busMarker_current s) (rendered batches)
       else []) /\
    busMarker_current s' =
      (if map_current s then
         match latest (rendered batches) with
         | Some p => Some (coords p)
         | None => busMarker_current s
         end
       else busMarker_current s).
Proof.
  unfold deliveries.
  induction batches as [| rows batches IH]; intros s Hm Hc Hne;
    cbn [fold_left].
  - cbn. destruct (map_current s); rewrite ?app_nil_r; repeat split;
      assumption.
  - inversion Hne as [| x l Hrows Hrest]; subst.
    destruct (latest_nonempty rows Hrows) as [p Hp].
    destruct (deliver_mounted captured rows p s Hm Hc Hp)
      as (D1 & D2 & D3 & D4 & D5 & D6).
    destruct (IH (deliver rows s) D1 D2 Hrest)
      as (I1 & I2 & I3 & I4 & I5 & I6 & I7 & I8).
    assert (Hr : rendered (rows :: batches) = p :: rendered batches).
    { unfold rendered. cbn [flat_map]. rewrite Hp. reflexivity. }
    rewrite Hr. cbn [latest marker_moves List.concat].
    rewrite D3 in *. rewrite D4 in I4. rewrite D6 in I7, I8.
    destruct (marker_views_batch captured rows) as [B1 B2].
    pose proof (checkProximityToStops_calls_batch captured rows) as B3.
    repeat split.
    + exact I1.
    + exact I2.
    + exact I3.
    + rewrite I4. destruct (latest (rendered batches)); reflexivity.
    + rewrite I5, D5, !checkProximityToStops_calls_app, B3.
      destruct (map_current s).
      * destruct (views_of_marker_update (busMarker_current s) p)
          as (_ & _ & M & _).
        rewrite M, app_nil_r, <- app_assoc. reflexivity.
      * cbn. rewrite app_nil_r, <- app_assoc. reflexivity.
    + rewrite I6, D5, !updateBusMarker_calls_app, B1.
      destruct (map_current s).
      * destruct (views_of_marker_update (busMarker_current s) p)
          as (M & _ & _ & _).
        rewrite M. cbn. rewrite <- app_assoc. reflexivity.
      * cbn. rewrite !app_nil_r. reflexivity.
    + rewrite I7, D5, !live_marker_calls_app, B2.
      destruct (map_current s).
      * destruct (views_of_marker_update (busMarker_current s) p)
          as (_ & M & _ & _).
        rewrite M. cbn. rewrite <- app_assoc. reflexivity.
      * cbn. rewrite !app_nil_r. reflexivity.
    + rewrite I8. destruct (map_current s); [| reflexivity].
      destruct (latest (rendered batches)); reflexivity.
Qed.

Lemma latest_app (a b : list BusLocation.t) :
  latest (a ++ b) =
  match latest b with
  | Some q => Some q
  | None => latest a
  end.
Proof.
  induction a as [| x a IH]; cbn [app latest].
  - destruct (latest b); reflexivity.
  - rewrite IH. destruct (latest b); reflexivity.
Qed.

(** The last position rendered is the last row delivered. *)
Lemma latest_rendered (batches : list (list BusLocation.t)) :
  Forall (fun rows => rows <> []) batches ->
  latest (rendered batches) = latest (List.concat batches).
Proof.
  induction 1 as [| rows batches Hrows Hrest IH]; [reflexivity |].
  destruct (latest_nonempty rows Hrows) as [p Hp].
  unfold rendered in *. cbn [flat_map List.concat].
  rewrite Hp, !latest_app, IH, Hp. cbn [latest].
  destruct (latest (List.concat batches)); reflexivity.
Qed.

(** One marker update per render. *)
Lemma length_rendered (batches : list (list BusLocation.t)) :
  Forall (fun rows => rows <> []) batches ->
  List.length (rendered batches) = List.length batches.
Proof.
  induction 1 as [| rows batches Hrows Hrest IH]; [reflexivity |].
  destruct (latest_nonempty rows Hrows) as [p Hp].
  unfold rendered in *. cbn [flat_map]. rewrite Hp. cbn. rewrite IH.
  reflexivity.
Qed.

Ltac split_batches :=
  repeat match goal with
         | H : Forall _ [] |- _ => clear H
         | H : Forall _ (_ :: _) |- _ =>
             apply Forall_cons_iff in H; destruct H as [? H]
         | H : [] <> [] |- _ => contradiction H; reflexivity
         | H : [] = [] |- _ => clear H
         | H : [] = _ :: _ |- _ => discriminate H
         | H : _ :: _ = [] |- _ => discriminate H
         | H : _ :: _ = _ :: _ |- _ => injection H as ? H; subst
         | H : List.concat ?b = _ |- _ =>
             is_var b; destruct b as [| [| ? ?] ?];
             cbn [List.concat app] in H
         | H : ?b ++ _ = _ |- _ => is_var b; destruct b; cbn [app] in H
         end.

(** The four ways three rows fall between renders. *)
Lemma batches_of_three (P1 P2 P3 : BusLocation.t)
    (batches : list (list BusLocation.t)) :
  List.concat batches = [P1; P2; P3] ->
  Forall (fun rows => rows <> []) batches ->
  batches = [[P1; P2; P3]] \/ batches = [[P1]; [P2; P3]] \/
  batches = [[P1; P2]; [P3]] \/ batches = [[P1]; [P2]; [P3]].
Proof.
  intros Hc Hne. split_batches; auto.
Qed.

(** C4 (amended). Three positions P1, P2, P3 delivered in order to a
    mounted, subscribed session, in whatever way they fall between the
    renders, leave P3 as the current position, and the proximity evaluator
    has run for each of them. When a map is attached, [updateBusMarker] is
    invoked once per render, for the last position delivered before it,
    each time placing the one live marker at those coordinates and
    recentring the map on it, so that the marker ends at P3; it is invoked
    exactly three times, for P1, P2, P3 in that order, exactly when each
    position is rendered before the next one is delivered, which is the
    sequence of events [Insert P1; Insert P2; Insert P3], and once, for P3,
    when the three are delivered before one render. When no map is
    attached, it is not invoked and nothing is placed. *)
Theorem three_positions_rendered (P1 P2 P3 : BusLocation.t) (s : Session)
    (batches : list (list BusLocation.t)) :
  mounted s = true -> channel s <> None ->
  List.concat batches = [P1; P2; P3] ->
  Forall (fun rows => rows <> []) batches ->
  let s' := deliveries batches s in
  busLocation s' = Some P3 /\
  checkProximityToStops_calls (trace s') =
    checkProximityToStops_calls (trace s) ++ [P1; P2; P3] /\
  List.length (rendered batches) = List.length batches /\
  latest (rendered batches) = Some P3 /\
  (rendered batches = [P1; P2; P3] <-> batches = [[P1]; [P2]; [P3]]) /\
  (batches = [[P1; P2; P3]] -> rendered batches = [P3]) /\
  deliveries [[P1]; [P2]; [P3]] s = run [Insert P1; Insert P2; Insert P3] s /\
  if map_current s then
    updateBusMarker_calls (trace s') =
      updateBusMarker_calls (trace s) ++ rendered batches /\
    live_marker_calls (trace s') =
      live_marker_calls (trace s) ++
      marker_moves (busMarker_current s) (rendered batches) /\
    busMarker_current s' = Some (coords P3)
  else
    updateBusMarker_calls (trace s') = updateBusMarker_calls (trace s) /\
    live_marker_calls (trace s') = live_marker_calls (trace s) /\
    busMarker_current s' = busMarker_current s.
Proof.
  intros Hm Hc Hrows Hne.
  destruct (channel s) as [captured |] eqn:Hch; [clear Hc | contradiction].
  pose proof (latest_rendered batches Hne) as Hlast.
  rewrite Hrows in Hlast. cbn [latest] in Hlast.
  destruct (deliveries_mounted captured batches s Hm Hch Hne)
    as (_ & _ & _ & D4 & D5 & D6 & D7 & D8).
  rewrite Hlast in D4, D8. rewrite Hrows in D5.
  cbv zeta.
  split; [exact D4 |].
  split; [exact D5 |].
  split; [apply length_rendered; exact Hne |].
  split; [exact Hlast |].
  split.
  { destruct (batches_of_three P1 P2 P3 batches Hrows Hne)
      as [E | [E | [E | E]]]; subst batches; cbn;
      split; intros H; try reflexivity; discriminate H. }
  split; [intros E; rewrite E; reflexivity |].
  split.
  { unfold deliveries, run. cbn [fold_left]. rewrite !deliver_one.
    reflexivity. }
  destruct (map_current s).
  - split; [exact D6 | split; [exact D7 | exact D8]].
  - rewrite app_nil_r in D6, D7.
    split; [exact D6 | split; [exact D7 | exact D8]].
Qed.

Lemma three_positions_rendered_witness :
  let P1 := BusLocation.mk 17.385 78.4867 "2024-01-01T08:00:00Z" in
  let P2 := BusLocation.mk 17.386 78.4871 "2024-01-01T08:00:05Z" in
  let P3 := BusLocation.mk 17.387 78.4875 "2024-01-01T08:00:10Z" in
  let s := step (TokenInput "pk.test") (mount "bus-7") in
  let batches := [[P1; P2]; [P3]] in
  let s' := deliveries batches s in
  mounted s = true /\ channel s <> None /\
  List.concat batches = [P1; P2; P3] /\
  Forall (fun rows => rows <> []) batches /\
  map_current s = true /\
  busLocation s' = Some P3 /\
  updateBusMarker_calls (trace s') =
    updateBusMarker_calls (trace s) ++ [P2; P3].
Proof.
  cbv zeta.
  set (P1 := BusLocation.mk 17.385 78.4867 "2024-01-01T08:00:00Z").
  set (P2 := BusLocation.mk 17.386 78.4871 "2024-01-01T08:00:05Z").
  set (P3 := BusLocation.mk 17.387 78.4875 "2024-01-01T08:00:10Z").
  set (s := step (TokenInput "pk.test") (mount "bus-7")).
  assert (Hm : mounted s = true) by (vm_compute; reflexivity).
  assert (Hc : channel s <> None) by (vm_compute; discriminate).
  assert (Hmap : map_current s = true) by (vm_compute; reflexivity).
  assert (Hrows : List.concat [[P1; P2]; [P3]] = [P1; P2; P3])
    by reflexivity.
  assert (Hne : Forall (fun rows : list BusLocation.t => rows <> [])
                  [[P1; P2]; [P3]])
    by (repeat constructor; discriminate).
  pose proof (three_positions_rendered P1 P2 P3 s [[P1; P2]; [P3]]
                Hm Hc Hrows Hne) as H.
  cbv zeta in H. rewrite Hmap in H.
  destruct H as (Hl & _ & _ & _ & _ & _ & _ & Hu & _).
  repeat split; assumption.
Defined.

(** C4, as stated, fails with a map attached: three positions pushed
    before the component renders again run the callback three times, the
    current position is the third, and the one render that follows invokes
    [updateBusMarker] once, for the third. *)
Lemma three_positions_before_one_render :
  let P1 := BusLocation.mk 17.385 78.4867 "2024-01-01T08:00:00Z" in
  let P2 := BusLocation.mk 17.386 78.4871 "2024-01-01T08:00:05Z" in
  let P3 := BusLocation.mk 17.387 78.4875 "2024-01-01T08:00:10Z" in
  let s := step (TokenInput "pk.test") (mount "bus-7") in
  let s' := deliver [P1; P2; P3] s in
  map_current s = true /\
  updateBusMarker_calls (trace s) = [] /\
  busLocation s' = Some P3 /\
  checkProximityToStops_calls (trace s') = [P1; P2; P3] /\
  updateBusMarker_calls (trace s') = [P3] /\
  live_marker_calls (trace s') =
    [Marker_new "#10B981" (coords P3) "<strong>Your Bus</strong>";
     Map_flyTo (coords P3) 14] /\
  List.length (updateBusMarker_calls (trace s')) <> 3%nat.
Proof.
  cbv zeta. lazy. repeat split. discriminate.
Qed.

End RenderingFacts.

(* ================================================================== *)
(** * The subscription after mount *)
(* ================================================================== *)

Module SubscriptionFacts.
Import JS Geo GeoFacts TrackBus TrackBusView TrackBusInvariants
  ProximityFacts SessionFacts SessionExtras.

(** ** The subscription is never removed *)

Lemma step_never_unsubscribes (e : Event) (s : Session) :
  cleanups s = [] /\ filter is_removeChannel (trace s) = [] ->
  cleanups (step e s) = [] /\ filter is_removeChannel (trace (step e s)) = [].
Proof.
  intros [Hc Ht].
  open_step s e; cbn in Hc, Ht; subst cl; split_cases.
  all: unfold emit; cbn -[filter]; views is_removeChannel;
    rewrite ?Ht; split; reflexivity.
Qed.

(** No cleanup is registered at mount, so [removeChannel] is never called
    and the channel opened at mount stays open, with the callback of the
    first render, also after the page is gone. *)
Lemma channel_stays_open (busId : string) (es : list Event) :
  let s := run es (mount busId) in
  cleanups s = [] /\ filter is_removeChannel (trace s) = [] /\
  channel s = Some [].
Proof.
  cbv zeta.
  assert (H : cleanups (run es (mount busId)) = [] /\
              filter is_removeChannel (trace (run es (mount busId))) = []).
  { apply (reachable_ind
             (fun s => cleanups s = [] /\
                       filter is_removeChannel (trace s) = [])).
    - split; vm_compute; reflexivity.
    - apply step_never_unsubscribes. }
  destruct H as [H1 H2].
  split; [exact H1 | split; [exact H2 |]].
  apply channel_sees_initial_stops.
Qed.

(** A row pushed on the channel runs the proximity evaluation, whether the
    page is mounted or not. *)
Lemma pushed_row_is_evaluated (bus_id : string) (es : list Event)
    (p : BusLocation.t) :
  let s := run es (mount bus_id) in
  checkProximityToStops_calls (trace (step (Insert p) s)) =
  checkProximityToStops_calls (trace s) ++ [p].
Proof.
  cbv zeta.
  destruct (channel_sees_initial_stops bus_id es) as [_ Hch].
  set (s := run es (mount bus_id)) in *.
  rewrite step_insert, Hch.
  destruct s as [bus mnt loc sts info tok mp mk ch cl pe tr].
  unfold commit_busLocation, setBusLocation, effect_busLocation,
    updateBusMarker, emit.
  cbn [busId mounted busLocation stops busInfo mapboxToken map_current
       busMarker_current channel cleanups pending trace].
  destruct mnt, mp, mk; cbn;
    rewrite ?checkProximityToStops_calls_app; cbn;
    rewrite ?app_nil_r; reflexivity.
Qed.

Lemma evaluations_map_none {A : Type} (g : A -> Call) (l : list A) :
  (forall x, checkProximityToStops_calls [g x] = []) ->
  checkProximityToStops_calls (map g l) = [].
Proof.
  intros H. induction l as [| x l IH]; [reflexivity |].
  change (map g (x :: l)) with ([g x] ++ map g l).
  rewrite checkProximityToStops_calls_app, H, IH. reflexivity.
Qed.

(** Nothing else runs it: an event that is not a pushed row adds no
    proximity evaluation. *)
Lemma only_pushed_rows_are_evaluated (e : Event) (s : Session) :
  (forall p : BusLocation.t, e <> Insert p) ->
  checkProximityToStops_calls (trace (step e s)) =
  checkProximityToStops_calls (trace s).
Proof.
  intros He.
  destruct e as [data | busRoute | stopsData | data | new | value |];
    [ | | rewrite step_stops_answer | | contradiction (He new); reflexivity
    | | rewrite step_unmount ];
    destruct s as [bus mnt loc sts info tok mp mk ch cl pe tr];
    unfold step, answered, loadBusInfo_resume, loadStops_resume1,
      loadLatestLocation_resume, on_token_input,
      unmount, request, setBusInfo, setStops, setBusLocation, setMapboxToken,
      commit_busLocation, commit_mapboxToken, effect_busLocation,
      effect_mapboxToken, initializeMap, updateBusMarker;
    cbn [busId mounted busLocation stops busInfo mapboxToken map_current
         busMarker_current channel cleanups pending trace];
    split_cases.
  all: unfold emit; cbn; rewrite ?checkProximityToStops_calls_app; cbn;
    rewrite ?app_nil_r; try reflexivity.
  all: rewrite evaluations_map_none by (intros; reflexivity);
    apply app_nil_r.
Qed.

(** C5. The code at the failing input: the page is mounted for a bus and
    torn down; the answer of the eager fetch, in flight at teardown, then
    arrives, and after it a row is pushed on the channel. Nothing was
    registered for unmount, [removeChannel] is never called and the channel
    is still open. The late answer changes nothing; the pushed row runs
    the callback, and with it a proximity evaluation, after teardown. *)
Lemma proximity_evaluation_after_teardown :
  let P := BusLocation.mk 17.385 78.4867 "2024-01-01T08:00:00Z" in
  let s0 := step Unmount (mount "bus-7") in
  let s1 := step (LatestLocationAnswer (Some P)) s0 in
  let s2 := step (Insert P) s1 in
  cleanups (mount "bus-7") = [] /\
  mounted s0 = false /\
  channel s2 = Some [] /\
  filter is_removeChannel (trace s2) = [] /\
  busLocation s1 = None /\
  updateBusMarker_calls (trace s2) = [] /\
  checkProximityToStops_calls (trace s1) = [] /\
  checkProximityToStops_calls (trace s2) = [P].
Proof.
  cbv zeta. lazy. repeat split.
Qed.

(** ** The stops the callback evaluates *)

(** C3. The code at the failing input: the page is mounted for a bus, the
    route and its two stops are loaded, and two rows are pushed with the
    bus at the first stop. The evaluator, called with the stops the page
    holds, notifies the first stop and only it; it runs for both rows, but
    against the stops of the render that subscribed, the initial empty
    list, and no notification is emitted for either row. *)
Lemma position_update_never_notifies :
  let stop1 := Stop.mk "stop-1" "Main Gate" 17.385 78.4867 1 in
  let stop2 := Stop.mk "stop-2" "Library" 17.39 78.4867 2 in
  let P := BusLocation.mk 17.385 78.4867 "2024-01-01T08:00:00Z" in
  let P' := BusLocation.mk 17.385 78.4867 "2024-01-01T08:00:05Z" in
  let s :=
    run [BusRouteAnswer (Some "route-1"); StopsAnswer (Some [stop1; stop2])]
      (mount "bus-7") in
  let s' := run [Insert P; Insert P'] s in
  stops s = [stop1; stop2] /\
  channel s = Some [] /\
  filter (near P) (stops s) = [stop1] /\
  filter (near P') (stops s) = [stop1] /\
  toasts (trace (checkProximityToStops (stops s) P s)) = [approaching stop1] /\
  toasts (trace (checkProximityToStops (stops s) P' s)) =
    [approaching stop1] /\
  busLocation s' = Some P' /\
  checkProximityToStops_calls (trace s') = [P; P'] /\
  toasts (trace s') = [].
Proof.
  cbv zeta.
  set (stop1 := Stop.mk "stop-1" "Main Gate" 17.385 78.4867 1).
  set (stop2 := Stop.mk "stop-2" "Library" 17.39 78.4867 2).
  set (s := run [BusRouteAnswer (Some "route-1");
                 StopsAnswer (Some [stop1; stop2])] (mount "bus-7")).
  assert (Hstops : stops s = [stop1; stop2]) by (vm_compute; reflexivity).
  assert (Hquiet : toasts (trace s) = []) by (vm_compute; reflexivity).
  assert (Hnear : forall t : string,
            filter (near (BusLocation.mk 17.385 78.4867 t)) [stop1; stop2] =
            [stop1]).
  { intros t.
    assert (H1 : near (BusLocation.mk 17.385 78.4867 t) stop1 = true).
    { unfold near, PROXIMITY_THRESHOLD. apply lt_true_iff. simpl.
      rewrite calculateDistance_same_point. lra. }
    assert (H2 : near (BusLocation.mk 17.385 78.4867 t) stop2 = false).
    { unfold near, PROXIMITY_THRESHOLD. apply lt_false_iff.
      rewrite (ProximityRadius.distance_to_stop_on_meridian
                 (BusLocation.mk 17.385 78.4867 t) stop2 eq_refl).
      - simpl. replace (17.39 - 17.385) with 0.005 by lra.
        rewrite Rabs_right by lra. pose proof PI2_3_2. lra.
      - simpl. replace (17.39 - 17.385) with 0.005 by lra.
        rewrite Rabs_right; lra. }
    cbn [filter]. rewrite H1, H2. reflexivity. }
  assert (Hcall : forall t : string,
            toasts (trace (checkProximityToStops [stop1; stop2]
                             (BusLocation.mk 17.385 78.4867 t) s)) =
            [approaching stop1]).
  { intros t. rewrite checkProximityToStops_emits, Hnear.
    change (toasts (trace s ++
                    [call_checkProximityToStops
                       (BusLocation.mk 17.385 78.4867 t);
                     approaching stop1]) = [approaching stop1]).
    rewrite toasts_app, Hquiet. reflexivity. }
  rewrite Hstops.
  split; [reflexivity |].
  split; [vm_compute; reflexivity |].
  split; [apply Hnear |].
  split; [apply Hnear |].
  split; [apply Hcall |].
  split; [apply Hcall |].
  lazy. repeat split.
Qed.

(** X24. In every session started by [mount], whatever has happened since
    (stops loaded, map created, page torn down), no cleanup is registered,
    [removeChannel] has not been called and the channel is open with the
    callback of the first render; a row pushed on it runs exactly one
    proximity evaluation, against the empty stop list of that render, and
    adds no notification. *)
Theorem subscription_keeps_first_render (bus_id : string) (es : list Event)
    (p : BusLocation.t) :
  let s := run es (mount bus_id) in
  let s' := step (Insert p) s in
  cleanups s = [] /\
  filter is_removeChannel (trace s) = [] /\
  channel s = Some [] /\
  checkProximityToStops_calls (trace s') =
    checkProximityToStops_calls (trace s) ++ [p] /\
  toasts (trace s') = toasts (trace s).
Proof.
  cbv zeta.
  destruct (channel_stays_open bus_id es) as (H1 & H2 & H3).
  split; [exact H1 | split; [exact H2 | split; [exact H3 | split]]].
  - apply pushed_row_is_evaluated.
  - apply delivered_position_adds_no_toast.
Qed.

End SubscriptionFacts.

(* ================================================================== *)
(** * More of the dashboard *)
(* ================================================================== *)

Module DashboardExtras.
Import StudentDashboard DashboardPage DashboardInvariants DashboardFacts.

Lemma others_kept_by_delete (student other : string)
    (rows : list Assignment.t) :
  student <> other ->
  assignments_of other (assignments_of_others student rows) =
  assignments_of other rows.
Proof.
  intros Hne. unfold assignments_of, assignments_of_others.
  induction rows as [| r rows IH]; simpl; [reflexivity |].
  destruct (belongs_to student r) eqn:Hs; simpl.
  - assert (Ho : belongs_to other r = false).
    { unfold belongs_to in *. apply String.eqb_eq in Hs.
      apply String.eqb_neq. congruence. }
    rewrite Ho. exact IH.
  - rewrite IH. reflexivity.
Qed.

Lemma rows_after (student busId : string) (del ins : Outcome)
    (rows : list Assignment.t) (tr : list Call) :
  student_buses
    (handleSelectBus busId del ins (mkWorld (Some student) rows tr)) =
  fst (backend_insert ins (Assignment.mk student busId)
         (fst (backend_delete del student rows))).
Proof.
  unfold handleSelectBus. simpl.
  destruct (backend_delete del student rows) as [rows1 e1]. simpl.
  destruct (backend_insert ins (Assignment.mk student busId) rows1)
    as [rows2 e2]. simpl.
  destruct e2; reflexivity.
Qed.

(** X16. Whatever the backend does with the two writes, a call of
    [handleSelectBus] leaves the rows of every student other than the one
    signed in as they are. *)
Theorem select_bus_keeps_other_students (busId other : string)
    (del ins : Outcome) (w : World) :
  user w <> Some other ->
  assignments_of other (student_buses (handleSelectBus busId del ins w)) =
  assignments_of other (student_buses w).
Proof.
  intros Hu. destruct w as [[student |] rows tr]; simpl in Hu;
    [| reflexivity].
  assert (Hne : student <> other) by congruence.
  rewrite rows_after. simpl.
  assert (Hrow : belongs_to other (Assignment.mk student busId) = false).
  { unfold belongs_to. simpl. apply String.eqb_neq. exact Hne. }
  destruct del, ins; simpl;
    fold (assignments_of_others student rows);
    try (destruct (existsb _ _)); simpl;
    rewrite ?assignments_of_app, ?others_kept_by_delete by exact Hne;
    unfold assignments_of at 2; simpl; rewrite ?Hrow, ?app_nil_r;
    reflexivity.
Qed.

Lemma select_bus_keeps_other_students_witness :
  let w := mkWorld (Some "student-1")
             [Assignment.mk "student-1" "bus-A";
              Assignment.mk "student-2" "bus-A"] [] in
  user w <> Some "student-2" /\
  assignments_of "student-2"
    (student_buses (handleSelectBus "bus-B" Refused Served w)) =
  assignments_of "student-2" (student_buses w).
Proof.
  cbv zeta.
  assert (H : user (mkWorld (Some "student-1")
                      [Assignment.mk "student-1" "bus-A";
                       Assignment.mk "student-2" "bus-A"] [])
              <> Some "student-2") by (simpl; discriminate).
  split; [exact H |].
  exact (select_bus_keeps_other_students "bus-B" "student-2"
           Refused Served _ H).
Defined.

(** X18. Every call of [handleSelectBus] by a signed-in student ends in
    exactly one notice. The success notice is shown only with the row of
    the selected bus in the table; the failure notice is shown with nothing
    added: the table is what the delete step left. *)
Theorem select_bus_notice_matches_table (student busId : string)
    (del ins : Outcome) (rows : list Assignment.t) (tr : list Call) :
  let w' := handleSelectBus busId del ins (mkWorld (Some student) rows tr) in
  let row := Assignment.mk student busId in
  (success_notices (trace w') =
     success_notices tr ++ [toast_success "Bus selected successfully"] /\
   failure_notices (trace w') = failure_notices tr /\
   In row (student_buses w')) \/
  (failure_notices (trace w') =
     failure_notices tr ++ [toast_error "Failed to select bus"] /\
   success_notices (trace w') = success_notices tr /\
   student_buses w' = fst (backend_delete del student rows)).
Proof.
  cbv zeta.
  pose proof (handleSelectBus_trace student busId del ins rows tr) as Ht.
  cbv zeta in Ht. rewrite Ht, rows_after. clear Ht.
  unfold success_notices, failure_notices.
  rewrite !filter_app. simpl.
  set (rows1 := fst (backend_delete del student rows)).
  destruct ins; simpl.
  - destruct (existsb (same_assignment (Assignment.mk student busId)) rows1);
      simpl; rewrite ?app_nil_r.
    + right. auto.
    + left. repeat split. apply in_or_app. right. left. reflexivity.
  - right. rewrite ?app_nil_r. auto.
Qed.

(** X19. A refused delete is not noticed. When the delete is refused and the
    insert served, a bus the student does not have yet is added next to the
    old rows, under the success notice; a bus the student has already
    collides with the constraint of the table, and the call ends in the
    failure notice with the table as it was. *)
Theorem refused_delete_piles_up_or_collides (student busId : string)
    (rows : list Assignment.t) (tr : list Call) :
  let row := Assignment.mk student busId in
  let w' := handleSelectBus busId Refused Served
              (mkWorld (Some student) rows tr) in
  if existsb (same_assignment row) rows then
    student_buses w' = rows /\
    failure_notices (trace w') =
      failure_notices tr ++ [toast_error "Failed to select bus"] /\
    success_notices (trace w') = success_notices tr
  else
    student_buses w' = rows ++ [row] /\
    assignments_of student (student_buses w') =
      assignments_of student rows ++ [row] /\
    failure_notices (trace w') = failure_notices tr /\
    success_notices (trace w') =
      success_notices tr ++ [toast_success "Bus selected successfully"].
Proof.
  cbv zeta.
  pose proof (handleSelectBus_trace student busId Refused Served rows tr)
    as Ht.
  cbv zeta in Ht. rewrite Ht, rows_after. clear Ht.
  simpl.
  destruct (existsb (same_assignment (Assignment.mk student busId)) rows);
    simpl; unfold success_notices, failure_notices;
    rewrite !filter_app; simpl; rewrite ?app_nil_r.
  - auto.
  - rewrite assignments_of_app.
    unfold assignments_of at 2. simpl. rewrite belongs_to_own. auto.
Qed.

(** ** The page *)

Lemma page_run_snoc (es : list Event) (e : Event) (p : Page) :
  run (es ++ [e]) p = step e (run es p).
Proof. unfold run. rewrite fold_left_app. reflexivity. Qed.

Lemma world_after_myBus_answer (error : option string)
    (data : option (option BusData.t)) (p : Page) :
  world (loadMyBus_resume error data p) = world p /\
  loading (loadMyBus_resume error data p) = loading p /\
  here (loadMyBus_resume error data p) = here p /\
  buses (loadMyBus_resume error data p) = buses p /\
  buses_pending (loadMyBus_resume error data p) = buses_pending p.
Proof.
  unfold loadMyBus_resume, setMyBus.
  destruct error as [code |]; simpl.
  - destruct (negb (String.eqb code "PGRST116")); simpl;
      [repeat split |].
    destruct data; [destruct (here p) eqn:H |]; simpl; rewrite ?H;
      repeat split.
  - destruct data; [destruct (here p) eqn:H |]; simpl; rewrite ?H;
      repeat split.
Qed.

Lemma step_stuck (e : Event) (p : Page) :
  loading p = true -> buses_pending p = false ->
  loading (step e p) = true /\ buses_pending (step e p) = false /\
  world (step e p) = world p /\ here (step e p) = here p /\
  filter is_navigate
    (log (step e p)) =
  filter is_navigate (log p).
Proof.
  intros Hl Hp.
  destruct e as [error data | error data | busId del ins | |]; simpl.
  - rewrite Hp. repeat split; assumption.
  - destruct (Nat.ltb _ _); [| repeat split; assumption].
    set (p1 := with_myBus_answered _ p).
    destruct (world_after_myBus_answer error data p1) as (W & L & H & _ & B).
    rewrite W, L, H, B. repeat split; try assumption.
    unfold loadMyBus_resume, setMyBus.
    destruct error as [code |]; simpl.
    + destruct (negb (String.eqb code "PGRST116")); simpl.
      * rewrite filter_app. simpl. apply app_nil_r.
      * destruct data; [destruct (here p) |]; reflexivity.
    + destruct data; [destruct (here p) |]; reflexivity.
  - unfold select_enabled. rewrite Hl.
    rewrite andb_false_r. simpl. repeat split; assumption.
  - unfold track_offered. rewrite Hl. rewrite andb_false_r. simpl.
    repeat split; assumption.
  - unfold logout_offered. rewrite Hl. rewrite andb_false_r.
    repeat split; assumption.
Qed.

(** X20. When the list of buses fails to load, the notice is shown and the
    page stays on its spinner for good: the error path returns before the
    spinner is ended, and nothing ends it later. No button is ever offered,
    so nothing is written and the page is never left by a button. *)
Theorem failed_bus_list_leaves_the_spinner (user : option string)
    (rows : list Assignment.t) (data : option (list BusData.t))
    (es : list Event) :
  let p := run es (step (BusesAnswer true data) (mount user rows)) in
  loading p = true /\
  here p = true /\
  student_buses (world p) = rows /\
  writes (trace (world p)) = [] /\
  failure_notices (trace (world p)) = [toast_error "Failed to load buses"] /\
  filter is_navigate
    (log p) = [].
Proof.
  cbv zeta.
  set (p0 := step (BusesAnswer true data) (mount user rows)).
  assert (H0 : loading p0 = true /\ buses_pending p0 = false /\
               here p0 = true /\ student_buses (world p0) = rows /\
               writes (trace (world p0)) = [] /\
               failure_notices (trace (world p0)) =
                 [toast_error "Failed to load buses"] /\
               filter is_navigate
                 (log p0) = []).
  { unfold p0. destruct user; vm_compute; auto 10. }
  induction es as [| e es IH] using rev_ind.
  - destruct H0 as (A & B & C & D & E & F & G). auto 10.
  - rewrite page_run_snoc.
    assert (Hb : buses_pending (run es p0) = false /\
                 loading (run es p0) = true).
    { clear IH. destruct H0 as (A & B & _).
      induction es as [| e' es IH'] using rev_ind; [auto |].
      rewrite page_run_snoc. destruct IH' as [Hp Hl].
      destruct (step_stuck e' _ Hl Hp) as (L & P & _). auto. }
    destruct Hb as [Hp Hl].
    destruct (step_stuck e _ Hl Hp) as (L & _ & W & H & N).
    destruct IH as (_ & I2 & I3 & I4 & I5 & I6).
    rewrite W, H, N. auto 10.
Qed.

Lemma inserted_app (a b : list Call) :
  inserted (a ++ b) = inserted a ++ inserted b.
Proof. apply flat_map_app. Qed.

Lemma inserted_after (busId : string) (del ins : Outcome) (w : World) :
  user (handleSelectBus busId del ins w) = user w /\
  inserted (trace (handleSelectBus busId del ins w)) =
    inserted (trace w) ++
    match user w with
    | Some student => [Assignment.mk student busId]
    | None => []
    end.
Proof.
  destruct w as [[student |] rows tr].
  - pose proof (handleSelectBus_trace student busId del ins rows tr) as Ht.
    cbv zeta in Ht. split.
    + unfold handleSelectBus. simpl.
      destruct (backend_delete del student rows) as [rows1 e1]. simpl.
      destruct (backend_insert ins (Assignment.mk student busId) rows1)
        as [rows2 [|]]; reflexivity.
    + rewrite Ht. simpl user. rewrite !inserted_app. simpl.
      destruct (snd _); simpl; rewrite ?app_nil_r; reflexivity.
  - simpl. rewrite app_nil_r. auto.
Qed.

Lemma listed_of_enabled (p : Page) (busId : string) :
  select_enabled p busId = true ->
  loading p = false /\ In busId (map BusData.id (buses p)) /\
  is_my_bus p busId = false /\ here p = true.
Proof.
  unfold select_enabled. intros H.
  apply andb_true_iff in H as [H Hmy].
  apply andb_true_iff in H as [H Hex].
  apply andb_true_iff in H as [Hh Hl].
  apply negb_true_iff in Hl, Hmy.
  apply existsb_exists in Hex. destruct Hex as (bus & Hin & Heq).
  apply String.eqb_eq in Heq.
  repeat split; try assumption.
  apply in_map_iff. exists bus. auto.
Qed.

Lemma step_selection_ok (signed_in : option string) (e : Event) (p : Page) :
  selection_ok signed_in p -> selection_ok signed_in (step e p).
Proof.
  unfold selection_ok. intros (Hu & Hp & Hl & Hi).
  destruct e as [error data | error data | busId del ins | |]; simpl.
  - destruct (buses_pending p) eqn:Hpend.
    2: { split; [exact Hu | split; [intros X; congruence |]].
         split; [exact Hl | exact Hi]. }
    specialize (Hp eq_refl). specialize (Hl Hp).
    unfold loadBuses_resume, setBuses, setLoading.
    destruct error; simpl.
    + rewrite inserted_app, Hl. simpl.
      split; [exact Hu | split; [discriminate | split; [reflexivity |]]].
      intros r [].
    + destruct (here p) eqn:Hh; simpl; rewrite ?Hh; simpl; rewrite Hl;
        (split; [exact Hu | split; [discriminate | split; [reflexivity |]]]);
        intros r [].
  - destruct (Nat.ltb _ _); [| auto].
    set (p1 := with_myBus_answered _ p).
    destruct (world_after_myBus_answer error data p1) as (W & L & _ & B & P).
    rewrite W, L, B, P. auto.
  - destruct (select_enabled p busId) eqn:Hen; [| auto].
    destruct (listed_of_enabled p busId Hen) as (Hload & Hlisted & _ & _).
    destruct (inserted_after busId del ins (world p)) as [Eu Ei].
    simpl. rewrite Eu, Ei, Hload.
    split; [exact Hu | split; [| split]].
    + intros Hpend. specialize (Hp Hpend). congruence.
    + discriminate.
    + intros r Hin. apply in_app_or in Hin. destruct Hin as [Hin | Hin].
      * apply Hi. exact Hin.
      * rewrite Hu in Hin. destruct signed_in as [student |];
          [| destruct Hin].
        destruct Hin as [<- | []]. simpl. auto.
  - destruct (track_offered p); [| auto].
    unfold handleTrackBus. destruct (myBus p); simpl; auto.
  - destruct (logout_offered p); simpl; auto.
Qed.

(** X21. On the page, a row is only ever inserted for the signed-in student
    and for a bus of the list the page shows: no selection is possible
    before the list has loaded, nor for a bus that is not on it. *)
Theorem only_listed_buses_are_selected (signed_in : option string)
    (rows : list Assignment.t) (es : list Event) (row : Assignment.t) :
  let p := run es (mount signed_in rows) in
  In row (inserted (trace (world p))) ->
  signed_in = Some (Assignment.student_id row) /\
  In (Assignment.bus_id row) (map BusData.id (buses p)).
Proof.
  cbv zeta.
  assert (H : selection_ok signed_in (run es (mount signed_in rows))).
  { induction es as [| e es IH] using rev_ind.
    - unfold selection_ok. destruct signed_in; simpl;
        (split; [reflexivity | split; [intros _; reflexivity |]]);
        (split; [intros _; reflexivity | intros r []]).
    - rewrite page_run_snoc. apply step_selection_ok. exact IH. }
  destruct H as (_ & _ & _ & Hi). apply Hi.
Qed.

Lemma only_listed_buses_are_selected_witness :
  let bus := BusData.mk "bus-B" "TS-07" "Ravi" "555-0100" in
  let es := [BusesAnswer false (Some [bus]); ClickSelect "bus-B" Served Served] in
  let p := run es (mount (Some "student-1") []) in
  In (Assignment.mk "student-1" "bus-B") (inserted (trace (world p))) /\
  In "bus-B" (map BusData.id (buses p)).
Proof.
  cbv zeta.
  set (es := [BusesAnswer false
                (Some [BusData.mk "bus-B" "TS-07" "Ravi" "555-0100"]);
              ClickSelect "bus-B" Served Served]).
  assert (H : In (Assignment.mk "student-1" "bus-B")
                (inserted (trace (world (run es (mount (Some "student-1")
                                                   []))))))
    by (vm_compute; left; reflexivity).
  split; [exact H |].
  exact (proj2 (only_listed_buses_are_selected (Some "student-1") [] es
                  (Assignment.mk "student-1" "bus-B") H)).
Defined.

(** X22. After a selection that succeeded, the page goes on showing the bus
    it showed before until the answer of [loadMyBus] arrives: the success
    notice does not change what is displayed, and the track button pressed
    in between opens the page of the previous bus. *)
Theorem previous_bus_shown_until_reload (p : Page) (student busId : string)
    (previous : BusData.t) :
  user (world p) = Some student ->
  myBus p = Some previous ->
  select_enabled p busId = true ->
  let p1 := step (ClickSelect busId Served Served) p in
  BusData.id previous <> busId /\
  success_notices (trace (world p1)) =
    success_notices (trace (world p)) ++
    [toast_success "Bus selected successfully"] /\
  assignments_of student (student_buses (world p1)) =
    [Assignment.mk student busId] /\
  myBus p1 = Some previous /\
  log (step ClickTrack p1) =
    log p ++ [navigate (String.append "/track/" (BusData.id previous))].
Proof.
  intros Hu Hmy Hen. cbv zeta.
  destruct (listed_of_enabled p busId Hen) as (Hload & _ & Hnot & Hhere).
  simpl. rewrite Hen.
  destruct p as [[u rows tr] bs mb ld hr bp ans lg].
  simpl in *. subst u mb ld hr.
  rewrite handleSelectBus_served.
  split; [| split; [| split; [| split]]].
  - apply String.eqb_neq. exact Hnot.
  - simpl. unfold success_notices. rewrite filter_app. reflexivity.
  - simpl. rewrite assignments_of_app, none_left_after_delete.
    unfold assignments_of. simpl. rewrite belongs_to_own. reflexivity.
  - reflexivity.
  - unfold track_offered, handleTrackBus. simpl. reflexivity.
Qed.

Lemma previous_bus_shown_until_reload_witness :
  let busA := BusData.mk "bus-A" "TS-01" "Anil" "555-0101" in
  let busB := BusData.mk "bus-B" "TS-07" "Ravi" "555-0100" in
  let p := run [BusesAnswer false (Some [busA; busB]);
                MyBusAnswer None (Some (Some busA))]
             (mount (Some "student-1") [Assignment.mk "student-1" "bus-A"]) in
  let p1 := step (ClickSelect "bus-B" Served Served) p in
  user (world p) = Some "student-1" /\ myBus p = Some busA /\
  select_enabled p "bus-B" = true /\
  myBus p1 = Some busA /\
  log (step ClickTrack p1) = log p ++ [navigate "/track/bus-A"].
Proof.
  cbv zeta.
  set (busA := BusData.mk "bus-A" "TS-01" "Anil" "555-0101").
  set (busB := BusData.mk "bus-B" "TS-07" "Ravi" "555-0100").
  set (p := run [BusesAnswer false (Some [busA; busB]);
                 MyBusAnswer None (Some (Some busA))]
              (mount (Some "student-1")
                 [Assignment.mk "student-1" "bus-A"])).
  assert (H1 : user (world p) = Some "student-1") by (vm_compute; reflexivity).
  assert (H2 : myBus p = Some busA) by (vm_compute; reflexivity).
  assert (H3 : select_enabled p "bus-B" = true) by (vm_compute; reflexivity).
  destruct (previous_bus_shown_until_reload p "student-1" "bus-B" busA
              H1 H2 H3) as (_ & _ & _ & K4 & K5).
  repeat split; assumption.
Defined.

End DashboardExtras.
